(** * static/script.js: the chart page's script, embedded and verified

    The script is a browser-side presentation layer: five formatting helpers,
    an info panel, a chart built through the LightweightCharts library and two
    triggers that fetch data and hand it to them.

    Layout of this development:
    - [JS]: the part of the JavaScript language the script relies on: values,
      the IEEE-754 binary64 numbers (Rocq's primitive floats), the coercions
      [ToBoolean], [ToNumber], [ToString], and the built-ins
      [Number.prototype.toFixed] and [Number::toString] transcribed from
      ECMA-262;
    - [Html]: the part of the HTML tokenizer and tree builder that reads the
      markup of option elements, transcribed from the HTML Standard;
    - [Page]: the document, console, network and charting library the script
      acts on, as one explicit state, and the monad that threads it;
    - [Script] and [Handlers]: the functions of script.js, one definition
      each, under the names they have in the source;
    - [Spec]: what the words of the specification mean ("formatted to 2
      decimal places", the expected chart, a handled failure);
    - [Sample]: a host and pages to run closed examples on;
    - [Frame]: what the handlers keep, as observations and invariants of the
      page;
    - the lemmas and theorems. *)

From Stdlib Require Import ZArith QArith Qabs Floats String Ascii List Lia.
From Stdlib Require Import DecimalString DecimalN DecimalFacts.
From stdpp Require Import gmap strings list.

Set Warnings "-inexact-float,-register-all".
Local Open Scope string_scope.

(** ** The JavaScript fragment *)
Module JS.

(** A JavaScript Number is an IEEE-754 binary64 value: a primitive float.
    Arithmetic ([/], [*]) and comparisons are the primitive operations;
    [Prim2SF] gives the sign, mantissa and exponent of a value, from which its
    exact mathematical value and its decimal renderings are computed. *)
Abbreviation number := float (only parsing).

(** The mathematical value of [m * 2^e], as a fraction. *)
Definition ratio (m : positive) (e : Z) : Q :=
  match e with
  | Zneg p => Z.pos m # 2 ^ p
  | _ => (Z.pos m * 2 ^ e) # 1
  end.

(** ℝ(x): the mathematical value of a finite number (0 for the others, which
    have none and are kept apart by [isFinite]). *)
Definition mathematical_value (x : number) : Q :=
  match Prim2SF x with
  | S754_finite s m e => if s then Qopp (ratio m e) else ratio m e
  | _ => 0
  end.

Definition isFinite (x : number) : bool :=
  match Prim2SF x with
  | S754_zero _ | S754_finite _ _ _ => true
  | _ => false
  end.

Definition isNaN (x : number) : bool :=
  match Prim2SF x with S754_nan => true | _ => false end.

(** *** Decimal digits *)

(** The decimal representation of a natural number, most significant digit
    first, without leading zeroes ("0" for zero). *)
Definition decimal (n : N) : string := NilEmpty.string_of_uint (N.to_uint n).

Fixpoint zeros (k : nat) : string :=
  match k with O => "" | S k => String "0" (zeros k) end.

(** *** Number::toString (ECMA-262 6.1.6.1.20, radix 10) *)

(** 𝔽(p / q): the binary64 value nearest to a positive fraction, ties to
    even (the division of two exactly represented integers, rounded once). *)
Definition nearest_number (p q : positive) : spec_float :=
  SFdiv prec emax (S754_finite false p 0) (S754_finite false q 0).

(** [s * 10^j] as a fraction of two positive integers. *)
Definition times_pow10 (s : positive) (j : Z) : positive * positive :=
  match j with
  | Zneg p => (s, 10 ^ p)%positive
  | Z0 => (s, 1%positive)
  | Zpos p => (s * 10 ^ p, 1)%positive
  end.

(** Does 𝔽(s * 10^(n-k)) equal the value [m * 2^e]? *)
Definition reads_back (m : positive) (e : Z) (s : positive) (j : Z) : bool :=
  let '(p, q) := times_pow10 s j in
  SFeqb (nearest_number p q) (S754_finite false m e).

(** [10^j <= v] for [v = vn / vd]. *)
Definition pow10_le (j : Z) (vn vd : positive) : bool :=
  match j with
  | Zneg p => (Z.pos vd <=? Z.pos vn * 10 ^ Z.pos p)%Z
  | _ => (10 ^ j * Z.pos vd <=? Z.pos vn)%Z
  end.

Fixpoint climb (fuel : nat) (j : Z) (vn vd : positive) : Z :=
  match fuel with
  | O => j
  | S fuel => if pow10_le (j + 1) vn vd then climb fuel (j + 1) vn vd else j
  end.

(** The integer [n0] with [10^(n0-1) <= v < 10^n0]: an estimate from the
    binary logarithms, two below the answer at worst, then corrected. *)
Definition decimal_exponent (vn vd : positive) : Z :=
  let est := ((Z.log2 (Z.pos vn) - Z.log2 (Z.pos vd)) * 30103 / 100000)%Z in
  (climb 5 (est - 2) vn vd + 1)%Z.

(** The candidates with [k] digits: the two [k]-digit decimals around [v],
    each as [(s, n)] standing for [s * 10^(n-k)], the nearer to [v] first
    (the even one on a tie). *)
Definition candidates (k : Z) (n0 : Z) (vn vd : positive) : list (Z * Z) :=
  let '(un, ud) := times_pow10 1 (n0 - k) in
  let P := (Z.pos vn * Z.pos ud)%Z in
  let Q := (Z.pos vd * Z.pos un)%Z in
  let lo := (P / Q)%Z in
  let r := (P mod Q)%Z in
  let up := if (lo + 1 =? 10 ^ k)%Z then (10 ^ (k - 1), n0 + 1)%Z else (lo + 1, n0)%Z in
  if (r =? 0)%Z then [(lo, n0)]
  else match (2 * r ?= Q)%Z with
       | Lt => [(lo, n0); up]
       | Gt => [up; (lo, n0)]
       | Eq => if Z.even lo then [(lo, n0); up] else [up; (lo, n0)]
       end.

Definition first_reading_back (m : positive) (e : Z) (k : Z) (cs : list (Z * Z))
  : option (Z * Z) :=
  List.find (fun '(s, n) =>
    match s with Zpos sp => reads_back m e sp (n - k) | _ => false end) cs.

(** Step 5: the shortest digit string [s] (with [k] digits) and the exponent
    [n] for which [s * 10^(n-k)] reads back as the number. [k] runs from 1
    upwards; 17 digits always identify a binary64 value. *)
Fixpoint shortest (fuel : nat) (k : Z) (m : positive) (e : Z) (n0 : Z) (vn vd : positive)
  : Z * Z * Z :=
  match fuel with
  | O => (n0, k, fst (List.hd (0%Z, 0%Z) (candidates k n0 vn vd)))
  | S fuel =>
      match first_reading_back m e k (candidates k n0 vn vd) with
      | Some (s, n) => (n, k, s)
      | None => shortest fuel (k + 1) m e n0 vn vd
      end
  end.

Definition fraction_of (m : positive) (e : Z) : positive * positive :=
  match e with
  | Zneg p => (m, 2 ^ p)%positive
  | Z0 => (m, 1%positive)
  | Zpos p => (m * 2 ^ p, 1)%positive
  end.

Definition exponent_part (n : Z) : string :=
  "e" ++ (if (n - 1 <? 0)%Z then "-" else "+") ++ decimal (Z.to_N (Z.abs (n - 1))).

(** Steps 7 to 11: the digits laid out by the position of the decimal point. *)
Definition layout (n k s : Z) : string :=
  let digits := decimal (Z.to_N s) in
  if ((k <=? n) && (n <=? 21))%Z then digits ++ zeros (Z.to_nat (n - k))
  else if ((0 <? n) && (n <=? 21))%Z then
    substring 0 (Z.to_nat n) digits ++ "." ++ substring (Z.to_nat n) (Z.to_nat (k - n)) digits
  else if ((-6 <? n) && (n <=? 0))%Z then "0." ++ zeros (Z.to_nat (- n)) ++ digits
  else if (k =? 1)%Z then digits ++ exponent_part n
  else substring 0 1 digits ++ "." ++ substring 1 (Z.to_nat (k - 1)) digits ++ exponent_part n.

Definition NumberToString (x : number) : string :=
  match Prim2SF x with
  | S754_nan => "NaN"
  | S754_zero _ => "0"
  | S754_infinity s => if s then "-Infinity" else "Infinity"
  | S754_finite s m e =>
      let '(vn, vd) := fraction_of m e in
      let '(n, k, d) := shortest 17 1 m e (decimal_exponent vn vd) vn vd in
      (if s then "-" else "") ++ layout n k d
  end.

(** *** Number.prototype.toFixed (ECMA-262 21.1.3.3) *)

(** Step 8.a for [x = m * 2^e > 0]: the integer [n] for which [n / 10^f - x]
    is as close to zero as possible, the larger one when there are two. *)
Definition nearest_scaled (f : nat) (m : positive) (e : Z) : Z :=
  let scaled := (Z.pos m * 10 ^ Z.of_nat f)%Z in
  match e with
  | Zneg p => ((2 * scaled + 2 ^ Z.pos p) / (2 * 2 ^ Z.pos p))%Z
  | _ => (scaled * 2 ^ e)%Z
  end.

(** Step 7's test [x >= 10^21], exactly. *)
Definition at_least_1e21 (m : positive) (e : Z) : bool :=
  match e with
  | Zneg p => (10 ^ 21 * 2 ^ Z.pos p <=? Z.pos m)%Z
  | _ => (10 ^ 21 <=? Z.pos m * 2 ^ e)%Z
  end.

(** Steps 8.b and 8.c: the digits of [n], padded with zeroes to [f + 1]
    digits when shorter, with the decimal point before the last [f]. *)
Definition fixed_layout (f : nat) (n : Z) : string :=
  let m := decimal (Z.to_N n) in
  if Nat.eqb f 0 then m
  else
    let k := String.length m in
    let m := if (k <=? f)%nat then zeros (f + 1 - k) ++ m else m in
    let k := if (k <=? f)%nat then (f + 1)%nat else k in
    substring 0 (k - f) m ++ "." ++ substring (k - f) f m.

(** [x.toFixed(fractionDigits)], for [0 <= fractionDigits <= 100] (the script
    only passes 2; a RangeError outside that range is not modelled). *)
Definition toFixed (x : number) (fractionDigits : nat) : string :=
  match Prim2SF x with
  | S754_finite s m e =>
      (if s then "-" else "") ++
      (if at_least_1e21 m e then NumberToString (abs x)
       else fixed_layout fractionDigits (nearest_scaled fractionDigits m e))
  | S754_zero _ => fixed_layout fractionDigits 0
  | _ => NumberToString x
  end.

(** *** Values *)

(** The values the script handles: [undefined] and what [JSON.parse] can
    produce. An object is the list of its own properties. *)
Inductive JSValue :=
| JUndefined
| JNull
| JBoolean (b : bool)
| JNumber (x : number)
| JString (s : string)
| JArray (items : list JSValue)
| JObject (props : list (string * JSValue)).

(** What a [throw] carries, or a promise is rejected with: a TypeError
    raised by the language, or a reason supplied by the environment (a failed
    request, a body that is not JSON). *)
Inductive Thrown :=
| TypeError
| Rejection (reason : string).

(** The outcome of evaluating an expression. *)
Inductive Completion (A : Type) :=
| Normal (a : A)
| Throw (e : Thrown).
Arguments Normal {A} a.
Arguments Throw {A} e.

#[global] Instance Completion_ret : MRet Completion := @Normal.
#[global] Instance Completion_bind : MBind Completion := fun A B f c =>
  match c with
  | Normal a => f a
  | Throw e => Throw e
  end.

(** The kinds of series the script asks the charting library for. *)
Inductive SeriesKind := Candlestick | Histogram.

(** What the language leaves to the engine, the locale, or to objects the
    script never builds itself, and what is decided outside the repository,
    by the charting library and by the page's markup. Nothing is assumed
    about these functions. *)
Class Host := {
  (** StringToNumber (7.1.4.1.1): the Number a String converts to. *)
  StringToNumber : string -> number;
  (** ToPrimitive (7.1.1) of an Array or an Object: the String its [toString]
      produces, or the TypeError of an object whose own properties shadow
      the inherited methods. *)
  ObjectToPrimitive : JSValue -> Completion string;
  (** [Number.prototype.toLocaleString] in the page's locale. *)
  NumberToLocaleString : number -> string;
  (** [toLocaleString] invoked on an Array or an Object. *)
  ObjectToLocaleString : JSValue -> Completion string;
  (** [series.setData(data)] of the charting library, for a series of the
      given kind: whether the library takes the data or throws. *)
  SetDataOutcome : SeriesKind -> JSValue -> Completion unit;
  (** [series.setMarkers(markers)] of the charting library: whether the
      library takes the markers or throws. *)
  SetMarkersOutcome : list JSValue -> Completion unit;
  (** The [value] a selection control reports once its content has been
      replaced by the given markup: that of the option the browser selects,
      which depends on the control's kind (a drop-down selects its first
      option, a list box none). *)
  ControlValue : string -> string;
}.

(** [Array.isArray(v)]. *)
Definition isArray (v : JSValue) : bool :=
  match v with
  | JArray _ => true
  | _ => false
  end.

(** The values that are not objects. *)
Definition isPrimitive (v : JSValue) : bool :=
  match v with
  | JArray _ | JObject _ => false
  | _ => true
  end.

Section Coercions.
Context `{Host}.

(** ToBoolean (7.1.2). *)
Definition ToBoolean (v : JSValue) : bool :=
  match v with
  | JUndefined | JNull => false
  | JBoolean b => b
  | JNumber x =>
      match Prim2SF x with
      | S754_zero _ | S754_nan => false
      | _ => true
      end
  | JString s => negb (String.eqb s "")
  | JArray _ | JObject _ => true
  end.

(** ToNumber (7.1.4). *)
Definition ToNumber (v : JSValue) : Completion number :=
  match v with
  | JUndefined => Normal nan
  | JNull => Normal 0%float
  | JBoolean b => Normal (if b then 1 else 0)%float
  | JNumber x => Normal x
  | JString s => Normal (StringToNumber s)
  | JArray _ | JObject _ => s ← ObjectToPrimitive v; Normal (StringToNumber s)
  end.

(** ToString (7.1.17). *)
Definition ToString (v : JSValue) : Completion string :=
  match v with
  | JUndefined => Normal "undefined"
  | JNull => Normal "null"
  | JBoolean b => Normal (if b then "true" else "false")
  | JNumber x => Normal (NumberToString x)
  | JString s => Normal s
  | JArray _ | JObject _ => ObjectToPrimitive v
  end.

(** [v >= y] against a Number (13.10, IsLessThan): [v] goes through
    ToNumber; a NaN on either side compares false. *)
Definition ge (v : JSValue) (y : number) : Completion bool :=
  x ← ToNumber v; Normal (y <=? x)%float.

(** [v / y] and [v * y] against a Number (13.7). *)
Definition divide (v : JSValue) (y : number) : Completion number :=
  x ← ToNumber v; Normal (x / y)%float.

Definition multiply (v : JSValue) (y : number) : Completion number :=
  x ← ToNumber v; Normal (x * y)%float.

(** [v === s] against a String (7.2.16). *)
Definition strict_equals_string (v : JSValue) (s : string) : bool :=
  match v with
  | JString t => String.eqb t s
  | _ => false
  end.

(** [v.toFixed(digits)]: only a Number has the method; on [undefined] and
    [null] the property read fails, on every other value the call does. *)
Definition call_toFixed (v : JSValue) (digits : nat) : Completion string :=
  match v with
  | JNumber x => Normal (toFixed x digits)
  | _ => Throw TypeError
  end.

(** [v.toLocaleString()]: a Number formats itself in the locale; a String
    and a Boolean inherit [Object.prototype.toLocaleString], which returns
    their [toString]. *)
Definition call_toLocaleString (v : JSValue) : Completion string :=
  match v with
  | JUndefined | JNull => Throw TypeError
  | JBoolean b => Normal (if b then "true" else "false")
  | JNumber x => Normal (NumberToLocaleString x)
  | JString s => Normal s
  | JArray _ | JObject _ => ObjectToLocaleString v
  end.

(** [v.name] for a property name that no built-in prototype defines (every
    name the script reads is one): the own property of an object,
    [undefined] when there is none, a TypeError on [undefined] and [null]. *)
Definition Get (v : JSValue) (name : string) : Completion JSValue :=
  match v with
  | JUndefined | JNull => Throw TypeError
  | JObject props =>
      Normal (match List.find (fun p => String.eqb (fst p) name) props with
              | Some p => snd p
              | None => JUndefined
              end)
  | _ => Normal JUndefined
  end.

End Coercions.

End JS.

(** ** How a browser reads the markup given to a selection control *)
Module Html.

(** The tokens of the HTML tokenizer (HTML Standard, 13.2.5) that the
    markup of option elements is made of. *)
Inductive Token :=
| StartTag (name : string) (attributes : list (string * string))
| EndTag (name : string)
| Character (c : ascii).

Inductive State :=
| Data
| TagOpen
| EndTagOpen
| TagName
| BeforeAttributeName
| AttributeName
| AfterAttributeName
| BeforeAttributeValue
| AttributeValueDoubleQuoted
| AttributeValueSingleQuoted
| AttributeValueUnquoted
| AfterAttributeValueQuoted
| SelfClosingStartTag.

(** The tokenizer between two characters: its state, the tag token it is
    building (a start or an end tag, its name, its finished attributes, the
    attribute being read), and the tokens emitted so far. *)
Record Tokenizer := {
  state : State;
  closing : bool;
  name : string;
  attributes : list (string * string);
  attribute : option (string * string);
  emitted : list Token;
}.

Definition initial : Tokenizer :=
  {| state := Data; closing := false; name := ""; attributes := []; attribute := None;
     emitted := [] |}.

Definition switch (s : State) (t : Tokenizer) : Tokenizer :=
  {| state := s; closing := closing t; name := name t; attributes := attributes t;
     attribute := attribute t; emitted := emitted t |}.

Definition emit (k : Token) (t : Tokenizer) : Tokenizer :=
  {| state := state t; closing := closing t; name := name t; attributes := attributes t;
     attribute := attribute t; emitted := emitted t ++ [k] |}.

(** A new tag token, with an empty name and no attribute. *)
Definition new_tag (end_tag : bool) (t : Tokenizer) : Tokenizer :=
  {| state := state t; closing := end_tag; name := ""; attributes := []; attribute := None;
     emitted := emitted t |}.

Definition append (c : ascii) (s : string) : string := s ++ String c "".

Definition append_to_name (c : ascii) (t : Tokenizer) : Tokenizer :=
  {| state := state t; closing := closing t; name := append c (name t);
     attributes := attributes t; attribute := attribute t; emitted := emitted t |}.

(** Leaving an attribute: it joins the tag's attributes, unless the tag
    has an attribute of that name already (the later one is dropped). *)
Definition finish_attribute (t : Tokenizer) : Tokenizer :=
  {| state := state t; closing := closing t; name := name t;
     attributes :=
       match attribute t with
       | Some (n, v) =>
           if existsb (fun a => String.eqb a.1 n) (attributes t) then attributes t
           else attributes t ++ [(n, v)]
       | None => attributes t
       end;
     attribute := None; emitted := emitted t |}.

(** A new attribute in the current tag token, its name starting with [n]. *)
Definition new_attribute (n : string) (t : Tokenizer) : Tokenizer :=
  let t := finish_attribute t in
  {| state := state t; closing := closing t; name := name t; attributes := attributes t;
     attribute := Some (n, ""); emitted := emitted t |}.

Definition append_to_attribute_name (c : ascii) (t : Tokenizer) : Tokenizer :=
  {| state := state t; closing := closing t; name := name t; attributes := attributes t;
     attribute := match attribute t with
                  | Some (n, v) => Some (append c n, v)
                  | None => Some (append c "", "")
                  end;
     emitted := emitted t |}.

Definition append_to_attribute_value (c : ascii) (t : Tokenizer) : Tokenizer :=
  {| state := state t; closing := closing t; name := name t; attributes := attributes t;
     attribute := match attribute t with
                  | Some (n, v) => Some (n, append c v)
                  | None => Some ("", append c "")
                  end;
     emitted := emitted t |}.

(** Emitting the current tag token; the attributes of an end tag are
    ignored. The tokenizer returns to the data state. *)
Definition emit_tag (t : Tokenizer) : Tokenizer :=
  let t := finish_attribute t in
  {| state := Data; closing := false; name := ""; attributes := []; attribute := None;
     emitted := emitted t ++ [if closing t then EndTag (name t) else StartTag (name t) (attributes t)] |}.

Definition is_whitespace (c : ascii) : bool :=
  let n := nat_of_ascii c in
  (n =? 9)%nat || (n =? 10)%nat || (n =? 12)%nat || (n =? 32)%nat.

Definition is_upper (c : ascii) : bool :=
  let n := nat_of_ascii c in (65 <=? n)%nat && (n <=? 90)%nat.

Definition is_alpha (c : ascii) : bool :=
  let n := nat_of_ascii c in
  ((65 <=? n)%nat && (n <=? 90)%nat) || ((97 <=? n)%nat && (n <=? 122)%nat).

Definition lower (c : ascii) : ascii :=
  if is_upper c then ascii_of_nat (nat_of_ascii c + 32) else c.

(** What the model leaves out: a NUL character, a carriage return (the
    input stream replaces it before the tokenizer runs) and an ampersand
    (the start of a character reference). *)
Definition unread (c : ascii) : bool :=
  let n := nat_of_ascii c in (n =? 0)%nat || (n =? 13)%nat || (n =? 38)%nat.

Definition code (c : ascii) (n : nat) : bool := (nat_of_ascii c =? n)%nat.

(** 13.2.5.1 Data state. *)
Definition data (t : Tokenizer) (c : ascii) : option Tokenizer :=
  if code c 60 then Some (switch TagOpen t)
  else Some (emit (Character c) t).

(** 13.2.5.8 Tag name state. *)
Definition tag_name (t : Tokenizer) (c : ascii) : option Tokenizer :=
  if is_whitespace c then Some (switch BeforeAttributeName t)
  else if code c 47 then Some (switch SelfClosingStartTag t)
  else if code c 62 then Some (emit_tag t)
  else Some (append_to_name (lower c) t).

(** 13.2.5.6 Tag open state. *)
Definition tag_open (t : Tokenizer) (c : ascii) : option Tokenizer :=
  if code c 33 then None
  else if code c 47 then Some (switch EndTagOpen t)
  else if is_alpha c then tag_name (switch TagName (new_tag false t)) c
  else if code c 63 then None
  else data (switch Data (emit (Character "<") t)) c.

(** 13.2.5.7 End tag open state. *)
Definition end_tag_open (t : Tokenizer) (c : ascii) : option Tokenizer :=
  if is_alpha c then tag_name (switch TagName (new_tag true t)) c
  else if code c 62 then Some (switch Data t)
  else None.

(** 13.2.5.33 Attribute name state, on a character that belongs to the
    name or ends it with an equals sign. *)
Definition attribute_name_on (t : Tokenizer) (c : ascii) : option Tokenizer :=
  if code c 61 then Some (switch BeforeAttributeValue t)
  else Some (append_to_attribute_name (lower c) (switch AttributeName t)).

(** 13.2.5.34 After attribute name state. *)
Definition after_attribute_name (t : Tokenizer) (c : ascii) : option Tokenizer :=
  if is_whitespace c then Some (switch AfterAttributeName t)
  else if code c 47 then Some (switch SelfClosingStartTag t)
  else if code c 61 then Some (switch BeforeAttributeValue t)
  else if code c 62 then Some (emit_tag t)
  else attribute_name_on (new_attribute "" t) c.

(** 13.2.5.33 Attribute name state. *)
Definition attribute_name (t : Tokenizer) (c : ascii) : option Tokenizer :=
  if is_whitespace c || code c 47 || code c 62 then after_attribute_name t c
  else attribute_name_on t c.

(** 13.2.5.32 Before attribute name state. *)
Definition before_attribute_name (t : Tokenizer) (c : ascii) : option Tokenizer :=
  if is_whitespace c then Some (switch BeforeAttributeName t)
  else if code c 47 || code c 62 then after_attribute_name t c
  else if code c 61 then Some (switch AttributeName (new_attribute "=" t))
  else attribute_name_on (new_attribute "" t) c.

(** 13.2.5.38 Attribute value (unquoted) state. *)
Definition attribute_value_unquoted (t : Tokenizer) (c : ascii) : option Tokenizer :=
  if is_whitespace c then Some (switch BeforeAttributeName t)
  else if code c 62 then Some (emit_tag t)
  else Some (append_to_attribute_value c (switch AttributeValueUnquoted t)).

(** 13.2.5.35 Before attribute value state. *)
Definition before_attribute_value (t : Tokenizer) (c : ascii) : option Tokenizer :=
  if is_whitespace c then Some (switch BeforeAttributeValue t)
  else if code c 34 then Some (switch AttributeValueDoubleQuoted t)
  else if code c 39 then Some (switch AttributeValueSingleQuoted t)
  else if code c 62 then Some (emit_tag t)
  else attribute_value_unquoted t c.

(** 13.2.5.36 and 13.2.5.37 Attribute value (quoted) states: the value
    runs to the next quote of its kind. *)
Definition attribute_value_quoted (quote : nat) (t : Tokenizer) (c : ascii) : option Tokenizer :=
  if code c quote then Some (switch AfterAttributeValueQuoted t)
  else Some (append_to_attribute_value c t).

(** 13.2.5.39 After attribute value (quoted) state. *)
Definition after_attribute_value_quoted (t : Tokenizer) (c : ascii) : option Tokenizer :=
  if is_whitespace c then Some (switch BeforeAttributeName t)
  else if code c 47 then Some (switch SelfClosingStartTag t)
  else if code c 62 then Some (emit_tag t)
  else before_attribute_name t c.

(** 13.2.5.40 Self-closing start tag state. *)
Definition self_closing_start_tag (t : Tokenizer) (c : ascii) : option Tokenizer :=
  if code c 62 then Some (emit_tag t)
  else before_attribute_name t c.

(** One character consumed. *)
Definition step (t : Tokenizer) (c : ascii) : option Tokenizer :=
  if unread c then None
  else
    match state t with
    | Data => data t c
    | TagOpen => tag_open t c
    | EndTagOpen => end_tag_open t c
    | TagName => tag_name t c
    | BeforeAttributeName => before_attribute_name t c
    | AttributeName => attribute_name t c
    | AfterAttributeName => after_attribute_name t c
    | BeforeAttributeValue => before_attribute_value t c
    | AttributeValueDoubleQuoted => attribute_value_quoted 34 t c
    | AttributeValueSingleQuoted => attribute_value_quoted 39 t c
    | AttributeValueUnquoted => attribute_value_unquoted t c
    | AfterAttributeValueQuoted => after_attribute_value_quoted t c
    | SelfClosingStartTag => self_closing_start_tag t c
    end.

Fixpoint run (t : Tokenizer) (s : string) : option Tokenizer :=
  match s with
  | EmptyString => Some t
  | String c r =>
      match step t c with
      | Some t' => run t' r
      | None => None
      end
  end.

(** The tokens of a markup that ends outside a tag. *)
Definition tokens (s : string) : option (list Token) :=
  match run initial s with
  | Some t => match state t with Data => Some (emitted t) | _ => None end
  | None => None
  end.

(** An option element as the tree builder leaves it: its attributes and
    its text. *)
Record OptionElement := {
  option_attributes : list (string * string);
  option_text : string;
}.

Definition close (current : option OptionElement) : list OptionElement :=
  match current with
  | Some o => [o]
  | None => []
  end.

(** The option elements the tree builder makes of the tokens, inside a
    selection control (13.2.6.4): a start tag opens an option, closing the
    one that is open; text joins the open option; an end tag closes it.
    Text outside an option is no option. Other elements are left out of the
    model. *)
Fixpoint options_from (ts : list Token) (current : option OptionElement)
  : option (list OptionElement) :=
  match ts with
  | [] => Some (close current)
  | StartTag n attrs :: ts =>
      if String.eqb n "option" then
        option_map (app (close current))
          (options_from ts (Some {| option_attributes := attrs; option_text := "" |}))
      else None
  | EndTag n :: ts =>
      if String.eqb n "option" then option_map (app (close current)) (options_from ts None)
      else None
  | Character c :: ts =>
      match current with
      | Some o =>
          options_from ts (Some {| option_attributes := option_attributes o;
                                   option_text := append c (option_text o) |})
      | None => options_from ts None
      end
  end.

(** Every character of a string passes a test. *)
Fixpoint every (p : ascii -> bool) (s : string) : bool :=
  match s with
  | EmptyString => true
  | String c r => p c && every p r
  end.

(** The characters an attribute value between double quotes takes as they
    are, and those the content of an element does. *)
Definition value_character (c : ascii) : bool := negb (unread c) && negb (code c 34).
Definition text_character (c : ascii) : bool := negb (unread c) && negb (code c 60).

(** The character tokens of a text. *)
Fixpoint characters (s : string) : list Token :=
  match s with
  | EmptyString => []
  | String c r => Character c :: characters r
  end.

(** The tokens of an option element with a value and a text. *)
Definition option_tokens (value text : string) : list Token :=
  StartTag "option" [("value", value)] :: characters text ++ [EndTag "option"].

(** The options a selection control holds once [html] is assigned to its
    [innerHTML]; nothing when the markup is outside the model. *)
Definition parse_options (html : string) : option (list OptionElement) :=
  match tokens html with
  | Some ts => options_from ts None
  | None => None
  end.

End Html.

(** ** The page the script runs in *)
Module Page.
Import JS.

(** A request as [fetch] receives it. [json_body] is the value whose JSON
    text ([JSON.stringify]) is sent as the body. *)
Record Request := {
  url : string;
  method : string;
  headers : list (string * string);
  json_body : option JSValue;
}.

Definition GET (url : string) : Request :=
  {| url := url; method := "GET"; headers := []; json_body := None |}.

(** What [response.json()] settles to: the parsed body, or a rejection when
    the body is not JSON. *)
Inductive Body :=
| Json (v : JSValue)
| NotJson (reason : string).

(** What the promise returned by [fetch] settles to. A rejection carries the
    moment it happens, which decides the reason [Promise.all] reports when
    several of its promises reject. *)
Inductive FetchOutcome :=
| Responds (b : Body)
| Fails (at_time : nat) (reason : string).

(** The charting library, as a recorder of the calls it carries out on a
    chart, in the order it receives them. Its layout and rendering are
    outside the repository. The calls that take the script's own constants
    (creating a chart, adding a series, fitting the time scale) return;
    whether the library takes the data and the markers it is handed is its
    own decision ([SetDataOutcome], [SetMarkersOutcome]): a call it refuses
    throws and leaves the chart as it was. *)
Inductive Call :=
| AddSeries (k : SeriesKind) (options : JSValue)
| SetData (series : nat) (d : JSValue)          (* on the series added at that place *)
| SetMarkers (series : nat) (ms : list JSValue)
| FitContent.                                   (* [timeScale().fitContent()] *)

Record Chart := {
  chart_options : JSValue;
  calls : list Call;
}.

(** A series object: the chart it was added to, its place among the
    series of that chart, and its kind. *)
Record Series := {
  of_chart : nat;
  place : nat;
  kind : SeriesKind;
}.

(** The state one run of a handler reads and changes. The elements the
    script looks up by id belong to the page's markup, which is outside the
    repository: they are taken to exist.

    The script's second module variable, [volumeSeries], is declared and
    never read or assigned ([renderChart] declares a local of the same
    name), so it has no field. *)
Record World := {
  chart : option nat;                     (* the module variable [chart]: [null], or an instance of [charts] *)
  values : gmap string string;            (* [.value] of the inputs and of the selection control, by id *)
  texts : gmap string string;             (* [.textContent] of the display fields, by id *)
  markup : gmap string string;            (* [.innerHTML] as last assigned, by id *)
  mounted : gmap string (list nat);       (* the chart instances mounted inside an element, by id *)
  charts : list Chart;                    (* every chart instance created so far *)
  console : list (string * Thrown);       (* the calls of [console.error] *)
  alerts : list string;                   (* the calls of [alert] *)
  requests : list Request;                (* the calls of [fetch] *)
  network : Request -> FetchOutcome;      (* the environment: how each request ends *)
}.

Definition set_chart (x : option nat) (w : World) : World :=
  {| chart := x; values := values w; texts := texts w; markup := markup w;
     mounted := mounted w; charts := charts w; console := console w;
     alerts := alerts w; requests := requests w; network := network w |}.

Definition set_values (x : gmap string string) (w : World) : World :=
  {| chart := chart w; values := x; texts := texts w; markup := markup w;
     mounted := mounted w; charts := charts w; console := console w;
     alerts := alerts w; requests := requests w; network := network w |}.

Definition set_texts (x : gmap string string) (w : World) : World :=
  {| chart := chart w; values := values w; texts := x; markup := markup w;
     mounted := mounted w; charts := charts w; console := console w;
     alerts := alerts w; requests := requests w; network := network w |}.

Definition set_markup (x : gmap string string) (w : World) : World :=
  {| chart := chart w; values := values w; texts := texts w; markup := x;
     mounted := mounted w; charts := charts w; console := console w;
     alerts := alerts w; requests := requests w; network := network w |}.

Definition set_mounted (x : gmap string (list nat)) (w : World) : World :=
  {| chart := chart w; values := values w; texts := texts w; markup := markup w;
     mounted := x; charts := charts w; console := console w;
     alerts := alerts w; requests := requests w; network := network w |}.

Definition set_charts (x : list Chart) (w : World) : World :=
  {| chart := chart w; values := values w; texts := texts w; markup := markup w;
     mounted := mounted w; charts := x; console := console w;
     alerts := alerts w; requests := requests w; network := network w |}.

Definition set_console (x : list (string * Thrown)) (w : World) : World :=
  {| chart := chart w; values := values w; texts := texts w; markup := markup w;
     mounted := mounted w; charts := charts w; console := x;
     alerts := alerts w; requests := requests w; network := network w |}.

Definition set_alerts (x : list string) (w : World) : World :=
  {| chart := chart w; values := values w; texts := texts w; markup := markup w;
     mounted := mounted w; charts := charts w; console := console w;
     alerts := x; requests := requests w; network := network w |}.

Definition set_requests (x : list Request) (w : World) : World :=
  {| chart := chart w; values := values w; texts := texts w; markup := markup w;
     mounted := mounted w; charts := charts w; console := console w;
     alerts := alerts w; requests := x; network := network w |}.

(** *** Actions: the script's statements, threading the world *)

(** An action returns or throws, and leaves a world behind either way: what
    was done before a [throw] stays done. *)
Definition Action (A : Type) : Type := World -> Completion A * World.

#[global] Instance Action_ret : MRet Action := fun A a w => (Normal a, w).
#[global] Instance Action_bind : MBind Action := fun A B f c w =>
  match c w with
  | (Normal a, w') => f a w'
  | (Throw e, w') => (Throw e, w')
  end.

(** An expression evaluated inside a statement. *)
Definition lift {A : Type} (c : Completion A) : Action A := fun w => (c, w).

(** [try { body } catch (error) { handler }]. *)
Definition try_catch {A : Type} (body : Action A) (handler : Thrown -> Action A) : Action A :=
  fun w =>
    match body w with
    | (Normal a, w') => (Normal a, w')
    | (Throw e, w') => handler e w'
    end.

(** Calling an [async] function without awaiting it: the caller gets a
    promise and goes on; an exception inside the callee rejects that promise
    and reaches nobody. *)
Definition call_async (callee : Action unit) : Action unit :=
  fun w => (Normal tt, snd (callee w)).

(** Reading from the world, and changing it. *)
Definition gets {A : Type} (f : World -> A) : Action A := fun w => (Normal (f w), w).
Definition modify (f : World -> World) : Action unit := fun w => (Normal tt, f w).

(** *** The document, the console and the network *)

(** [document.getElementById(id).value]. *)
Definition value_of (w : World) (id : string) : string :=
  default "" (values w !! id).

Definition get_value (id : string) : Action string :=
  gets (fun w => value_of w id).

Section WithHost.
Context `{Host}.

(** [element.value = v]: the value converted to a string, [null] to the
    empty one. *)
Definition set_value (id : string) (v : JSValue) : Action unit :=
  s ← lift (match v with JNull => Normal "" | _ => ToString v end);
  modify (fun w => set_values (<[id := s]> (values w)) w).

(** [element.textContent = v]: [null] and [undefined] clear the text, any
    other value is converted to a string. *)
Definition set_textContent (id : string) (v : JSValue) : Action unit :=
  s ← lift (match v with JNull | JUndefined => Normal "" | _ => ToString v end);
  modify (fun w => set_texts (<[id := s]> (texts w)) w).

End WithHost.

(** The element that is a selection control: the script reads its
    [value] and fills it with options. *)
Definition selection_control : string := "db-entries".

Section Markup.
Context `{Host}.

(** [element.innerHTML = html]: the element's children, the chart instances
    mounted in it among them, give way to the markup. On the selection
    control the options it held are gone with them, and its [value] is the
    one the browser reports for the new content. *)
Definition set_innerHTML (id : string) (html : string) : Action unit :=
  modify (fun w =>
    let replaced := set_mounted (<[id := []]> (mounted w)) (set_markup (<[id := html]> (markup w)) w) in
    if String.eqb id selection_control
    then set_values (<[id := ControlValue html]> (values replaced)) replaced
    else replaced).

End Markup.

Definition alert (message : string) : Action unit :=
  modify (fun w => set_alerts (alerts w ++ [message]) w).

Definition console_error (message : string) (error : Thrown) : Action unit :=
  modify (fun w => set_console (console w ++ [(message, error)]) w).

(** [fetch(request)]: the request is issued; the promise it returns will
    settle as the environment decides. *)
Definition fetch (r : Request) : Action FetchOutcome :=
  fun w => (Normal (network w r), set_requests (requests w ++ [r]) w).

(** [await promise] for the promise of one request. *)
Definition await (p : FetchOutcome) : Completion Body :=
  match p with
  | Responds b => Normal b
  | Fails _ reason => Throw (Rejection reason)
  end.

(** [await Promise.all([p1, p2])]: both responses, or the reason of the
    promise that rejected first. *)
Definition await_all (p1 p2 : FetchOutcome) : Completion (Body * Body) :=
  match p1, p2 with
  | Responds b1, Responds b2 => Normal (b1, b2)
  | Fails t1 r1, Fails t2 r2 => Throw (Rejection (if (t2 <? t1)%nat then r2 else r1))
  | Fails _ r1, Responds _ => Throw (Rejection r1)
  | Responds _, Fails _ r2 => Throw (Rejection r2)
  end.

(** [await response.json()]. *)
Definition json (b : Body) : Completion JSValue :=
  match b with
  | Json v => Normal v
  | NotJson reason => Throw (Rejection reason)
  end.

(** *** The charting library *)

(** [LightweightCharts.createChart(container, options)]: a new instance,
    mounted in the container after what the container holds. *)
Definition LightweightCharts_createChart (container : string) (options : JSValue) : Action nat :=
  fun w =>
    let id := length (charts w) in
    (Normal id,
     set_mounted (<[container := (default [] (mounted w !! container) ++ [id])%list]> (mounted w))
       (set_charts (charts w ++ [{| chart_options := options; calls := [] |}]) w)).

(** A call carried out on a chart. *)
Definition carry_out (id : nat) (c : Call) : Action unit :=
  modify (fun w =>
    set_charts (alter (fun ch => {| chart_options := chart_options ch; calls := calls ch ++ [c] |})
                      id (charts w)) w).

(** The series a chart has so far. *)
Definition series_count (c : Chart) : nat :=
  length (List.filter (fun k => match k with AddSeries _ _ => true | _ => false end) (calls c)).

Definition add_series (k : SeriesKind) (id : nat) (options : JSValue) : Action Series :=
  fun w =>
    let n := match charts w !! id with Some c => series_count c | None => 0%nat end in
    (Normal {| of_chart := id; place := n; kind := k |},
     snd (carry_out id (AddSeries k options) w)).

Definition addCandlestickSeries := add_series Candlestick.
Definition addHistogramSeries := add_series Histogram.

(** [chart.timeScale().fitContent()]. *)
Definition fitContent (id : nat) : Action unit :=
  carry_out id FitContent.

Section Library.
Context `{Host}.

(** [series.setData(d)]: carried out when the library takes the data. *)
Definition setData (s : Series) (d : JSValue) : Action unit :=
  lift (SetDataOutcome (kind s) d);;
  carry_out (of_chart s) (SetData (place s) d).

(** [series.setMarkers(ms)]: carried out when the library takes the
    markers. *)
Definition setMarkers (s : Series) (ms : list JSValue) : Action unit :=
  lift (SetMarkersOutcome ms);;
  carry_out (of_chart s) (SetMarkers (place s) ms).

End Library.

End Page.

(** ** The functions of script.js: the formatting helpers *)
Module Script.
Import JS.

Section Helpers.
Context `{Host}.

(** Lines 66 to 74. *)
Definition formatMarketCap (value : JSValue) : Completion string :=
  if negb (ToBoolean value) then Normal "N/A"
  else
    let billion := 1000000000%float in
    let million := 1000000%float in
    c ← ge value billion;
    if (c : bool) then
      q ← divide value billion; Normal ("$" ++ toFixed q 2 ++ "B")
    else
      q ← divide value million; Normal ("$" ++ toFixed q 2 ++ "M").

(** Lines 76 to 78. *)
Definition formatNumber (value : JSValue) : Completion string :=
  if strict_equals_string value "N/A" then Normal "N/A"
  else x ← ToNumber value; Normal (toFixed x 2).

(** Lines 80 to 82. *)
Definition formatPercentage (value : JSValue) : Completion string :=
  if ToBoolean value then
    p ← multiply value 100%float; Normal (toFixed p 2 ++ "%")
  else Normal "N/A".

(** Lines 84 to 86. *)
Definition formatPrice (value : JSValue) : Completion string :=
  if ToBoolean value then
    s ← call_toFixed value 2; Normal ("$" ++ s)
  else Normal "N/A".

(** Lines 88 to 90. *)
Definition formatVolume (value : JSValue) : Completion string :=
  if ToBoolean value then call_toLocaleString value
  else Normal "N/A".

End Helpers.
End Script.


(** ** The functions of script.js: the page *)
Module Handlers.
Import JS Page Script.

(** The double-quote character of the markup (code 34). *)
Definition quote : string := String (ascii_of_nat 34) "".

(** [array.map(f)] for a callback that may throw. *)
Fixpoint map_completion {A B : Type} (f : A -> Completion B) (l : list A) : Completion (list B) :=
  match l with
  | [] => Normal []
  | a :: l => b ← f a; bs ← map_completion f l; Normal (b :: bs)
  end.

(** [s.split(separator)] for a one-character separator. *)
Fixpoint split (separator : ascii) (s : string) : list string :=
  match s with
  | EmptyString => [""]
  | String c r =>
      if Ascii.eqb c separator then "" :: split separator r
      else match split separator r with
           | first :: others => String c first :: others
           | [] => [String c ""]
           end
  end.

Section WithHost.
Context `{Host}.

(** Lines 9 to 11: the markup of one entry. Each [${...}] reads the property
    and converts it to a string, left to right. *)
Definition option_markup (entry : JSValue) : Completion string :=
  s1 ← Get entry "symbol" ≫= ToString;
  d1 ← Get entry "date" ≫= ToString;
  s2 ← Get entry "symbol" ≫= ToString;
  d2 ← Get entry "date" ≫= ToString;
  Normal ("<option value=" ++ quote ++ s1 ++ "|" ++ d1 ++ quote ++ ">"
          ++ s2 ++ " - " ++ d2 ++ "</option>").

(** Lines 9 to 11: [entries.map(...).join('')]. Only an Array has [map]. *)
Definition entries_markup (entries : JSValue) : Completion string :=
  match entries with
  | JArray items => parts ← map_completion option_markup items; Normal (String.concat "" parts)
  | _ => Throw TypeError
  end.

(** Lines 4 to 15. *)
Definition loadDbEntries : Action unit :=
  try_catch
    (response ← fetch (GET "/api/entries") ≫= (λ p, lift (await p));
     entries ← lift (json response);
     markup ← lift (entries_markup entries);
     set_innerHTML "db-entries" markup)
    (λ error, console_error "Error loading database entries:" error).

(** Lines 17 to 35. The assignment [chart = ...] is to the module variable. *)
Definition createChart (container : string) : Action nat :=
  current ← gets chart;
  (if current is Some _ then set_innerHTML container "" else mret tt);;
  new ← LightweightCharts_createChart container
    (JObject [
      ("height", JNumber 600);
      ("layout", JObject [
        ("background", JObject [("color", JString "#131722")]);
        ("textColor", JString "#d1d4dc")]);
      ("grid", JObject [
        ("vertLines", JObject [("color", JString "#1e222d")]);
        ("horzLines", JObject [("color", JString "#1e222d")])])]);
  modify (set_chart (Some new));;
  mret new.

(** Lines 48 to 58. Each statement looks the element up, evaluates its
    right-hand side, and assigns. *)
Definition updateStockInfo (info : JSValue) : Action unit :=
  lift (Get info "name") ≫= set_textContent "company-name";;
  lift (Get info "sector") ≫= set_textContent "sector";;
  lift (Get info "industry") ≫= set_textContent "industry";;
  lift (Get info "market_cap" ≫= formatMarketCap) ≫= (λ s, set_textContent "market-cap" (JString s));;
  lift (Get info "pe_ratio" ≫= formatNumber) ≫= (λ s, set_textContent "pe-ratio" (JString s));;
  lift (Get info "dividend_yield" ≫= formatPercentage) ≫= (λ s, set_textContent "dividend-yield" (JString s));;
  lift (Get info "fifty_two_week_high" ≫= formatPrice) ≫= (λ s, set_textContent "52w-high" (JString s));;
  lift (Get info "fifty_two_week_low" ≫= formatPrice) ≫= (λ s, set_textContent "52w-low" (JString s));;
  lift (Get info "avg_volume" ≫= formatVolume) ≫= (λ s, set_textContent "avg-volume" (JString s)).

(** [elements.forEach(id => ...)]. *)
Fixpoint forEach {A : Type} (l : list A) (f : A -> Action unit) : Action unit :=
  match l with
  | [] => mret tt
  | a :: l => f a;; forEach l f
  end.

(** Lines 60 to 64. *)
Definition clearStockInfo : Action unit :=
  let elements := ["company-name"; "sector"; "industry"; "market-cap";
                   "pe-ratio"; "dividend-yield"; "52w-high"; "52w-low"; "avg-volume"] in
  forEach elements (λ id, set_textContent id (JString "-")).

(** Lines 37 to 46. Nothing in the script calls this function. *)
Definition fetchStockInfo (symbol : string) : Action unit :=
  try_catch
    (response ← fetch (GET ("/api/stock-info/" ++ symbol)) ≫= (λ p, lift (await p));
     data ← lift (json response);
     updateStockInfo data)
    (λ error, console_error "Error fetching stock info:" error;; clearStockInfo).

(** Lines 138 to 179. [chart] and [volumeSeries] are locals here. *)
Definition renderChart (data : JSValue) (symbol : JSValue) : Action unit :=
  let container := "chart-container" in
  chart ← createChart container;
  candlestickSeries ← addCandlestickSeries chart
    (JObject [
      ("upColor", JString "#26a69a");
      ("downColor", JString "#ef5350");
      ("borderVisible", JBoolean false);
      ("wickUpColor", JString "#26a69a");
      ("wickDownColor", JString "#ef5350")]);
  lift (Get data "candlestick") ≫= setData candlestickSeries;;
  volumeSeries ← addHistogramSeries chart
    (JObject [
      ("color", JString "#26a69a");
      ("priceFormat", JObject [("type", JString "volume")]);
      ("priceScaleId", JString "volume");
      ("scaleMargins", JObject [("top", JNumber 0.8); ("bottom", JNumber 0)])]);
  lift (Get data "volume") ≫= setData volumeSeries;;
  time ← lift (Get data "purchase_timestamp");
  setMarkers candlestickSeries
    [JObject [
      ("time", time);
      ("position", JString "belowBar");
      ("color", JString "#ffeb3b");
      ("shape", JString "arrowUp");
      ("text", JString "BUY")]];;
  fitContent chart.

(** Lines 92 to 127. Both [fetch] calls are made while the array given to
    [Promise.all] is built, before anything is awaited. *)
Definition showChart : Action unit :=
  symbol ← get_value "symbol";
  purchaseDate ← get_value "purchase-date";
  if negb (ToBoolean (JString symbol)) || negb (ToBoolean (JString purchaseDate)) then
    alert "Please enter both symbol and date"
  else
    try_catch
      (p1 ← fetch {| url := "/api/chart-data";
                     method := "POST";
                     headers := [("Content-Type", "application/json")];
                     json_body := Some (JObject [("symbol", JString symbol);
                                                 ("purchase_date", JString purchaseDate)]) |};
       p2 ← fetch (GET ("/api/stock-info/" ++ symbol));
       responses ← lift (await_all p1 p2);
       chartData ← lift (json (fst responses));
       infoData ← lift (json (snd responses));
       renderChart chartData (JString symbol);;
       updateStockInfo infoData)
      (λ error,
        console_error "Error loading data:" error;;
        alert "Error loading data";;
        clearStockInfo).

(** [const [symbol, date] = ...]: the element at an index, [undefined] past
    the end. *)
Definition element (parts : list string) (i : nat) : JSValue :=
  match parts !! i with
  | Some s => JString s
  | None => JUndefined
  end.

(** Lines 129 to 136. *)
Definition showDbChart : Action unit :=
  selected ← get_value "db-entries";
  let parts := split "|" selected in
  let symbol := element parts 0 in
  let date := element parts 1 in
  set_value "symbol" symbol;;
  set_value "purchase-date" date;;
  call_async showChart.

(** Line 182: [document.addEventListener('DOMContentLoaded', loadDbEntries)].
    What the page runs when the event fires. *)
Definition DOMContentLoaded : Action unit := call_async loadDbEntries.

End WithHost.
End Handlers.

(** ** What the specification's words mean *)
Module Spec.
Import JS.

(** The integer part of a decimal numeral carries no superfluous zero: it is
    not a ["0"] followed by further digits. *)
Definition no_leading_zero (whole : string) : bool :=
  match whole with
  | String c (String _ _) => negb (Ascii.eqb c "0")
  | _ => true
  end.

(** Reading an unsigned numeral with two decimals: one or more digits, a
    point and exactly two digits. The result is the number it denotes; any
    other string denotes nothing. *)
Definition read_unsigned (body : string) : option Q :=
  let k := String.length body in
  let whole := substring 0 (k - 3) body in
  let point := substring (k - 3) 1 body in
  let cents := substring (k - 2) 2 body in
  if (4 <=? k)%nat && String.eqb point "." && no_leading_zero whole then
    match NilEmpty.uint_of_string (whole ++ cents) with
    | Some u => Some (Z.of_N (N.of_uint u) # 100)
    | None => None
    end
  else None.

(** Reading a numeral "formatted to 2 decimal places": an unsigned one,
    or a minus sign and an unsigned one. *)
Definition read_two_decimals (s : string) : option Q :=
  match s with
  | String c r =>
      if Ascii.eqb c "-" then option_map Qopp (read_unsigned r) else read_unsigned s
  | EmptyString => None
  end.

(** [s] is the value [x] formatted to 2 decimal places: [s] is a numeral
    with two decimals, and no numeral with two decimals is nearer to [x]
    than the one it denotes. *)
Definition two_decimal_places (x : Q) (s : string) : Prop :=
  exists q : Q, read_two_decimals s = Some q /\ (Qabs (q - x) <= 1 # 200)%Q.

(** A finite number whose magnitude is below 10^21, the range in which
    [toFixed] writes digits rather than exponent notation. *)
Definition below_1e21 (x : number) : bool :=
  match Prim2SF x with
  | S754_zero _ => true
  | S754_finite _ m e => negb (at_least_1e21 m e)
  | _ => false
  end.

(** A character occurs in a string. *)
Fixpoint occurs (c : ascii) (s : string) : bool :=
  match s with
  | EmptyString => false
  | String a r => Ascii.eqb a c || occurs c r
  end.

(** A record of the entries list, as [JSON.parse] delivers it. *)
Definition entry_record (e : string * string) : JSValue :=
  JObject [("symbol", JString e.1); ("date", JString e.2)].

(** The markup of one option as the template of lines 9 to 11 writes it
    for a symbol and a date. *)
Definition option_element (e : string * string) : string :=
  "<option value=" ++ Handlers.quote ++ e.1 ++ "|" ++ e.2 ++ Handlers.quote ++ ">"
  ++ e.1 ++ " - " ++ e.2 ++ "</option>".

(** A record holds a property: it has one entry per name, as [JSON.parse]
    delivers it, and the entry of that name carries the value. *)
Definition holds (props : list (string * JSValue)) (name : string) (v : JSValue) : Prop :=
  NoDup props.*1 /\ (name, v) ∈ props.

(** A record of the entries list with that symbol and that date, whatever
    else it holds and in whatever order. *)
Definition entry_of (v : JSValue) (e : string * string) : Prop :=
  exists props, v = JObject props /\
    holds props "symbol" (JString e.1) /\ holds props "date" (JString e.2).

(** A text that markup carries as it is, in an attribute value between
    double quotes and as the content of an element: it holds no double
    quote, no ampersand, no ["<"], no NUL and no carriage return. *)
Definition plain (s : string) : bool :=
  negb (occurs (ascii_of_nat 34) s) && negb (occurs "&" s) && negb (occurs "<" s)
  && negb (occurs (ascii_of_nat 0) s) && negb (occurs (ascii_of_nat 13) s).

(** The option of an entry: its value is [symbol|date], its text
    [symbol - date]. *)
Definition option_of (e : string * string) : Html.OptionElement :=
  {| Html.option_attributes := [("value", e.1 ++ "|" ++ e.2)];
     Html.option_text := e.1 ++ " - " ++ e.2 |}.

(** The options of a selection control, read from its markup. *)
Definition options (w : Page.World) (id : string) : option (list Html.OptionElement) :=
  Html.parse_options (default "" (Page.markup w !! id)).

(** The nine fields of the info panel. *)
Definition info_fields : list string :=
  ["company-name"; "sector"; "industry"; "market-cap"; "pe-ratio";
   "dividend-yield"; "52w-high"; "52w-low"; "avg-volume"].

(** The page after a failure was handled: the error logged, the user
    alerted, every field of the info panel reading ["-"], and nothing else
    touched. *)
Definition reported (error : Thrown) (w : Page.World) : Page.World :=
  Page.set_texts (foldl (fun t id => <[id := "-"]> t) (Page.texts w) info_fields)
    (Page.set_alerts (Page.alerts w ++ ["Error loading data"])
       (Page.set_console (Page.console w ++ [("Error loading data:", error)]) w)).

(** The property of a record, [undefined] when it has none. *)
Definition property (data : JSValue) (name : string) : JSValue :=
  match Get data name with
  | Normal v => v
  | Throw _ => JUndefined
  end.

(** The one marker of a chart: ["BUY"], below the bar, at the purchase
    timestamp. *)
Definition buy_marker (time : JSValue) : JSValue :=
  JObject [
    ("time", time);
    ("position", JString "belowBar");
    ("color", JString "#ffeb3b");
    ("shape", JString "arrowUp");
    ("text", JString "BUY")].

(** The chart the renderer is to build from candlestick data, volume data
    and a purchase timestamp, as the calls the library carries out, in
    order: a candlestick series with fixed up and down colours is added and
    loaded with the candlestick data; a volume histogram is added on the
    price scale ["volume"], whose margins (0.8 from the top, 0 from the
    bottom) leave it the bottom 20% of the height, and loaded with the volume
    data; the candlestick series is given the one marker; the time range is
    fitted. *)
Definition expected_chart (candlestick volume time : JSValue) : Page.Chart :=
  {| Page.chart_options :=
       JObject [
         ("height", JNumber 600);
         ("layout", JObject [
           ("background", JObject [("color", JString "#131722")]);
           ("textColor", JString "#d1d4dc")]);
         ("grid", JObject [
           ("vertLines", JObject [("color", JString "#1e222d")]);
           ("horzLines", JObject [("color", JString "#1e222d")])])];
     Page.calls := [
       Page.AddSeries Candlestick
         (JObject [
            ("upColor", JString "#26a69a");
            ("downColor", JString "#ef5350");
            ("borderVisible", JBoolean false);
            ("wickUpColor", JString "#26a69a");
            ("wickDownColor", JString "#ef5350")]);
       Page.SetData 0 candlestick;
       Page.AddSeries Histogram
         (JObject [
            ("color", JString "#26a69a");
            ("priceFormat", JObject [("type", JString "volume")]);
            ("priceScaleId", JString "volume");
            ("scaleMargins", JObject [("top", JNumber 0.8); ("bottom", JNumber 0)])]);
       Page.SetData 1 volume;
       Page.SetMarkers 0 [buy_marker time];
       Page.FitContent] |}.

(** Chart data: a record that holds candlestick data and volume data the
    charting library takes, and a purchase timestamp it takes in a
    marker. *)
Definition chart_data `{Host} (props : list (string * JSValue))
    (candlestick volume time : JSValue) : Prop :=
  holds props "candlestick" candlestick /\
  holds props "volume" volume /\
  holds props "purchase_timestamp" time /\
  SetDataOutcome Candlestick candlestick = Normal tt /\
  SetDataOutcome Histogram volume = Normal tt /\
  SetMarkersOutcome [buy_marker time] = Normal tt.

(** The two requests of a submission. *)
Definition chart_request (symbol date : string) : Page.Request :=
  {| Page.url := "/api/chart-data";
     Page.method := "POST";
     Page.headers := [("Content-Type", "application/json")];
     Page.json_body := Some (JObject [("symbol", JString symbol);
                                      ("purchase_date", JString date)]) |}.

Definition info_request (symbol : string) : Page.Request :=
  Page.GET ("/api/stock-info/" ++ symbol).

End Spec.

(** ** Samples, for the closed examples *)
Module Sample.
Import JS Page.

(** One host. The examples pass the helpers [undefined], [null] and
    numbers, and the handlers records of strings, so none of them consults
    its conversions. Its charting library takes arrays as data and throws a
    TypeError on anything else, and takes every marker; its selection
    control is a list box, which selects no option of its own. *)
Definition sample_host : Host :=
  {| StringToNumber := fun _ => nan;
     ObjectToPrimitive := fun _ => Throw TypeError;
     NumberToLocaleString := NumberToString;
     ObjectToLocaleString := fun _ => Throw TypeError;
     SetDataOutcome := fun _ d => if isArray d then Normal tt else Throw TypeError;
     SetMarkersOutcome := fun _ => Normal tt;
     ControlValue := fun _ => "" |}.

(** A backend: what it answers on the three endpoints. *)
Definition backend (chart_data stock_info entries : FetchOutcome) (r : Request) : FetchOutcome :=
  if String.eqb (url r) "/api/chart-data" then chart_data
  else if String.eqb (url r) "/api/entries" then entries
  else stock_info.

(** A freshly loaded page: the two inputs and the selection control hold
    the given strings, nothing is displayed, no chart exists. *)
Definition sample_page (symbol date selected : string) (respond : Request -> FetchOutcome) : World :=
  {| chart := None;
     values := {[ "symbol" := symbol; "purchase-date" := date; "db-entries" := selected ]};
     texts := ∅; markup := ∅; mounted := ∅; charts := [];
     console := []; alerts := []; requests := [];
     network := respond |}.

Definition sample_chart_data : JSValue :=
  JObject [("candlestick", JArray []); ("volume", JArray []);
           ("purchase_timestamp", JNumber 1704153600)].

Definition sample_info : JSValue :=
  JObject [("name", JString "Apple Inc."); ("sector", JString "Technology")].

End Sample.

(** ** What the handlers keep *)
Module Frame.
Import JS Page.

(** An action leaves an observation of the world as it was, whether it
    returns or throws. *)
Definition preserves {A B : Type} (p : World -> B) (a : Action A) : Prop :=
  forall w, p (snd (a w)) = p w.

(** An action keeps an invariant of the world, whether it returns or
    throws. *)
Definition keeps {A : Type} (I : World -> Prop) (a : Action A) : Prop :=
  forall w, I w -> I (snd (a w)).

(** An action returns on every world. *)
Definition never_throws {A : Type} (a : Action A) : Prop :=
  forall w, exists x, fst (a w) = Normal x.

(** [typeof v === 'number']. *)
Definition isNumber (v : JSValue) : bool :=
  match v with
  | JNumber _ => true
  | _ => false
  end.

(** [v === null || v === undefined]. *)
Definition isNullish (v : JSValue) : bool :=
  match v with
  | JNull | JUndefined => true
  | _ => false
  end.

(** The text an assignment to [textContent] leaves in the element: none
    for [null] and [undefined], the value as a string otherwise. *)
Definition textContent_of `{Host} (v : JSValue) : Completion string :=
  match v with
  | JNull | JUndefined => Normal ""
  | _ => ToString v
  end.

(** The values [formatPrice] can format: the falsy ones and the numbers. *)
Definition price_shown (v : JSValue) : bool :=
  negb (ToBoolean v) || isNumber v.

(** A record whose properties are all primitive values. *)
Definition flat (props : list (string * JSValue)) : bool :=
  forallb (fun p => isPrimitive p.2) props.

(** Everything on the page but the display fields. *)
Definition beside_texts (w : World)
  : option nat * gmap string string * gmap string string * gmap string (list nat)
    * list Chart * list (string * Thrown) * list string * list Request
    * (Request -> FetchOutcome) :=
  (chart w, values w, markup w, mounted w, charts w, console w, alerts w, requests w, network w).

(** Everything on the page but the chart, its instances and its container. *)
Definition beside_chart (w : World)
  : gmap string string * gmap string string * list (string * Thrown) * list string
    * list Request * (Request -> FetchOutcome) :=
  (values w, texts w, console w, alerts w, requests w, network w).

(** What of the page the chart invariant looks at. *)
Definition chart_state (w : World) : option nat * option (list nat) * nat :=
  (chart w, mounted w !! "chart-container", length (charts w)).

(** The container holds one chart at most: none while the module variable
    is [null], and otherwise the instance the variable refers to, which is
    the newest one. *)
Definition single_chart (w : World) : Prop :=
  match chart w with
  | None => default [] (mounted w !! "chart-container") = []
  | Some id => mounted w !! "chart-container" = Some [id] /\ S id = length (charts w)
  end.

(** A chart as [renderChart] leaves it when the chart data cannot be read:
    created, its candlestick series added, nothing loaded. *)
Definition blank_chart : Chart :=
  let c := Spec.expected_chart JUndefined JUndefined JUndefined in
  {| chart_options := chart_options c; calls := take 1 (calls c) |}.

(** The display fields with the info panel cleared. *)
Definition cleared (t : gmap string string) : gmap string string :=
  foldl (fun t id => <[id := "-"]> t) t Spec.info_fields.

End Frame.

(** ** Facts about strings and decimal numerals *)
Section Strings.

Lemma length_append (a b : string) :
  String.length (a ++ b) = (String.length a + String.length b)%nat.
Proof. induction a as [|c a IH]; simpl; [reflexivity | now rewrite IH]. Qed.

Lemma substring_all (a : string) : substring 0 (String.length a) a = a.
Proof. induction a as [|c a IH]; simpl; [reflexivity | now rewrite IH]. Qed.

Lemma substring_append_take (a b : string) :
  substring 0 (String.length a) (a ++ b) = a.
Proof.
  induction a as [|c a IH]; simpl.
  - now destruct b.
  - now rewrite IH.
Qed.

Lemma substring_append_skip (a b : string) (i n : nat) :
  substring (String.length a + i) n (a ++ b) = substring i n b.
Proof. induction a as [|c a IH]; simpl; [reflexivity | exact IH]. Qed.

Lemma substring_split (m : string) (i : nat) :
  (i <= String.length m)%nat ->
  substring 0 i m ++ substring i (String.length m - i) m = m.
Proof.
  revert i. induction m as [|c m IH]; intros i Hi; simpl in *.
  - destruct i; [reflexivity | lia].
  - destruct i as [|i]; simpl.
    + now rewrite substring_all.
    + change (String c (substring 0 i m ++ substring i (String.length m - i) m) = String c m).
      f_equal. apply IH. lia.
Qed.

Lemma length_substring (m : string) (i n : nat) :
  (i + n <= String.length m)%nat -> String.length (substring i n m) = n.
Proof.
  revert i n. induction m as [|c m IH]; intros i n Hi; simpl in *.
  - destruct i, n; simpl; lia.
  - destruct i as [|i].
    + destruct n as [|n]; simpl; [reflexivity|]. rewrite IH by lia. reflexivity.
    + apply IH. lia.
Qed.

Lemma length_zeros (k : nat) : String.length (JS.zeros k) = k.
Proof. induction k; simpl; congruence. Qed.

Lemma substring_0_0 (s : string) : substring 0 0 s = "".
Proof. destruct s; reflexivity. Qed.

End Strings.

Import JS Page Script Handlers Spec Sample.

(** ** Numerals with two decimals: what [toFixed] writes reads back *)
Section TwoDecimals.

Lemma of_uint_D0 u : N.of_uint (Decimal.D0 u) = N.of_uint u.
Proof. reflexivity. Qed.

Lemma read_zeros (j : nat) (s : string) (u : Decimal.uint) :
  NilEmpty.uint_of_string s = Some u ->
  exists u', NilEmpty.uint_of_string (zeros j ++ s) = Some u' /\ N.of_uint u' = N.of_uint u.
Proof.
  intros Hs. induction j as [|j [u' [Hu' Hn]]].
  - exists u. split; [exact Hs | reflexivity].
  - exists (Decimal.D0 u'). split.
    + change (uint_of_char "0" (NilEmpty.uint_of_string (zeros j ++ s)) = Some (Decimal.D0 u')).
      rewrite Hu'. reflexivity.
    + exact Hn.
Qed.

Lemma read_decimal (n : N) : NilEmpty.uint_of_string (decimal n) = Some (N.to_uint n).
Proof. apply NilEmpty.usu. Qed.

(** A digit string does not start with a minus sign. *)
Lemma digits_not_negative (c : ascii) (r : string) (u : Decimal.uint) :
  NilEmpty.uint_of_string (String c r) = Some u -> c <> "-"%char.
Proof.
  simpl. destruct (NilEmpty.uint_of_string r) as [d|]; [|discriminate].
  intros Hc ->. discriminate Hc.
Qed.

Lemma decimal_head (n : N) :
  n <> 0%N -> exists c r, decimal n = String c r /\ c <> "0"%char.
Proof.
  intros Hn. unfold decimal.
  pose proof (DecimalN.Unsigned.to_of (N.to_uint n)) as Hnorm.
  rewrite DecimalN.Unsigned.of_to in Hnorm.
  destruct (N.to_uint n) as [|d|d|d|d|d|d|d|d|d|d] eqn:E; simpl;
    try (eexists _, _; split; [reflexivity | discriminate]).
  - cbn in Hnorm. discriminate Hnorm.
  - exfalso. apply Hn. rewrite <- (DecimalN.Unsigned.of_to n), E.
    rewrite unorm_D0 in Hnorm.
    assert (Hd : d = Decimal.Nil).
    { destruct d; try reflexivity;
      match type of Hnorm with _ = Decimal.unorm ?v => pose proof (nb_digits_unorm v) as Hl end;
      rewrite <- Hnorm in Hl; simpl in Hl; specialize (Hl ltac:(discriminate)); lia. }
    subst d. reflexivity.
Qed.

Lemma read_unsigned_pointed (a b : string) (u : Decimal.uint) :
  (1 <= String.length a)%nat ->
  String.length b = 2%nat ->
  no_leading_zero a = true ->
  NilEmpty.uint_of_string (a ++ b) = Some u ->
  read_unsigned (a ++ "." ++ b) = Some (Z.of_N (N.of_uint u) # 100).
Proof.
  intros Ha Hb Hz Hu. unfold read_unsigned.
  assert (Hlen : String.length (a ++ "." ++ b) = (String.length a + 3)%nat).
  { rewrite !length_append, Hb. simpl. lia. }
  rewrite Hlen.
  replace (String.length a + 3 - 3)%nat with (String.length a) by lia.
  replace (String.length a + 3 - 2)%nat with (String.length a + 1)%nat by lia.
  rewrite substring_append_take.
  rewrite <- (Nat.add_0_r (String.length a)) at 2.
  rewrite !substring_append_skip.
  assert (Hp : substring 0 1 ("." ++ b) = ".") by (destruct b; reflexivity).
  rewrite Hp.
  change (substring 1 2 ("." ++ b)) with (substring 0 2 b).
  replace (substring 0 2 b) with b by (rewrite <- Hb; symmetry; apply substring_all).
  rewrite Hz, Hu, String.eqb_refl, !andb_true_r.
  replace (4 <=? String.length a + 3)%nat with true; [reflexivity|].
  symmetry. apply Nat.leb_le. lia.
Qed.

Lemma read_pointed (c : ascii) (a b : string) (u : Decimal.uint) :
  String.length b = 2%nat ->
  c <> "-"%char ->
  no_leading_zero (String c a) = true ->
  NilEmpty.uint_of_string (String c a ++ b) = Some u ->
  read_two_decimals (String c a ++ "." ++ b) = Some (Z.of_N (N.of_uint u) # 100) /\
  read_two_decimals ("-" ++ String c a ++ "." ++ b) = Some (Qopp (Z.of_N (N.of_uint u) # 100)).
Proof.
  intros Hb Hc Hz Hu.
  assert (Hr := read_unsigned_pointed (String c a) b u ltac:(simpl; lia) Hb Hz Hu).
  split.
  - change (String c a ++ "." ++ b) with (String c (a ++ "." ++ b)) in *.
    unfold read_two_decimals.
    rewrite (proj2 (Ascii.eqb_neq c "-") Hc). exact Hr.
  - change ("-" ++ String c a ++ "." ++ b) with (String "-" (String c a ++ "." ++ b)).
    unfold read_two_decimals. rewrite Ascii.eqb_refl, Hr. reflexivity.
Qed.

Lemma split_shape (m : string) (u : Decimal.uint) :
  (3 <= String.length m)%nat ->
  NilEmpty.uint_of_string m = Some u ->
  (String.length m = 3%nat \/ exists c r, m = String c r /\ c <> "0"%char) ->
  exists c a b,
    substring 0 (String.length m - 2) m = String c a /\
    substring (String.length m - 2) 2 m = b /\
    String.length b = 2%nat /\
    c <> "-"%char /\
    no_leading_zero (String c a) = true /\
    String c a ++ b = m.
Proof.
  intros Hlen Hu Hhead.
  destruct m as [|c r]; [simpl in Hlen; lia|].
  exists c, (substring 0 (String.length r - 2) r),
    (substring (String.length (String c r) - 2) 2 (String c r)).
  assert (Hk : (String.length (String c r) - 2 = S (String.length r - 2))%nat)
    by (simpl in *; lia).
  assert (Ha : substring 0 (String.length (String c r) - 2) (String c r)
               = String c (substring 0 (String.length r - 2) r))
    by (rewrite Hk; reflexivity).
  split; [exact Ha|].
  split; [reflexivity|].
  split; [apply length_substring; lia|].
  split; [exact (digits_not_negative c r u Hu)|].
  split.
  - destruct Hhead as [H3 | (c' & r' & [= <- <-] & Hc)].
    + simpl in H3. replace (String.length r - 2)%nat with 0%nat by lia.
      rewrite substring_0_0. reflexivity.
    + simpl. destruct (substring 0 (String.length r - 2) r); [reflexivity|].
      apply negb_true_iff, Ascii.eqb_neq, Hc.
  - rewrite <- Ha.
    pose proof (substring_split (String c r) (String.length (String c r) - 2) ltac:(lia)) as Hs.
    replace (String.length (String c r) - (String.length (String c r) - 2))%nat with 2%nat in Hs by lia.
    exact Hs.
Qed.

Lemma fixed_layout_shape (n : N) :
  exists c a b u,
    fixed_layout 2 (Z.of_N n) = String c a ++ "." ++ b /\
    String.length b = 2%nat /\
    c <> "-"%char /\
    no_leading_zero (String c a) = true /\
    NilEmpty.uint_of_string (String c a ++ b) = Some u /\
    N.of_uint u = n.
Proof.
  unfold fixed_layout. rewrite N2Z.id. cbv beta iota zeta.
  change (Nat.eqb 2 0) with false. cbv iota.
  destruct (Nat.leb_spec (String.length (decimal n)) 2) as [Hk|Hk].
  - destruct (read_zeros (2 + 1 - String.length (decimal n)) _ _ (read_decimal n))
      as (u & Hu & Hn).
    rewrite DecimalN.Unsigned.of_to in Hn.
    set (m := zeros (2 + 1 - String.length (decimal n)) ++ decimal n) in *.
    assert (Hm : String.length m = 3%nat).
    { unfold m. rewrite length_append, length_zeros. lia. }
    destruct (split_shape m u ltac:(lia) Hu (or_introl Hm)) as (c & a & b & Ha & Hb & Hlb & Hc & Hz & Hab).
    rewrite Hm in Ha, Hb. change (3 - 2)%nat with 1%nat in Ha, Hb.
    change (2 + 1 - 2)%nat with 1%nat. rewrite Ha, Hb.
    exists c, a, b, u. rewrite Hab. repeat split; assumption || reflexivity.
  - assert (Hn0 : n <> 0%N) by (intros ->; vm_compute in Hk; lia).
    destruct (split_shape (decimal n) _ ltac:(lia) (read_decimal n) (or_intror (decimal_head n Hn0)))
      as (c & a & b & Ha & Hb & Hlb & Hc & Hz & Hab).
    rewrite Ha, Hb. exists c, a, b, (N.to_uint n). rewrite Hab.
    repeat split; try assumption; try reflexivity; [apply read_decimal | apply DecimalN.Unsigned.of_to].
Qed.

Lemma nearest_scaled_nonneg (f : nat) (m : positive) (e : Z) : (0 <= nearest_scaled f m e)%Z.
Proof.
  unfold nearest_scaled.
  assert (0 < 10 ^ Z.of_nat f)%Z by (apply Z.pow_pos_nonneg; lia).
  destruct e as [|p|p].
  - lia.
  - assert (0 < 2 ^ Z.pos p)%Z by (apply Z.pow_pos_nonneg; lia). nia.
  - assert (0 < 2 ^ Z.pos p)%Z by (apply Z.pow_pos_nonneg; lia).
    apply Z.div_pos; nia.
Qed.

(** No multiple of a hundredth is nearer to [m * 2^e] than [n / 100]. *)
Lemma nearest_scaled_close (m : positive) (e : Z) :
  (Qabs ((nearest_scaled 2 m e # 100) - ratio m e) <= 1 # 200)%Q.
Proof.
  apply Qabs_Qle_condition.
  unfold nearest_scaled, ratio, Qle, Qminus, Qplus, Qopp. simpl Qnum. simpl Qden.
  change (10 ^ Z.of_nat 2)%Z with 100%Z.
  destruct e as [|p|p]; simpl Qnum; simpl Qden.
  - lia.
  - assert (0 < 2 ^ Z.pos p)%Z by (apply Z.pow_pos_nonneg; lia). nia.
  - rewrite !Pos2Z.inj_mul, Pos2Z.inj_pow.
    assert (HP : (0 < 2 ^ Z.pos p)%Z) by (apply Z.pow_pos_nonneg; lia).
    set (P := (2 ^ Z.pos p)%Z) in *.
    pose proof (Z.div_mod (2 * (Z.pos m * 100) + P) (2 * P) ltac:(lia)) as E.
    pose proof (Z.mod_pos_bound (2 * (Z.pos m * 100) + P) (2 * P) ltac:(lia)) as B.
    set (n := ((2 * (Z.pos m * 100) + P) / (2 * P))%Z) in *.
    nia.
Qed.

Theorem toFixed_two_decimal_places (x : number) :
  below_1e21 x = true ->
  two_decimal_places (mathematical_value x) (toFixed x 2).
Proof.
  unfold below_1e21, two_decimal_places, mathematical_value, toFixed.
  destruct (Prim2SF x) as [s| | |s m e]; try discriminate; intros Hx.
  - exists (0 # 100)%Q. split; [reflexivity | apply Qle_bool_imp_le; reflexivity].
  - apply negb_true_iff in Hx. rewrite Hx.
    pose proof (nearest_scaled_nonneg 2 m e) as Hn.
    pose proof (nearest_scaled_close m e) as Hq.
    destruct (fixed_layout_shape (Z.to_N (nearest_scaled 2 m e)))
      as (c & a & b & u & Hs & Hb & Hc & Hz & Hu & Hv).
    rewrite Z2N.id in Hs by exact Hn. rewrite Hs.
    destruct (read_pointed c a b u Hb Hc Hz Hu) as [Hpos Hneg].
    rewrite Hv, Z2N.id in Hpos, Hneg by exact Hn.
    destruct s.
    + eexists. split; [exact Hneg|].
      setoid_replace (- (nearest_scaled 2 m e # 100) - - ratio m e)%Q
        with (- ((nearest_scaled 2 m e # 100) - ratio m e))%Q using relation Qeq by ring.
      rewrite Qabs_opp. exact Hq.
    + eexists. split; [exact Hpos | exact Hq].
Qed.

End TwoDecimals.

(** ** Binary64 arithmetic: how large a quotient can be *)

(** A power of a positive base is positive. *)
Ltac positive_power := apply Z.pow_pos_nonneg; lia.

Section Magnitude.
Local Open Scope Z_scope.

Lemma digits2_pos_size (p : positive) : digits2_pos p = Pos.size p.
Proof. induction p as [p IH|p IH|]; simpl; congruence. Qed.

Lemma Zdigits2_log2 (m : Z) : 0 < m -> Zdigits2 m = Z.log2 m + 1.
Proof.
  destruct m as [|p|p]; try lia. intros _. simpl.
  destruct p as [p|p|]; simpl; rewrite ?digits2_pos_size; lia.
Qed.

Lemma Zdigits2_nonneg (m : Z) : 0 <= Zdigits2 m.
Proof. destruct m; simpl; lia. Qed.

Lemma Zdigits2_gt (m : Z) : 0 <= m -> m < 2 ^ Zdigits2 m.
Proof.
  intros Hm. destruct (Z.eq_dec m 0) as [->|Hn]; [reflexivity|].
  rewrite Zdigits2_log2 by lia. apply Z.log2_spec. lia.
Qed.

Lemma Zdigits2_le (m k : Z) : 0 <= k -> 0 <= m < 2 ^ k -> Zdigits2 m <= k.
Proof.
  intros Hk [Hm Hlt]. destruct (Z.eq_dec m 0) as [->|Hn]; [simpl; lia|].
  rewrite Zdigits2_log2 by lia.
  assert (Z.log2 m < k) by (apply Z.log2_lt_pow2; lia). lia.
Qed.

Lemma Zdigits2_ge (m : Z) : 0 < m -> 2 ^ (Zdigits2 m - 1) <= m.
Proof.
  intros Hm. rewrite Zdigits2_log2 by lia.
  replace (Z.log2 m + 1 - 1) with (Z.log2 m) by lia. apply Z.log2_spec. lia.
Qed.

Lemma shr_1_m (r : shr_record) : 0 <= shr_m r -> shr_m (shr_1 r) = shr_m r / 2.
Proof.
  destruct r as [m b s]. simpl. intros Hm.
  destruct m as [|[p|p|]|p]; simpl; try lia; try reflexivity.
  - rewrite Pos2Z.inj_xI. apply Z.div_unique with 1; lia.
  - rewrite Pos2Z.inj_xO. apply Z.div_unique with 0; lia.
Qed.

Lemma shr_1_nonneg (r : shr_record) : 0 <= shr_m r -> 0 <= shr_m (shr_1 r).
Proof. intros Hr. rewrite shr_1_m by exact Hr. apply Z.div_pos; lia. Qed.

Lemma iter_shr_m (p : positive) (r : shr_record) :
  0 <= shr_m r ->
  0 <= shr_m (SpecFloat.iter_pos shr_1 p r) /\ shr_m (SpecFloat.iter_pos shr_1 p r) = shr_m r / 2 ^ Z.pos p.
Proof.
  revert r. induction p as [p IH|p IH|]; intros r Hr; simpl SpecFloat.iter_pos.
  - destruct (IH (shr_1 r) (shr_1_nonneg r Hr)) as [H1 E1].
    destruct (IH _ H1) as [H2 E2].
    split; [exact H2|].
    rewrite E2, E1, shr_1_m by exact Hr.
    assert (0 < 2 ^ Z.pos p) by positive_power.
    rewrite !Z.div_div by lia. f_equal.
    replace (Z.pos p~1) with (1 + Z.pos p + Z.pos p) by lia.
    rewrite !Z.pow_add_r by lia. change (2 ^ 1) with 2. ring.
  - destruct (IH r Hr) as [H1 E1].
    destruct (IH _ H1) as [H2 E2].
    split; [exact H2|].
    rewrite E2, E1.
    assert (0 < 2 ^ Z.pos p) by positive_power.
    rewrite !Z.div_div by lia. f_equal.
    replace (Z.pos p~0) with (Z.pos p + Z.pos p) by lia.
    rewrite !Z.pow_add_r by lia. reflexivity.
  - split; [apply shr_1_nonneg, Hr | apply shr_1_m, Hr].
Qed.

(** Shifting right keeps the magnitude: the digits lost go to the exponent. *)
Lemma shr_magnitude (m e n B : Z) (l : location) :
  0 <= m -> Zdigits2 m + e <= B -> e + n <= B ->
  let '(r, e') := shr (shr_record_of_loc m l) e n in
  0 <= shr_m r /\ Zdigits2 (shr_m r) + e' <= B.
Proof.
  intros Hm HB Hn.
  assert (Hrec : shr_m (shr_record_of_loc m l) = m) by (destruct l as [|[]]; reflexivity).
  unfold shr. destruct n as [|p|p].
  - rewrite Hrec. split; assumption.
  - destruct (iter_shr_m p (shr_record_of_loc m l)) as [H0 E]; [rewrite Hrec; exact Hm|].
    split; [exact H0|]. rewrite E, Hrec.
    assert (HP : 0 < 2 ^ Z.pos p) by positive_power.
    destruct (Z.eq_dec (m / 2 ^ Z.pos p) 0) as [->|Hq]; [simpl; lia|].
    assert (Hq1 : 1 <= m / 2 ^ Z.pos p) by (pose proof (Z.div_pos m (2 ^ Z.pos p)); lia).
    pose proof (Z.mul_div_le m (2 ^ Z.pos p) HP) as Hle.
    pose proof (Zdigits2_gt m Hm) as Hgt.
    assert (Hd : Z.pos p <= Zdigits2 m).
    { destruct (Z.le_gt_cases (Z.pos p) (Zdigits2 m)) as [|Hlt]; [assumption|].
      assert (2 ^ Zdigits2 m <= 2 ^ Z.pos p) by (apply Z.pow_le_mono_r; lia). nia. }
    assert (Zdigits2 (m / 2 ^ Z.pos p) <= Zdigits2 m - Z.pos p); [|lia].
    apply Zdigits2_le; [lia|]. split; [lia|].
    apply (Z.mul_lt_mono_pos_l (2 ^ Z.pos p)); [exact HP|].
    rewrite <- Z.pow_add_r by lia. replace (Z.pos p + (Zdigits2 m - Z.pos p)) with (Zdigits2 m) by lia.
    lia.
  - rewrite Hrec. split; assumption.
Qed.

Lemma Zdigits2_succ (a : Z) : 0 <= a -> Zdigits2 (a + 1) <= Zdigits2 a + 1.
Proof.
  intros Ha. pose proof (Zdigits2_gt a Ha) as Hgt. pose proof (Zdigits2_nonneg a) as Hn.
  apply Zdigits2_le; [lia|]. split; [lia|].
  rewrite Z.pow_add_r, Z.pow_1_r by lia. lia.
Qed.

Lemma round_nearest_even_magnitude (m : Z) (l : location) :
  0 <= m ->
  0 <= round_nearest_even m l /\ Zdigits2 (round_nearest_even m l) <= Zdigits2 m + 1.
Proof.
  intros Hm. pose proof (Zdigits2_succ m Hm).
  unfold round_nearest_even. destruct l as [|[]]; try destruct (Z.even m); split; lia.
Qed.

(** Rounding to binary64 raises the magnitude by one binary digit at most,
    and cannot overflow from a magnitude below the largest exponent. *)
Lemma binary_round_aux_magnitude (s : bool) (m e B : Z) (l : location) :
  0 <= m -> Zdigits2 m + e <= B -> -1074 <= B -> B <= 971 ->
  match binary_round_aux prec emax s m e l with
  | S754_zero _ => True
  | S754_finite _ m' e' => Z.pos (digits2_pos m') + e' <= B + 1
  | _ => False
  end.
Proof.
  intros Hm HB Hlo Hhi. unfold binary_round_aux, shr_fexp.
  pose proof (shr_magnitude m e (fexp prec emax (Zdigits2 m + e) - e) B l Hm HB
                ltac:(unfold fexp, emin, prec, emax; lia)) as H1.
  destruct (shr (shr_record_of_loc m l) e (fexp prec emax (Zdigits2 m + e) - e)) as [r1 e1].
  destruct H1 as [H1 D1].
  destruct (round_nearest_even_magnitude (shr_m r1) (loc_of_shr_record r1) H1) as [H2 D2].
  set (m2 := round_nearest_even (shr_m r1) (loc_of_shr_record r1)) in *.
  pose proof (shr_magnitude m2 e1 (fexp prec emax (Zdigits2 m2 + e1) - e1) (B + 1) loc_Exact H2
                ltac:(lia) ltac:(unfold fexp, emin, prec, emax; lia)) as H3.
  destruct (shr (shr_record_of_loc m2 loc_Exact) e1 (fexp prec emax (Zdigits2 m2 + e1) - e1)) as [r3 e3].
  destruct H3 as [H3 D3].
  destruct (shr_m r3) as [|m3|m3]; [exact I | | lia].
  simpl in D3.
  destruct (Z.leb_spec e3 (emax - prec)) as [_|Hover]; [exact D3|].
  unfold emax, prec in Hover. lia.
Qed.

(** The quotient of two mantissas, before rounding: its magnitude is the
    difference of the magnitudes, one more at most. *)
Lemma SFdiv_core_magnitude (mx my : positive) (ex ey B : Z) :
  Zdigits2 (Z.pos mx) + ex - (Zdigits2 (Z.pos my) + ey) + 1 <= B ->
  ex - ey <= B ->
  let '(q, e, l) := SFdiv_core_binary prec emax (Z.pos mx) ex (Z.pos my) ey in
  0 <= q /\ Zdigits2 q + e <= B.
Proof.
  intros HB He. unfold SFdiv_core_binary.
  set (d1 := Zdigits2 (Z.pos mx)) in *. set (d2 := Zdigits2 (Z.pos my)) in *.
  set (e' := Z.min (fexp prec emax (d1 + ex - (d2 + ey))) (ex - ey)).
  set (s := ex - ey - e').
  set (m' := match s with Z.pos _ => Z.shiftl (Z.pos mx) s | 0 => Z.pos mx | Z.neg _ => 0 end).
  assert (Hs : 0 <= s) by (unfold s, e'; lia).
  assert (Hm' : m' = Z.pos mx * 2 ^ s).
  { unfold m'. destruct s as [|p|p]; [lia | apply Z.shiftl_mul_pow2; lia | lia]. }
  pose proof (Z.div_eucl_eq m' (Z.pos my) ltac:(lia)) as Heq.
  pose proof (Z.mod_pos_bound m' (Z.pos my) ltac:(lia)) as Hmod.
  unfold Z.modulo in Hmod.
  destruct (Z.div_eucl m' (Z.pos my)) as [q r].
  assert (H2s : 0 < 2 ^ s) by positive_power.
  assert (Hq : 0 <= q) by nia.
  split; [exact Hq|].
  destruct (Z.eq_dec q 0) as [->|Hq0]; [simpl; unfold e'; lia|].
  pose proof (Zdigits2_gt (Z.pos mx) ltac:(lia)) as Hx. fold d1 in Hx.
  pose proof (Zdigits2_ge (Z.pos my) ltac:(lia)) as Hy. fold d2 in Hy.
  assert (Hd2 : 1 <= d2) by (unfold d2; simpl; lia).
  assert (Hd1 : 1 <= d1) by (unfold d1; simpl; lia).
  assert (Hlt : q * 2 ^ (d2 - 1) < 2 ^ (d1 + s)).
  { rewrite Z.pow_add_r by lia. 
    assert (0 < 2 ^ (d2 - 1)) by positive_power. nia. }
  assert (Hge : d2 - 1 <= d1 + s).
  { destruct (Z.le_gt_cases (d2 - 1) (d1 + s)) as [|Hc]; [assumption|].
    assert (2 ^ (d1 + s) <= 2 ^ (d2 - 1)) by (apply Z.pow_le_mono_r; lia). nia. }
  assert (Zdigits2 q <= d1 + s - (d2 - 1)); [|unfold s in *; lia].
  apply Zdigits2_le; [lia|]. split; [lia|].
  apply (Z.mul_lt_mono_pos_r (2 ^ (d2 - 1))); [apply Z.pow_pos_nonneg; lia|].
  rewrite <- Z.pow_add_r by lia.
  replace (d1 + s - (d2 - 1) + (d2 - 1)) with (d1 + s) by lia. exact Hlt.
Qed.


(** A number of magnitude 69 at most is below 10^21 (2^69 < 10^21). *)
Lemma small_magnitude_below_1e21 (m : positive) (e : Z) :
  Z.pos (digits2_pos m) + e <= 69 -> at_least_1e21 m e = false.
Proof.
  intros Hd. pose proof (Zdigits2_gt (Z.pos m) ltac:(lia)) as Hm. simpl in Hm.
  set (d := Z.pos (digits2_pos m)) in *.
  assert (H69 : 2 ^ 69 < 10 ^ 21) by reflexivity.
  unfold at_least_1e21. destruct e as [|p|p]; apply Z.leb_gt.
  - assert (2 ^ d <= 2 ^ 69) by (apply Z.pow_le_mono_r; lia). lia.
  - assert (2 ^ (d + Z.pos p) <= 2 ^ 69) by (apply Z.pow_le_mono_r; lia).
    rewrite Z.pow_add_r in * by lia.
    assert (0 < 2 ^ Z.pos p) by positive_power. nia.
  - assert (0 < 2 ^ Z.pos p) by positive_power.
    assert (2 ^ d <= 2 ^ (69 + Z.pos p)) by (apply Z.pow_le_mono_r; lia).
    rewrite Z.pow_add_r in * by lia. nia.
Qed.

(** A positive number below 10^9, divided by 10^6, stays far below 10^21. *)
Lemma quotient_by_million_below_1e21 (x : float) :
  (0 <? x)%float = true -> (x <? 1000000000)%float = true ->
  below_1e21 (x / 1000000) = true.
Proof.
  rewrite !FloatAxioms.ltb_spec. intros Hpos Hlt.
  pose proof (Prim2SF_valid x) as Hv.
  unfold below_1e21. rewrite div_spec. unfold SF64div.
  set (y := Prim2SF 1000000). vm_compute in y. subst y.
  set (b := Prim2SF 1000000000) in Hlt. vm_compute in b. subst b.
  change (Prim2SF 0) with (S754_zero false) in Hpos.
  destruct (Prim2SF x) as [s|s| |s mx ex]; try discriminate Hpos; try (destruct s; discriminate).
  destruct s; [discriminate Hpos|].
  unfold SFdiv.
  assert (Hex : ex <= -23).
  { unfold SFltb, SFcompare in Hlt. destruct (Z.compare_spec ex (-23)); [lia | lia | discriminate]. }
  assert (Hdx : Zdigits2 (Z.pos mx) <= 53).
  { simpl in Hv. unfold bounded, canonical_mantissa, fexp, emin, prec, emax in Hv.
    apply andb_true_iff in Hv. destruct Hv as [Hc _]. apply Z.eqb_eq in Hc. simpl. lia. }
  pose proof (SFdiv_core_magnitude mx 8589934592000000 ex (-33) 11
                ltac:(change (Zdigits2 (Z.pos 8589934592000000)) with 53; lia) ltac:(lia)) as Hcore.
  destruct (SFdiv_core_binary prec emax (Z.pos mx) ex (Z.pos 8589934592000000) (-33)) as [[q e] l].
  destruct Hcore as [Hq Hmag].
  pose proof (binary_round_aux_magnitude (xorb false false) q e 11 l Hq Hmag ltac:(lia) ltac:(lia)) as Hr.
  destruct (binary_round_aux prec emax (xorb false false) q e l) as [s'|s'| |s' m' e'];
    [reflexivity | contradiction | contradiction |].
  rewrite small_magnitude_below_1e21; [reflexivity | lia].
Qed.

(** [below_1e21] is the comparison [Math.abs(x) < 1e21] of JavaScript. *)
Lemma below_1e21_as_comparison (x : float) :
  below_1e21 x = (abs x <? 1e21)%float.
Proof.
  rewrite FloatAxioms.ltb_spec, abs_spec.
  pose proof (Prim2SF_valid x) as Hv. unfold below_1e21.
  set (b := Prim2SF 1e21). vm_compute in b. subst b.
  destruct (Prim2SF x) as [s|s| |s m e]; try reflexivity.
  simpl in Hv. unfold bounded, canonical_mantissa, fexp, emin, prec, emax in Hv.
  apply andb_true_iff in Hv. destruct Hv as [Hc _]. apply Z.eqb_eq in Hc.
  unfold SFabs, SFltb, SFcompare.
  assert (E21 : 10 ^ 21 = 7629394531250000 * 131072) by reflexivity.
  assert (E17 : 2 ^ 17 = 131072) by reflexivity.
  assert (Ecmp : forall a b, Pos.compare_cont Eq a b = (a ?= b)%positive) by reflexivity.
  destruct (e ?= 17) eqn:He.
  - apply Z.compare_eq_iff in He. subst e. rewrite Ecmp.
    unfold at_least_1e21. rewrite E21, E17.
    destruct (m ?= 7629394531250000)%positive eqn:Hm.
    + apply Pos.compare_eq_iff in Hm. apply negb_false_iff, Z.leb_le. subst m. lia.
    + assert (Hlt : Z.pos m < 7629394531250000) by (apply Pos2Z.pos_lt_pos; exact Hm).
      apply negb_true_iff, Z.leb_gt. clear - Hlt. lia.
    + assert (Hgt : 7629394531250000 < Z.pos m)
        by (apply Pos2Z.pos_lt_pos, Pos.compare_gt_iff; exact Hm).
      apply negb_false_iff, Z.leb_le. clear - Hgt. lia.
  - assert (Hlt : e < 17) by exact He. rewrite small_magnitude_below_1e21; [reflexivity | lia].
  - assert (Hgt : 17 < e) by (apply Z.compare_gt_iff; exact He). apply negb_false_iff. unfold at_least_1e21.
    assert (Hd : Z.pos (digits2_pos m) = 53) by lia.
    pose proof (Zdigits2_ge (Z.pos m) ltac:(lia)) as Hm. simpl Zdigits2 in Hm. rewrite Hd in Hm.
    assert (E52 : 2 ^ (53 - 1) = 4503599627370496) by reflexivity. rewrite E52 in Hm.
    destruct e as [|p|p]; try lia. apply Z.leb_le.
    assert (H18 : 2 ^ 18 <= 2 ^ Z.pos p) by (apply Z.pow_le_mono_r; lia).
    assert (E18 : 2 ^ 18 = 262144) by reflexivity. rewrite E18 in H18.
    rewrite E21. set (P := 2 ^ Z.pos p) in *. nia.
Qed.
End Magnitude.

(** ** Comparisons and truthiness of numbers *)
Section Numbers.

(** [y <= x] from the other side. *)
Lemma SFcompare_swap (x y : spec_float) :
  SFcompare y x = option_map CompOpp (SFcompare x y).
Proof.
  destruct x as [sx|sx| |sx mx ex], y as [sy|sy| |sy my ey]; simpl; try reflexivity;
    try (destruct sx, sy; reflexivity); try (destruct sx; reflexivity); try (destruct sy; reflexivity).
  destruct sx, sy; simpl; try reflexivity; f_equal;
    rewrite (Z.compare_antisym ex ey); destruct (ex ?= ey)%Z; simpl; try reflexivity;
    rewrite (Pos.compare_cont_antisym mx my Eq); reflexivity.
Qed.

Lemma ltb_not_leb (x y : float) : (x <? y)%float = true -> (y <=? x)%float = false.
Proof.
  rewrite FloatAxioms.ltb_spec, FloatAxioms.leb_spec. unfold SFltb, SFleb. rewrite (SFcompare_swap (Prim2SF x) (Prim2SF y)).
  destruct (SFcompare (Prim2SF x) (Prim2SF y)) as [[]|]; simpl; congruence.
Qed.

(** A number that compares above a positive one is neither zero nor NaN. *)
Lemma truthy_above (b x : float) :
  (0 <? b)%float = true -> (b <=? x)%float = true -> ToBoolean (JNumber x) = true.
Proof.
  rewrite FloatAxioms.ltb_spec, FloatAxioms.leb_spec. unfold SFltb, SFleb, ToBoolean.
  change (Prim2SF 0) with (S754_zero false).
  destruct (Prim2SF b) as [sb|sb| |sb mb eb], (Prim2SF x) as [sx|sx| |sx mx ex];
    simpl; try discriminate; try reflexivity; destruct sb; discriminate.
Qed.

Lemma truthy_positive (x : float) : (0 <? x)%float = true -> ToBoolean (JNumber x) = true.
Proof.
  rewrite FloatAxioms.ltb_spec. unfold SFltb, ToBoolean.
  change (Prim2SF 0) with (S754_zero false).
  destruct (Prim2SF x) as [sx|sx| |sx mx ex]; simpl; try discriminate; reflexivity.
Qed.

Lemma truthy_nonzero (x : float) :
  (x =? 0)%float = false -> isNaN x = false -> ToBoolean (JNumber x) = true.
Proof.
  rewrite FloatAxioms.eqb_spec. unfold SFeqb, ToBoolean, isNaN.
  change (Prim2SF 0) with (S754_zero false).
  destruct (Prim2SF x) as [sx|sx| |sx mx ex]; simpl; try discriminate; reflexivity.
Qed.

Lemma below_1e21_not_NaN_factor (x y : float) : below_1e21 (x * y) = true -> isNaN x = false.
Proof.
  unfold below_1e21, isNaN. rewrite mul_spec. unfold SF64mul.
  destruct (Prim2SF x); try reflexivity. simpl. discriminate.
Qed.

End Numbers.


(** ** The formatting helpers *)

Section Helpers.
Context `{Host}.

(** C2, as amended. [formatMarketCap] on a number [x]:
    - when [x >= 1e9] and the quotient [x / 1e9] is finite and below 10^21,
      the result is ["$"], the quotient formatted to 2 decimal places, ["B"];
    - when [0 < x < 1e9], the result is ["$"], [x / 1e6] formatted to 2
      decimal places, ["M"];
    - on zero, [null] and [undefined] the result is ["N/A"].
    The quotients are those of JavaScript's division. *)
Theorem formatMarketCap_formats :
  (forall x : float,
      (1000000000 <=? x)%float = true ->
      below_1e21 (x / 1000000000) = true ->
      exists body,
        formatMarketCap (JNumber x) = Normal ("$" ++ body ++ "B") /\
        two_decimal_places (mathematical_value (x / 1000000000)) body) /\
  (forall x : float,
      (0 <? x)%float = true ->
      (x <? 1000000000)%float = true ->
      exists body,
        formatMarketCap (JNumber x) = Normal ("$" ++ body ++ "M") /\
        two_decimal_places (mathematical_value (x / 1000000)) body) /\
  formatMarketCap (JNumber 0) = Normal "N/A" /\
  formatMarketCap (JNumber (-0)) = Normal "N/A" /\
  formatMarketCap JNull = Normal "N/A" /\
  formatMarketCap JUndefined = Normal "N/A".
Proof.
  split; [|split; [|repeat split; reflexivity]].
  - intros x Hge Hq. unfold formatMarketCap.
    rewrite (truthy_above 1000000000 x eq_refl Hge). simpl negb. cbv iota.
    unfold ge, divide, ToNumber. simpl mbind. rewrite Hge.
    exists (toFixed (x / 1000000000) 2). split; [reflexivity|].
    apply toFixed_two_decimal_places, Hq.
  - intros x Hpos Hlt. unfold formatMarketCap.
    rewrite (truthy_positive x Hpos). simpl negb. cbv iota.
    unfold ge, divide, ToNumber. simpl mbind. rewrite (ltb_not_leb _ _ Hlt).
    exists (toFixed (x / 1000000) 2). split; [reflexivity|].
    apply toFixed_two_decimal_places, quotient_by_million_below_1e21; assumption.
Qed.

(** C3, as amended. The four helpers that test their input for truth
    ([formatMarketCap], [formatPercentage], [formatPrice], [formatVolume])
    give ["N/A"] for zero, for [null] and for [undefined] alike;
    [formatNumber] gives ["0.00"] for zero and for [null] alike. *)
Theorem zero_and_missing_alike :
  (formatMarketCap (JNumber 0) = Normal "N/A" /\ formatMarketCap (JNumber (-0)) = Normal "N/A" /\
   formatMarketCap JNull = Normal "N/A" /\ formatMarketCap JUndefined = Normal "N/A") /\
  (formatPercentage (JNumber 0) = Normal "N/A" /\ formatPercentage (JNumber (-0)) = Normal "N/A" /\
   formatPercentage JNull = Normal "N/A" /\ formatPercentage JUndefined = Normal "N/A") /\
  (formatPrice (JNumber 0) = Normal "N/A" /\ formatPrice (JNumber (-0)) = Normal "N/A" /\
   formatPrice JNull = Normal "N/A" /\ formatPrice JUndefined = Normal "N/A") /\
  (formatVolume (JNumber 0) = Normal "N/A" /\ formatVolume (JNumber (-0)) = Normal "N/A" /\
   formatVolume JNull = Normal "N/A" /\ formatVolume JUndefined = Normal "N/A") /\
  (formatNumber (JNumber 0) = Normal "0.00" /\ formatNumber JNull = Normal "0.00").
Proof. repeat split; reflexivity. Qed.

(** C8, as amended. For every nonzero number [x] whose product [x * 100]
    is finite and below 10^21 in magnitude, [formatPercentage] returns the
    product formatted to 2 decimal places, followed by ["%"]; for zero,
    [null] and [undefined] it returns ["N/A"]; and
    [formatPercentage(0.0523)] is ["5.23%"]. *)
Theorem formatPercentage_formats :
  (forall x : float,
      (x =? 0)%float = false ->
      below_1e21 (x * 100) = true ->
      exists body,
        formatPercentage (JNumber x) = Normal (body ++ "%") /\
        two_decimal_places (mathematical_value (x * 100)) body) /\
  formatPercentage (JNumber 0) = Normal "N/A" /\
  formatPercentage (JNumber (-0)) = Normal "N/A" /\
  formatPercentage JNull = Normal "N/A" /\
  formatPercentage JUndefined = Normal "N/A" /\
  formatPercentage (JNumber 0.0523) = Normal "5.23%".
Proof.
  split; [|repeat split; reflexivity].
  intros x Hx Hp. unfold formatPercentage.
  rewrite (truthy_nonzero x Hx (below_1e21_not_NaN_factor x 100 Hp)).
  exists (toFixed (x * 100) 2). split; [reflexivity|].
  apply toFixed_two_decimal_places, Hp.
Qed.

(** C9, as amended. [formatNumber] passes the string ["N/A"] through
    unchanged; any other value that converts to a finite number below 10^21
    in magnitude (a number itself, [null], a boolean, a numeric string) comes
    back as that number formatted to 2 decimal places; and on every value
    that is not an object ([undefined] and [null] among them) the function
    returns a string and does not throw. It reads and changes no state: it
    is a function of its argument. *)
Theorem formatNumber_formats :
  (forall (v : JSValue) (x : float),
      strict_equals_string v "N/A" = false ->
      ToNumber v = Normal x ->
      below_1e21 x = true ->
      exists body,
        formatNumber v = Normal body /\ two_decimal_places (mathematical_value x) body) /\
  formatNumber (JString "N/A") = Normal "N/A" /\
  (forall v : JSValue, isPrimitive v = true -> exists s, formatNumber v = Normal s).
Proof.
  split; [|split; [reflexivity|]].
  - intros v x Hv Hx Hb. unfold formatNumber. rewrite Hv, Hx. simpl mbind.
    exists (toFixed x 2). split; [reflexivity|].
    apply toFixed_two_decimal_places, Hb.
  - intros v Hv. unfold formatNumber.
    destruct (strict_equals_string v "N/A"); [eexists; reflexivity|].
    destruct v; try discriminate Hv; eexists; reflexivity.
Qed.

(** C10. [formatNumber(null)] is ["0.00"] and [formatNumber(undefined)] is
    ["NaN"]: the input goes through [Number(...)], not through a truth test.
    The four other helpers return ["N/A"] for both. *)
Theorem formatNumber_coerces_missing_input :
  formatNumber JNull = Normal "0.00" /\
  formatNumber JUndefined = Normal "NaN" /\
  formatMarketCap JNull = Normal "N/A" /\ formatMarketCap JUndefined = Normal "N/A" /\
  formatPercentage JNull = Normal "N/A" /\ formatPercentage JUndefined = Normal "N/A" /\
  formatPrice JNull = Normal "N/A" /\ formatPrice JUndefined = Normal "N/A" /\
  formatVolume JNull = Normal "N/A" /\ formatVolume JUndefined = Normal "N/A".
Proof. repeat split; reflexivity. Qed.

End Helpers.

(** C2, on concrete values: 2.5e9 gives a "B" string and 5e6 an "M" string. *)
Lemma formatMarketCap_formats_witness :
  ((1000000000 <=? 2500000000)%float = true /\
   below_1e21 (2500000000 / 1000000000) = true /\
   exists body,
     @formatMarketCap sample_host (JNumber 2500000000) = Normal ("$" ++ body ++ "B") /\
     two_decimal_places (mathematical_value (2500000000 / 1000000000)) body) /\
  ((0 <? 5000000)%float = true /\
   (5000000 <? 1000000000)%float = true /\
   exists body,
     @formatMarketCap sample_host (JNumber 5000000) = Normal ("$" ++ body ++ "M") /\
     two_decimal_places (mathematical_value (5000000 / 1000000)) body).
Proof.
  split; (split; [reflexivity | split; [reflexivity|]]).
  - apply (proj1 (@formatMarketCap_formats sample_host)); reflexivity.
  - apply (proj1 (proj2 (@formatMarketCap_formats sample_host))); reflexivity.
Defined.

(** C2 fails as stated: a value of 1e31 is at least 1e9, and the result is
    ["$1e+22B"], whose middle is not a numeral with two decimals: [toFixed]
    switches to exponent notation from 10^21 on. *)
Lemma formatMarketCap_large_value :
  (1000000000 <=? 1e31)%float = true /\
  (forall H : Host, formatMarketCap (JNumber 1e31) = Normal ("$" ++ "1e+22" ++ "B")) /\
  read_two_decimals "1e+22" = None.
Proof. split; [reflexivity | split; [intros H; reflexivity | reflexivity]]. Qed.

(** C3 fails as stated: [formatNumber] separates zero from [undefined]. *)
Lemma formatNumber_zero_vs_undefined :
  (forall H : Host, formatNumber (JNumber 0) = Normal "0.00") /\
  (forall H : Host, formatNumber JUndefined = Normal "NaN").
Proof. split; intros H; reflexivity. Qed.

(** C8, on a concrete value. *)
Lemma formatPercentage_formats_witness :
  (0.25 =? 0)%float = false /\
  below_1e21 (0.25 * 100) = true /\
  exists body,
    @formatPercentage sample_host (JNumber 0.25) = Normal (body ++ "%") /\
    two_decimal_places (mathematical_value (0.25 * 100)) body.
Proof.
  split; [reflexivity | split; [reflexivity|]].
  apply (proj1 (@formatPercentage_formats sample_host)); reflexivity.
Defined.

(** C8 fails as stated: 1e20 is a nonzero number, and the result is
    ["1e+22%"], which is not a numeral with two decimals before the ["%"]. *)
Lemma formatPercentage_large_value :
  (1e20 =? 0)%float = false /\
  (forall H : Host, formatPercentage (JNumber 1e20) = Normal ("1e+22" ++ "%")) /\
  read_two_decimals "1e+22" = None.
Proof. split; [reflexivity | split; [intros H; reflexivity | reflexivity]]. Qed.

(** C9, on a concrete value. *)
Lemma formatNumber_formats_witness :
  strict_equals_string (JNumber 12.345) "N/A" = false /\
  @ToNumber sample_host (JNumber 12.345) = Normal 12.345%float /\
  below_1e21 12.345 = true /\
  exists body,
    @formatNumber sample_host (JNumber 12.345) = Normal body /\
    two_decimal_places (mathematical_value 12.345) body.
Proof.
  split; [reflexivity | split; [reflexivity | split; [reflexivity|]]].
  apply (proj1 (@formatNumber_formats sample_host)); reflexivity.
Defined.

(** C9 fails as stated: [undefined] comes back as ["NaN"] and 1e21 as
    ["1e+21"], neither of them a numeral with two decimals. *)
Lemma formatNumber_not_two_decimals :
  (forall H : Host, formatNumber JUndefined = Normal "NaN") /\
  read_two_decimals "NaN" = None /\
  (forall H : Host, formatNumber (JNumber 1e21) = Normal "1e+21") /\
  read_two_decimals "1e+21" = None.
Proof. repeat split; intros; reflexivity. Qed.

(** ** The handlers *)

Section Effects.
Context `{Host}.

Lemma run_bind {A B : Type} (c : Action A) (f : A -> Action B) (w : World) :
  (c ≫= f) w = match c w with
               | (Normal a, w') => f a w'
               | (Throw e, w') => (Throw e, w')
               end.
Proof. reflexivity. Qed.

Lemma alter_last {A : Type} (f : A -> A) (l : list A) (c : A) :
  alter f (length l) (l ++ [c])%list = (l ++ [f c])%list.
Proof. induction l as [|a l IH]; simpl; [reflexivity | f_equal; exact IH]. Qed.

Lemma lookup_last {A : Type} (l : list A) (c : A) : (l ++ [c])%list !! length l = Some c.
Proof. induction l as [|a l IH]; simpl; [reflexivity | exact IH]. Qed.

(** *** [split] *)

Lemma split_without (c : ascii) (s : string) : occurs c s = false -> split c s = [s].
Proof.
  induction s as [|a r IH]; [reflexivity|]. simpl. intros Hs.
  apply orb_false_iff in Hs. destruct Hs as [Ha Hr]. rewrite Ha, (IH Hr). reflexivity.
Qed.

Lemma split_at_first (c : ascii) (a b : string) :
  occurs c a = false -> split c (a ++ String c b) = a :: split c b.
Proof.
  induction a as [|x a IH]; simpl; intros Ha.
  - rewrite Ascii.eqb_refl. reflexivity.
  - apply orb_false_iff in Ha. destruct Ha as [Hx Ha]. rewrite Hx, (IH Ha). reflexivity.
Qed.

(** *** Records *)

(** Reading a property a record holds. *)
Lemma Get_holds (props : list (string * JSValue)) (name : string) (v : JSValue) :
  holds props name v -> Get (JObject props) name = Normal v.
Proof.
  unfold holds, Get. intros [Hnd Hin]. f_equal.
  induction props as [|[k x] props IH]; [inversion Hin|].
  simpl in Hnd. apply NoDup_cons in Hnd. destruct Hnd as [Hk Hnd].
  apply elem_of_cons in Hin. simpl. destruct Hin as [[= <- <-] | Hin].
  - rewrite String.eqb_refl. reflexivity.
  - destruct (String.eqb_spec k name) as [->|_].
    + exfalso. apply Hk. apply (list_elem_of_fmap_2 fst _ (name, v)), Hin.
    + apply IH; assumption.
Qed.

(** The page once [createChart] has run on the chart container. *)
Lemma createChart_run (w : World) :
  createChart "chart-container" w =
    let w0 := match chart w with
              | Some _ => snd (set_innerHTML "chart-container" "" w)
              | None => w
              end in
    let id := length (charts w) in
    (Normal id,
     set_chart (Some id)
       (set_mounted (<["chart-container" :=
                        (default [] (mounted w0 !! "chart-container") ++ [id])%list]> (mounted w0))
          (set_charts (charts w ++ [{| chart_options := chart_options (expected_chart JUndefined JUndefined JUndefined);
                                       calls := [] |}]) w0))).
Proof.
  unfold createChart. rewrite !run_bind. unfold gets. cbv beta iota zeta.
  destruct (chart w); reflexivity.
Qed.

(** *** The calls the library carries out on the newest chart *)

Lemma carry_out_last (id : nat) (c : Call) (w : World) (l : list Chart) (ch : Chart) :
  charts w = (l ++ [ch])%list -> id = length l ->
  carry_out id c w =
    (Normal tt,
     set_charts (l ++ [{| chart_options := chart_options ch; calls := calls ch ++ [c] |}]) w).
Proof. intros Hw ->. unfold carry_out, modify. rewrite Hw, alter_last. reflexivity. Qed.

Lemma add_series_last (k : SeriesKind) (id : nat) (options : JSValue) (w : World)
    (l : list Chart) (ch : Chart) :
  charts w = (l ++ [ch])%list -> id = length l ->
  add_series k id options w =
    (Normal {| of_chart := id; place := series_count ch; kind := k |},
     set_charts (l ++ [{| chart_options := chart_options ch;
                          calls := calls ch ++ [AddSeries k options] |}]) w).
Proof.
  intros Hw Hid. unfold add_series. rewrite (carry_out_last id _ w l ch Hw Hid).
  subst id. rewrite Hw, lookup_last. reflexivity.
Qed.

Lemma setData_last (s : Series) (d : JSValue) (w : World) (l : list Chart) (ch : Chart) :
  SetDataOutcome (kind s) d = Normal tt ->
  charts w = (l ++ [ch])%list -> of_chart s = length l ->
  setData s d w =
    (Normal tt,
     set_charts (l ++ [{| chart_options := chart_options ch;
                          calls := calls ch ++ [SetData (place s) d] |}]) w).
Proof.
  intros Hd Hw Hid. unfold setData. rewrite run_bind. unfold lift. rewrite Hd.
  apply carry_out_last; assumption.
Qed.

Lemma setData_refused (s : Series) (d : JSValue) (w : World) (e : Thrown) :
  SetDataOutcome (kind s) d = Throw e -> setData s d w = (Throw e, w).
Proof. intros Hd. unfold setData. rewrite run_bind. unfold lift. rewrite Hd. reflexivity. Qed.

Lemma setMarkers_last (s : Series) (ms : list JSValue) (w : World) (l : list Chart) (ch : Chart) :
  SetMarkersOutcome ms = Normal tt ->
  charts w = (l ++ [ch])%list -> of_chart s = length l ->
  setMarkers s ms w =
    (Normal tt,
     set_charts (l ++ [{| chart_options := chart_options ch;
                          calls := calls ch ++ [SetMarkers (place s) ms] |}]) w).
Proof.
  intros Hd Hw Hid. unfold setMarkers. rewrite run_bind. unfold lift. rewrite Hd.
  apply carry_out_last; assumption.
Qed.

(** *** [renderChart] *)

(** The page [renderChart] leaves on chart data. *)
Lemma renderChart_run (props : list (string * JSValue))
    (candlestick volume time symbol : JSValue) (w : World) :
  chart_data props candlestick volume time ->
  renderChart (JObject props) symbol w =
    let w0 := match chart w with
              | Some _ => snd (set_innerHTML "chart-container" "" w)
              | None => w
              end in
    let id := length (charts w) in
    (Normal tt,
     set_chart (Some id)
       (set_mounted (<["chart-container" :=
                        (default [] (mounted w0 !! "chart-container") ++ [id])%list]> (mounted w0))
          (set_charts (charts w ++ [expected_chart candlestick volume time]) w0))).
Proof.
  intros (Hc & Hv & Ht & Hkc & Hkv & Hkm).
  unfold renderChart. cbv zeta. rewrite run_bind, createChart_run. cbv zeta beta iota.
  rewrite (Get_holds _ _ _ Hc), (Get_holds _ _ _ Hv), (Get_holds _ _ _ Ht).
  unfold addCandlestickSeries, addHistogramSeries, fitContent.
  rewrite run_bind. erewrite add_series_last by reflexivity. cbv beta iota.
  rewrite !run_bind. unfold lift at 1. cbv beta iota.
  erewrite setData_last by (first [exact Hkc | reflexivity]). cbv beta iota.
  rewrite run_bind. erewrite add_series_last by reflexivity. cbv beta iota.
  rewrite !run_bind. unfold lift at 1. cbv beta iota.
  erewrite setData_last by (first [exact Hkv | reflexivity]). cbv beta iota.
  rewrite !run_bind. unfold lift at 1. cbv beta iota. rewrite run_bind.
  erewrite setMarkers_last by (first [exact Hkm | reflexivity]). cbv beta iota.
  erewrite carry_out_last by reflexivity.
  destruct (chart w); reflexivity.
Qed.

(** C6. [renderChart], given chart data (a record holding candlestick
    data and volume data the charting library takes, and a purchase
    timestamp) and a symbol, returns, and afterwards: the module variable
    [chart] holds a new instance; on that instance the library has carried
    out, in this order and nothing else, the addition of the candlestick
    series with the fixed colours, the loading of the candlestick data, the
    addition of the volume histogram on the scale ["volume"] with margins 0.8
    and 0, the loading of the volume data, the setting of the one ["BUY"]
    marker below the bar at the purchase timestamp, and the fitting of the
    time range; earlier instances are as they were; the container holds the
    new instance alone when an instance existed before (its content was
    cleared first), and after its previous content otherwise; inputs,
    display fields, console, alerts and requests are untouched. *)
Theorem renderChart_builds (props : list (string * JSValue))
    (candlestick volume time symbol : JSValue) (w : World) :
  let data := JObject props in
  let id := length (charts w) in
  let w' := snd (renderChart data symbol w) in
  chart_data props candlestick volume time ->
  fst (renderChart data symbol w) = Normal tt /\
  chart w' = Some id /\
  charts w' = (charts w ++ [expected_chart candlestick volume time])%list /\
  mounted w' !! "chart-container" =
    Some ((match chart w with
           | Some _ => []
           | None => default [] (mounted w !! "chart-container")
           end) ++ [id])%list /\
  (chart w <> None -> markup w' !! "chart-container" = Some "") /\
  values w' = values w /\ texts w' = texts w /\ console w' = console w /\
  alerts w' = alerts w /\ requests w' = requests w.
Proof.
  cbv zeta. intros Hdata. rewrite (renderChart_run props candlestick volume time symbol w Hdata).
  cbv zeta. destruct (chart w) as [old|]; simpl; rewrite ?lookup_insert_eq;
    repeat split; try reflexivity.
  intros Hnone. contradiction.
Qed.

(** *** [loadDbEntries] *)

Lemma option_markup_record (e : string * string) :
  option_markup (entry_record e) = Normal (option_element e).
Proof. reflexivity. Qed.

Lemma entry_record_entry (e : string * string) : entry_of (entry_record e) e.
Proof.
  exists [("symbol", JString e.1); ("date", JString e.2)].
  assert (Hnd : NoDup ([("symbol", JString e.1); ("date", JString e.2)].*1)).
  { apply (bool_decide_unpack _). vm_compute. exact I. }
  split; [reflexivity | split; (split; [exact Hnd|])].
  - left.
  - right. left.
Qed.

Lemma option_markup_entry (v : JSValue) (e : string * string) :
  entry_of v e -> option_markup v = Normal (option_element e).
Proof.
  intros (props & -> & Hs & Hd). unfold option_markup.
  rewrite (Get_holds _ _ _ Hs), (Get_holds _ _ _ Hd). reflexivity.
Qed.

Lemma entries_markup_entries (items : list JSValue) (entries : list (string * string)) :
  Forall2 entry_of items entries ->
  entries_markup (JArray items) = Normal (String.concat "" (map option_element entries)).
Proof.
  intros Hitems. unfold entries_markup.
  assert (E : map_completion option_markup items = Normal (map option_element entries)).
  { induction Hitems as [|v e items entries Hv _ IH]; [reflexivity|].
    change (map_completion option_markup (v :: items))
      with (b ← option_markup v; bs ← map_completion option_markup items; Normal (b :: bs)).
    rewrite (option_markup_entry v e Hv), IH. reflexivity. }
  rewrite E. reflexivity.
Qed.

Lemma append_assoc (a b c : string) : (a ++ b) ++ c = a ++ b ++ c.
Proof.
  induction a as [|x a IH]; [reflexivity|].
  change (String x ((a ++ b) ++ c) = String x (a ++ b ++ c)). rewrite IH. reflexivity.
Qed.

Lemma append_empty (a : string) : a ++ "" = a.
Proof.
  induction a as [|x a IH]; [reflexivity|].
  change (String x (a ++ "") = String x a). rewrite IH. reflexivity.
Qed.

Lemma every_append (p : ascii -> bool) (a b : string) :
  Html.every p (a ++ b) = Html.every p a && Html.every p b.
Proof.
  induction a as [|x a IH]; [reflexivity|].
  change (p x && Html.every p (a ++ b) = p x && Html.every p a && Html.every p b).
  rewrite IH, andb_assoc. reflexivity.
Qed.

Lemma run_append (t : Html.Tokenizer) (a b : string) :
  Html.run t (a ++ b) = match Html.run t a with
                        | Some t' => Html.run t' b
                        | None => None
                        end.
Proof.
  revert t. induction a as [|x a IH]; intros t; [reflexivity|].
  change (Html.run t (String x (a ++ b))
          = match Html.run t (String x a) with Some t' => Html.run t' b | None => None end).
  simpl. destruct (Html.step t x); [apply IH | reflexivity].
Qed.

(** Inside a double-quoted attribute value, the characters it takes as they
    are join the value. *)
Lemma run_value (s : string) (cl : bool) (nm : string) (done : list (string * string))
    (n v : string) (out : list Html.Token) :
  Html.every Html.value_character s = true ->
  Html.run {| Html.state := Html.AttributeValueDoubleQuoted; Html.closing := cl; Html.name := nm;
              Html.attributes := done; Html.attribute := Some (n, v); Html.emitted := out |} s
  = Some {| Html.state := Html.AttributeValueDoubleQuoted; Html.closing := cl; Html.name := nm;
            Html.attributes := done; Html.attribute := Some (n, v ++ s); Html.emitted := out |}.
Proof.
  revert v. induction s as [|c s IH]; intros v Hs; simpl.
  - rewrite append_empty. reflexivity.
  - simpl in Hs. apply andb_true_iff in Hs. destruct Hs as [Hc Hs].
    unfold Html.value_character in Hc. apply andb_true_iff in Hc. destruct Hc as [Hu Hq].
    apply negb_true_iff in Hu, Hq.
    unfold Html.step. rewrite Hu. simpl. unfold Html.attribute_value_quoted. rewrite Hq.
    unfold Html.append_to_attribute_value. simpl. rewrite (IH _ Hs).
    unfold Html.append. rewrite append_assoc. reflexivity.
Qed.

(** In the data state, the characters the content takes as they are are
    emitted one by one. *)
Lemma run_text (s : string) (cl : bool) (nm : string) (done : list (string * string))
    (a : option (string * string)) (out : list Html.Token) :
  Html.every Html.text_character s = true ->
  Html.run {| Html.state := Html.Data; Html.closing := cl; Html.name := nm;
              Html.attributes := done; Html.attribute := a; Html.emitted := out |} s
  = Some {| Html.state := Html.Data; Html.closing := cl; Html.name := nm;
            Html.attributes := done; Html.attribute := a;
            Html.emitted := (out ++ Html.characters s)%list |}.
Proof.
  revert out. induction s as [|c s IH]; intros out Hs; simpl.
  - rewrite app_nil_r. reflexivity.
  - simpl in Hs. apply andb_true_iff in Hs. destruct Hs as [Hc Hs].
    unfold Html.text_character in Hc. apply andb_true_iff in Hc. destruct Hc as [Hu Hq].
    apply negb_true_iff in Hu, Hq.
    unfold Html.step. rewrite Hu. simpl. unfold Html.data. rewrite Hq.
    unfold Html.emit. simpl. rewrite (IH _ Hs). rewrite <- app_assoc. reflexivity.
Qed.

(** The markup of one option element, read from the data state: a start
    tag with the value, the text, the end tag. *)
Lemma run_option (value text : string) (out : list Html.Token) :
  Html.every Html.value_character value = true ->
  Html.every Html.text_character text = true ->
  Html.run {| Html.state := Html.Data; Html.closing := false; Html.name := "";
              Html.attributes := []; Html.attribute := None; Html.emitted := out |}
    ("<option value=" ++ quote ++ value ++ quote ++ ">" ++ text ++ "</option>")
  = Some {| Html.state := Html.Data; Html.closing := false; Html.name := "";
            Html.attributes := []; Html.attribute := None;
            Html.emitted := (out ++ Html.option_tokens value text)%list |}.
Proof.
  intros Hv Ht.
  rewrite run_append.
  change (Html.run _ "<option value=")
    with (Some {| Html.state := Html.BeforeAttributeValue; Html.closing := false;
                  Html.name := "option"; Html.attributes := [];
                  Html.attribute := Some ("value", ""); Html.emitted := out |}).
  cbv iota beta. rewrite run_append.
  change (Html.run _ quote)
    with (Some {| Html.state := Html.AttributeValueDoubleQuoted; Html.closing := false;
                  Html.name := "option"; Html.attributes := [];
                  Html.attribute := Some ("value", ""); Html.emitted := out |}).
  cbv iota beta. rewrite run_append, (run_value value _ _ _ _ _ _ Hv).
  change ("" ++ value) with value. rewrite run_append.
  change (Html.run _ quote)
    with (Some {| Html.state := Html.AfterAttributeValueQuoted; Html.closing := false;
                  Html.name := "option"; Html.attributes := [];
                  Html.attribute := Some ("value", value); Html.emitted := out |}).
  cbv iota beta. rewrite run_append.
  change (Html.run _ ">")
    with (Some {| Html.state := Html.Data; Html.closing := false; Html.name := "";
                  Html.attributes := []; Html.attribute := None;
                  Html.emitted := (out ++ [Html.StartTag "option" [("value", value)]])%list |}).
  cbv iota beta. rewrite run_append, (run_text text _ _ _ _ _ Ht).
  change (Html.run _ "</option>")
    with (Some {| Html.state := Html.Data; Html.closing := false; Html.name := "";
                  Html.attributes := []; Html.attribute := None;
                  Html.emitted := (((out ++ [Html.StartTag "option" [("value", value)]])
                                    ++ Html.characters text) ++ [Html.EndTag "option"])%list |}).
  unfold Html.option_tokens. rewrite <- !app_assoc. reflexivity.
Qed.

Lemma code_eqb (c : ascii) (n : nat) :
  (n < 256)%nat -> Html.code c n = Ascii.eqb c (ascii_of_nat n).
Proof.
  intros Hn. unfold Html.code. destruct (Ascii.eqb_spec c (ascii_of_nat n)) as [->|Hc].
  - rewrite (nat_ascii_embedding n Hn). apply Nat.eqb_refl.
  - apply Nat.eqb_neq. intros Hcn. apply Hc. rewrite <- Hcn. symmetry. apply ascii_nat_embedding.
Qed.

(** A plain text is taken as it is in an attribute value and as content. *)
Lemma plain_characters (s : string) :
  plain s = true ->
  Html.every Html.value_character s = true /\ Html.every Html.text_character s = true.
Proof.
  unfold plain. rewrite !andb_true_iff, !negb_true_iff. intros ((((Hq & Ha) & Hl) & Hz) & Hr).
  induction s as [|c s IH]; [split; reflexivity|].
  simpl in Hq, Ha, Hl, Hz, Hr.
  apply orb_false_iff in Hq, Ha, Hl, Hz, Hr.
  destruct Hq as [Hq Hq'], Ha as [Ha Ha'], Hl as [Hl Hl'], Hz as [Hz Hz'], Hr as [Hr Hr'].
  destruct (IH Hq' Ha' Hl' Hz' Hr') as [IHv IHt].
  assert (Hu : Html.unread c = false).
  { change (Html.unread c) with (Html.code c 0 || Html.code c 13 || Html.code c 38).
    rewrite !code_eqb by lia. rewrite Hz, Hr. exact Ha. }
  change (Html.value_character c && Html.every Html.value_character s = true /\
          Html.text_character c && Html.every Html.text_character s = true).
  rewrite IHv, IHt. unfold Html.value_character, Html.text_character.
  rewrite Hu, !code_eqb by lia. rewrite Hq.
  change (ascii_of_nat 60) with "<"%char. rewrite Hl. split; reflexivity.
Qed.

(** *** From tokens to options *)

Lemma options_text (text : string) (ts : list Html.Token) (o : Html.OptionElement) :
  Html.options_from (Html.characters text ++ ts) (Some o)
  = Html.options_from ts
      (Some {| Html.option_attributes := Html.option_attributes o;
               Html.option_text := Html.option_text o ++ text |}).
Proof.
  revert o. induction text as [|c text IH]; intros o; simpl.
  - rewrite append_empty. destruct o; reflexivity.
  - rewrite IH. simpl. unfold Html.append. rewrite append_assoc. reflexivity.
Qed.

Lemma options_option (value text : string) (ts : list Html.Token) :
  Html.options_from (Html.option_tokens value text ++ ts) None
  = option_map (cons {| Html.option_attributes := [("value", value)]; Html.option_text := text |})
      (Html.options_from ts None).
Proof.
  unfold Html.option_tokens. simpl. rewrite <- app_assoc, options_text. simpl.
  destruct (Html.options_from ts None); reflexivity.
Qed.

(** *** The markup [loadDbEntries] assigns *)

Lemma option_element_parts (e : string * string) :
  option_element e
  = "<option value=" ++ quote ++ (e.1 ++ "|" ++ e.2) ++ quote ++ ">"
    ++ (e.1 ++ " - " ++ e.2) ++ "</option>".
Proof. unfold option_element. rewrite !append_assoc. reflexivity. Qed.

Lemma concat_cons (a : string) (l : list string) :
  String.concat "" (a :: l) = a ++ String.concat "" l.
Proof. destruct l; simpl; [rewrite append_empty|]; reflexivity. Qed.

Lemma entry_characters (e : string * string) :
  plain e.1 = true -> plain e.2 = true ->
  Html.every Html.value_character (e.1 ++ "|" ++ e.2) = true /\
  Html.every Html.text_character (e.1 ++ " - " ++ e.2) = true.
Proof.
  intros H1 H2. destruct (plain_characters _ H1) as [Hv1 Ht1].
  destruct (plain_characters _ H2) as [Hv2 Ht2].
  rewrite !every_append, Hv1, Ht1.
  change (Html.every Html.value_character ("|" ++ e.2))
    with (Html.every Html.value_character e.2).
  change (Html.every Html.text_character (" - " ++ e.2))
    with (Html.every Html.text_character e.2).
  rewrite Hv2, Ht2. split; reflexivity.
Qed.

(** Markup written from plain symbols and dates reads back as one option
    per entry, in order, with the value [symbol|date] and the text
    [symbol - date]. *)
Lemma parse_options_entries (entries : list (string * string)) :
  Forall (fun e => plain e.1 = true /\ plain e.2 = true) entries ->
  Html.parse_options (String.concat "" (map option_element entries))
  = Some (map option_of entries).
Proof.
  intros Hplain. unfold Html.parse_options, Html.tokens.
  assert (Hrun : forall out,
    Html.run {| Html.state := Html.Data; Html.closing := false; Html.name := "";
                Html.attributes := []; Html.attribute := None; Html.emitted := out |}
      (String.concat "" (map option_element entries))
    = Some {| Html.state := Html.Data; Html.closing := false; Html.name := "";
              Html.attributes := []; Html.attribute := None;
              Html.emitted :=
                (out ++ concat (map (fun e => Html.option_tokens (e.1 ++ "|" ++ e.2)
                                                                  (e.1 ++ " - " ++ e.2)) entries))%list |}).
  { induction Hplain as [|e entries [H1 H2] _ IH]; intros out.
    - simpl. rewrite app_nil_r. reflexivity.
    - destruct (entry_characters e H1 H2) as [Hv Ht].
      change (map option_element (e :: entries))
        with (option_element e :: map option_element entries).
      rewrite concat_cons, run_append, option_element_parts, (run_option _ _ out Hv Ht), IH.
      simpl. rewrite <- app_assoc. reflexivity. }
  unfold Html.initial. rewrite Hrun. cbn [Html.state Html.emitted app].
  clear. induction entries as [|e entries IH]; [reflexivity|].
  change (Html.options_from
            (Html.option_tokens (e.1 ++ "|" ++ e.2) (e.1 ++ " - " ++ e.2)
             ++ concat (map (fun e => Html.option_tokens (e.1 ++ "|" ++ e.2)
                                                         (e.1 ++ " - " ++ e.2)) entries)) None
          = Some (option_of e :: map option_of entries)).
  rewrite options_option, IH. reflexivity.
Qed.


(** C7, as amended. When the page has loaded, the handler requests
    [/api/entries].
    - If the response is a list of records that hold a symbol and a date,
      both strings without a double quote, an ampersand, a ["<"], a NUL or a
      carriage return, the content of the selection control is replaced by
      markup that the browser reads as exactly one option per record, in
      order, with the value [symbol|date] and the text [symbol - date]; the
      control's value is the one the browser reports for the new options,
      and nothing is logged or alerted.
    - If the request fails, or its body is not JSON, or is JSON but not a
      list, the error is logged to the console and the selection control is
      left as it was; no alert is shown. *)
Theorem loadDbEntries_populates (w : World) :
  let request := GET "/api/entries" in
  let issued := set_requests (requests w ++ [request]) w in
  (forall (items : list JSValue) (entries : list (string * string)),
      Forall2 entry_of items entries ->
      Forall (fun e => plain e.1 = true /\ plain e.2 = true) entries ->
      network w request = Responds (Json (JArray items)) ->
      exists html : string,
        DOMContentLoaded w =
          (Normal tt,
           set_values (<["db-entries" := ControlValue html]> (values w))
             (set_mounted (<["db-entries" := []]> (mounted w))
                (set_markup (<["db-entries" := html]> (markup w)) issued))) /\
        options (snd (DOMContentLoaded w)) "db-entries" = Some (map option_of entries)) /\
  (forall (t : nat) (reason : string),
      network w request = Fails t reason ->
      DOMContentLoaded w =
        (Normal tt,
         set_console (console w ++ [("Error loading database entries:", Rejection reason)]) issued)) /\
  (forall reason : string,
      network w request = Responds (NotJson reason) ->
      DOMContentLoaded w =
        (Normal tt,
         set_console (console w ++ [("Error loading database entries:", Rejection reason)]) issued)) /\
  (forall v : JSValue,
      isArray v = false ->
      network w request = Responds (Json v) ->
      DOMContentLoaded w =
        (Normal tt,
         set_console (console w ++ [("Error loading database entries:", TypeError)]) issued)).
Proof.
  cbv zeta. unfold DOMContentLoaded, call_async, loadDbEntries, try_catch.
  repeat apply conj.
  - intros items entries Hitems Hplain Hnet.
    exists (String.concat "" (map option_element entries)).
    rewrite !run_bind. unfold fetch. rewrite Hnet. cbv beta iota.
    unfold lift. simpl await. cbv beta iota. rewrite !run_bind. simpl json. cbv beta iota.
    rewrite (entries_markup_entries items entries Hitems). cbv beta iota.
    split; [reflexivity|].
    unfold options. simpl. rewrite lookup_insert_eq. simpl.
    apply parse_options_entries, Hplain.
  - intros t reason Hnet. rewrite !run_bind. unfold fetch. rewrite Hnet. reflexivity.
  - intros reason Hnet. rewrite !run_bind. unfold fetch. rewrite Hnet. reflexivity.
  - intros v Hv Hnet. rewrite !run_bind. unfold fetch. rewrite Hnet.
    destruct v; try discriminate Hv; reflexivity.
Qed.

(** *** [showChart] *)

(** C4. When the symbol input or the date input is empty, [showChart]
    shows the validation alert and returns: the page is otherwise unchanged,
    so no request has been issued, nothing logged, nothing displayed and no
    chart built. *)
Theorem showChart_validates (w : World) :
  value_of w "symbol" = "" \/ value_of w "purchase-date" = "" ->
  showChart w = (Normal tt, set_alerts (alerts w ++ ["Please enter both symbol and date"]) w) /\
  requests (snd (showChart w)) = requests w.
Proof.
  intros Hempty.
  assert (E : showChart w
              = (Normal tt, set_alerts (alerts w ++ ["Please enter both symbol and date"]) w)).
  { unfold showChart. rewrite !run_bind. unfold get_value, gets. cbv beta iota.
    rewrite run_bind. cbv beta iota.
    destruct Hempty as [-> | ->]; simpl.
    - reflexivity.
    - rewrite orb_true_r. reflexivity. }
  rewrite E. split; reflexivity.
Qed.

(** What the catch block of [showChart] does. *)
Lemma showChart_catch (error : Thrown) (w : World) :
  (console_error "Error loading data:" error;;
   alert "Error loading data";;
   clearStockInfo) w = (Normal tt, reported error w).
Proof. reflexivity. Qed.

(** [showChart] past the validation: both requests are issued, then joined;
    any failure, before or while the page is updated, ends in the catch
    block. *)
Lemma showChart_run (w : World) :
  let symbol := value_of w "symbol" in
  let date := value_of w "purchase-date" in
  let issued :=
    set_requests (requests w ++ [chart_request symbol date; info_request symbol]) w in
  symbol <> "" -> date <> "" ->
  showChart w =
    match (responses ← await_all (network w (chart_request symbol date))
                                 (network w (info_request symbol));
           d ← json responses.1; i ← json responses.2; Normal (d, i)) with
    | Throw error => (Normal tt, reported error issued)
    | Normal (d, i) =>
        match renderChart d (JString symbol) issued with
        | (Normal _, rendered) =>
            match updateStockInfo i rendered with
            | (Normal _, updated) => (Normal tt, updated)
            | (Throw error, partly) => (Normal tt, reported error partly)
            end
        | (Throw error, partly) => (Normal tt, reported error partly)
        end
    end.
Proof.
  cbv zeta. intros Hs Hd.
  assert (Hgate : negb (ToBoolean (JString (value_of w "symbol")))
                  || negb (ToBoolean (JString (value_of w "purchase-date"))) = false).
  { destruct (value_of w "symbol"); [contradiction|].
    destruct (value_of w "purchase-date"); [contradiction|]. reflexivity. }
  unfold showChart. rewrite !run_bind. unfold get_value, gets. cbv beta iota.
  rewrite run_bind. cbv beta iota. rewrite Hgate.
  unfold try_catch, fetch. rewrite !run_bind. cbv beta iota.
  cbn [network set_requests requests chart values texts markup mounted charts console alerts].
  rewrite <- app_assoc. cbn [app].
  unfold chart_request, info_request, lift.
  destruct (await_all _ _) as [[b1 b2]|error]; [|reflexivity].
  destruct b1 as [d|reason1]; [|reflexivity].
  destruct b2 as [i|reason2]; [|reflexivity].
  cbn [mbind Completion_bind json fst snd]. cbv beta iota.
  repeat (rewrite run_bind; cbn [json fst snd]; cbv beta iota).
  destruct (renderChart d _ _) as [[[]|error] rendered]; [|reflexivity].
  destruct (updateStockInfo i rendered) as [[[]|error] updated]; reflexivity.
Qed.

Lemma reported_fields (error : Thrown) (w : World) :
  Forall (fun id => texts (reported error w) !! id = Some "-") info_fields.
Proof.
  unfold info_fields. repeat constructor; simpl; simplify_map_eq; reflexivity.
Qed.

(** C1, as amended. Past the validation, [showChart] issues the chart-data
    request and the stock-info request, both before it waits for either, and
    joins them.
    - When both succeed and both bodies parse, [renderChart] is called with
      the parsed chart data and, once it has returned, [updateStockInfo]
      with the parsed info; an exception thrown by either is handled as a
      failure. When the parsed chart data is chart data (a record holding
      candlestick data and volume data the charting library takes, and a
      purchase timestamp), [renderChart] does return, and [updateStockInfo]
      is called.
    - When either request fails or either body is not JSON, whatever
      became of the other, neither function is called: the page is the one
      that issued the requests, with the failure handled.
    - A handled failure means: the error logged, the alert shown, all nine
      fields of the info panel reading ["-"], and the chart variable, the
      chart instances and the container as they were. *)
Theorem showChart_joins (w : World) :
  let symbol := value_of w "symbol" in
  let date := value_of w "purchase-date" in
  let issued :=
    set_requests (requests w ++ [chart_request symbol date; info_request symbol]) w in
  symbol <> "" -> date <> "" ->
  (forall d i : JSValue,
      network w (chart_request symbol date) = Responds (Json d) ->
      network w (info_request symbol) = Responds (Json i) ->
      showChart w =
        match renderChart d (JString symbol) issued with
        | (Normal _, rendered) =>
            match updateStockInfo i rendered with
            | (Normal _, updated) => (Normal tt, updated)
            | (Throw error, partly) => (Normal tt, reported error partly)
            end
        | (Throw error, partly) => (Normal tt, reported error partly)
        end) /\
  (forall (props : list (string * JSValue)) (candlestick volume time i : JSValue),
      chart_data props candlestick volume time ->
      network w (chart_request symbol date) = Responds (Json (JObject props)) ->
      network w (info_request symbol) = Responds (Json i) ->
      showChart w =
        match updateStockInfo i (snd (renderChart (JObject props) (JString symbol) issued)) with
        | (Normal _, updated) => (Normal tt, updated)
        | (Throw error, partly) => (Normal tt, reported error partly)
        end) /\
  (forall (t : nat) (reason : string) (b : Body),
      network w (chart_request symbol date) = Fails t reason ->
      network w (info_request symbol) = Responds b ->
      showChart w = (Normal tt, reported (Rejection reason) issued)) /\
  (forall (b : Body) (t : nat) (reason : string),
      network w (chart_request symbol date) = Responds b ->
      network w (info_request symbol) = Fails t reason ->
      showChart w = (Normal tt, reported (Rejection reason) issued)) /\
  (forall (t1 t2 : nat) (reason1 reason2 : string),
      network w (chart_request symbol date) = Fails t1 reason1 ->
      network w (info_request symbol) = Fails t2 reason2 ->
      showChart w =
        (Normal tt, reported (Rejection (if (t2 <? t1)%nat then reason2 else reason1)) issued)) /\
  (forall (reason : string) (b : Body),
      network w (chart_request symbol date) = Responds (NotJson reason) ->
      network w (info_request symbol) = Responds b ->
      showChart w = (Normal tt, reported (Rejection reason) issued)) /\
  (forall (d : JSValue) (reason : string),
      network w (chart_request symbol date) = Responds (Json d) ->
      network w (info_request symbol) = Responds (NotJson reason) ->
      showChart w = (Normal tt, reported (Rejection reason) issued)) /\
  (forall (error : Thrown) (w0 : World),
      console (reported error w0) = (console w0 ++ [("Error loading data:", error)])%list /\
      alerts (reported error w0) = (alerts w0 ++ ["Error loading data"])%list /\
      Forall (fun id => texts (reported error w0) !! id = Some "-") info_fields /\
      chart (reported error w0) = chart w0 /\
      charts (reported error w0) = charts w0 /\
      mounted (reported error w0) = mounted w0 /\
      markup (reported error w0) = markup w0 /\
      values (reported error w0) = values w0 /\
      requests (reported error w0) = requests w0).
Proof.
  cbv zeta. intros Hs Hd. pose proof (showChart_run w Hs Hd) as Hrun. cbv zeta in Hrun.
  repeat apply conj.
  - intros d i Hc Hi. rewrite Hrun, Hc, Hi. reflexivity.
  - intros props candlestick volume time i Hdata Hc Hi. rewrite Hrun, Hc, Hi.
    cbn [await_all json mbind Completion_bind fst snd].
    rewrite (renderChart_run props candlestick volume time _ _ Hdata). reflexivity.
  - intros t reason b Hc Hi. rewrite Hrun, Hc, Hi. reflexivity.
  - intros b t reason Hc Hi. rewrite Hrun, Hc, Hi. reflexivity.
  - intros t1 t2 reason1 reason2 Hc Hi. rewrite Hrun, Hc, Hi. reflexivity.
  - intros reason b Hc Hi. rewrite Hrun, Hc, Hi. reflexivity.
  - intros d reason Hc Hi. rewrite Hrun, Hc, Hi. reflexivity.
  - intros error w0. repeat split; try reflexivity. apply reported_fields.
Qed.

(** *** [showDbChart] *)

(** C5, as amended. When the selected value is [symbol|date] for a symbol
    and a date that contain no ["|"], [showDbChart] writes exactly that
    symbol and that date into the two inputs and calls [showChart]: the page
    it leaves is the page a manual submission leaves when the inputs hold
    that symbol and that date. *)
Theorem showDbChart_delegates (w : World) (symbol date : string) :
  occurs "|" symbol = false ->
  occurs "|" date = false ->
  value_of w "db-entries" = symbol ++ "|" ++ date ->
  let filled := set_values (<["purchase-date" := date]> (<["symbol" := symbol]> (values w))) w in
  showDbChart w = (Normal tt, snd (showChart filled)) /\
  value_of filled "symbol" = symbol /\
  value_of filled "purchase-date" = date.
Proof.
  intros Hs Hd Hsel. cbv zeta. split; [|split].
  - unfold showDbChart. rewrite run_bind. unfold get_value, gets. rewrite Hsel. cbv beta iota.
    change (symbol ++ "|" ++ date) with (symbol ++ String "|" date).
    rewrite (split_at_first "|" symbol date Hs), (split_without "|" date Hd).
    reflexivity.
  - unfold value_of. simpl. rewrite lookup_insert_ne by discriminate.
    rewrite lookup_insert_eq. reflexivity.
  - unfold value_of. simpl. rewrite lookup_insert_eq. reflexivity.
Qed.

End Effects.

(** ** The handlers, on sample pages *)

(** The sample chart data is chart data to the sample library. *)
Lemma sample_chart_data_taken :
  @chart_data sample_host
    [("candlestick", JArray []); ("volume", JArray []); ("purchase_timestamp", JNumber 1704153600)]
    (JArray []) (JArray []) (JNumber 1704153600).
Proof.
  assert (Hnd : NoDup ([("candlestick", JArray []); ("volume", JArray []);
                        ("purchase_timestamp", JNumber 1704153600)].*1)).
  { apply (bool_decide_unpack _). vm_compute. exact I. }
  unfold chart_data, holds. repeat split; try exact Hnd; try reflexivity.
  - left.
  - right. left.
  - right. right. left.
Defined.

(** C1, on a sample page: both requests succeed, the chart data is taken by
    the library, and the info panel is updated from the parsed info after
    the chart was rendered. *)
Lemma showChart_joins_witness :
  let w := sample_page "AAPL" "2024-01-02" ""
             (backend (Responds (Json sample_chart_data)) (Responds (Json sample_info))
                      (Fails 0 "offline")) in
  let issued :=
    set_requests (requests w ++ [chart_request "AAPL" "2024-01-02"; info_request "AAPL"]) w in
  (value_of w "symbol" <> "" /\ value_of w "purchase-date" <> "") /\
  @showChart sample_host w =
    match @updateStockInfo sample_host sample_info
            (snd (@renderChart sample_host sample_chart_data (JString "AAPL") issued)) with
    | (Normal _, updated) => (Normal tt, updated)
    | (Throw error, partly) => (Normal tt, reported error partly)
    end.
Proof.
  cbv zeta. split; [split; discriminate|].
  refine (proj1 (proj2 (@showChart_joins sample_host
    (sample_page "AAPL" "2024-01-02" ""
       (backend (Responds (Json sample_chart_data)) (Responds (Json sample_info))
                (Fails 0 "offline")))
    _ _)) _ (JArray []) (JArray []) (JNumber 1704153600) sample_info
    sample_chart_data_taken eq_refl eq_refl); discriminate.
Defined.

(** C1 fails as stated: both requests succeed and both bodies parse, the
    chart data being [null]. [renderChart] throws on reading a property of
    [null], [updateStockInfo] is never called, and the failure is handled:
    the company name reads ["-"], where [updateStockInfo] would have written
    the name. *)
Lemma showChart_null_chart_data :
  let w := sample_page "AAPL" "2024-01-02" ""
             (backend (Responds (Json JNull)) (Responds (Json sample_info))
                      (Fails 0 "offline")) in
  let after := snd (@showChart sample_host w) in
  network w (chart_request "AAPL" "2024-01-02") = Responds (Json JNull) /\
  network w (info_request "AAPL") = Responds (Json sample_info) /\
  console after = [("Error loading data:", TypeError)] /\
  alerts after = ["Error loading data"] /\
  texts after !! "company-name" = Some "-" /\
  texts (snd (@updateStockInfo sample_host sample_info w)) !! "company-name" = Some "Apple Inc.".
Proof. cbv zeta. repeat split; vm_compute; reflexivity. Qed.

(** C4, on a sample page whose symbol input is empty. *)
Lemma showChart_validates_witness :
  let w := sample_page "" "2024-01-02" ""
             (backend (Fails 0 "offline") (Fails 0 "offline") (Fails 0 "offline")) in
  (value_of w "symbol" = "" \/ value_of w "purchase-date" = "") /\
  @showChart sample_host w
    = (Normal tt, set_alerts (alerts w ++ ["Please enter both symbol and date"]) w) /\
  requests (snd (@showChart sample_host w)) = requests w.
Proof.
  cbv zeta. split; [left; reflexivity|].
  apply (@showChart_validates sample_host). left. reflexivity.
Defined.

(** C5, on a sample page whose selection is [AAPL|2024-01-02]. *)
Lemma showDbChart_delegates_witness :
  let w := sample_page "" "" "AAPL|2024-01-02"
             (backend (Fails 0 "offline") (Fails 0 "offline") (Fails 0 "offline")) in
  let filled :=
    set_values (<["purchase-date" := "2024-01-02"]> (<["symbol" := "AAPL"]> (values w))) w in
  (occurs "|" "AAPL" = false /\ occurs "|" "2024-01-02" = false /\
   value_of w "db-entries" = "AAPL" ++ "|" ++ "2024-01-02") /\
  @showDbChart sample_host w = (Normal tt, snd (@showChart sample_host filled)) /\
  value_of filled "symbol" = "AAPL" /\
  value_of filled "purchase-date" = "2024-01-02".
Proof.
  cbv zeta. split; [repeat split; reflexivity|].
  apply (@showDbChart_delegates sample_host); reflexivity.
Defined.

(** C5 fails as stated: the entry with symbol [A|B] and date [2024-01-02]
    is selected as [A|B|2024-01-02], and [showDbChart] writes [A] into the
    symbol input and [B] into the date input. *)
Lemma showDbChart_symbol_with_separator :
  let w := sample_page "" "" "A|B|2024-01-02"
             (backend (Fails 0 "offline") (Fails 0 "offline") (Fails 0 "offline")) in
  let after := snd (@showDbChart sample_host w) in
  value_of w "db-entries" = "A|B" ++ "|" ++ "2024-01-02" /\
  value_of after "symbol" = "A" /\
  value_of after "purchase-date" = "B".
Proof. cbv zeta. repeat split; vm_compute; reflexivity. Qed.

(** C6, on a fresh sample page. *)
Lemma renderChart_builds_witness :
  let props := [("candlestick", JArray []); ("volume", JArray []);
                ("purchase_timestamp", JNumber 1704153600)] in
  let w := sample_page "AAPL" "2024-01-02" ""
             (backend (Fails 0 "offline") (Fails 0 "offline") (Fails 0 "offline")) in
  let w' := snd (@renderChart sample_host (JObject props) (JString "AAPL") w) in
  @chart_data sample_host props (JArray []) (JArray []) (JNumber 1704153600) /\
  fst (@renderChart sample_host (JObject props) (JString "AAPL") w) = Normal tt /\
  chart w' = Some 0%nat /\
  charts w' = [expected_chart (JArray []) (JArray []) (JNumber 1704153600)].
Proof.
  cbv zeta. split; [exact sample_chart_data_taken|].
  pose proof (@renderChart_builds sample_host _ _ _ _ (JString "AAPL")
    (sample_page "AAPL" "2024-01-02" ""
       (backend (Fails 0 "offline") (Fails 0 "offline") (Fails 0 "offline")))
    sample_chart_data_taken) as Hb.
  cbv zeta in Hb. destruct Hb as (Hf & Hc & Hch & _).
  split; [exact Hf | split; [exact Hc | exact Hch]].
Defined.

(** C7, on a sample page whose backend lists one entry. *)
Lemma loadDbEntries_populates_witness :
  let items := [entry_record ("AAPL", "2024-01-02")] in
  let entries := [("AAPL", "2024-01-02")] in
  let w := sample_page "" "" ""
             (backend (Fails 0 "offline") (Fails 0 "offline") (Responds (Json (JArray items)))) in
  let issued := set_requests (requests w ++ [GET "/api/entries"]) w in
  (Forall2 entry_of items entries /\
   Forall (fun e => plain e.1 = true /\ plain e.2 = true) entries /\
   network w (GET "/api/entries") = Responds (Json (JArray items))) /\
  exists html : string,
    @DOMContentLoaded sample_host w =
      (Normal tt,
       set_values (<["db-entries" := @ControlValue sample_host html]> (values w))
         (set_mounted (<["db-entries" := []]> (mounted w))
            (set_markup (<["db-entries" := html]> (markup w)) issued))) /\
    options (snd (@DOMContentLoaded sample_host w)) "db-entries" = Some (map option_of entries).
Proof.
  cbv zeta.
  assert (Hitems : Forall2 entry_of [entry_record ("AAPL", "2024-01-02")] [("AAPL", "2024-01-02")])
    by (constructor; [apply entry_record_entry | constructor]).
  assert (Hplain : Forall (fun e : string * string => plain e.1 = true /\ plain e.2 = true)
                     [("AAPL", "2024-01-02")])
    by (constructor; [split; reflexivity | constructor]).
  split; [split; [exact Hitems | split; [exact Hplain | reflexivity]]|].
  apply (proj1 (@loadDbEntries_populates sample_host _) _ _ Hitems Hplain). reflexivity.
Defined.

(** C7 fails as stated: the entry with the symbol [A"B] and the date
    [2024-01-02] is written into the markup as it is. The browser ends the
    value at the double quote of the symbol: the control gets an option
    whose value is [A], not the value [A"B|2024-01-02] of the record; what
    follows the quote is read as a second attribute. *)
Lemma loadDbEntries_unescaped_symbol :
  let symbol := "A" ++ quote ++ "B" in
  let items := [entry_record (symbol, "2024-01-02")] in
  let w := sample_page "" "" ""
             (backend (Fails 0 "offline") (Fails 0 "offline") (Responds (Json (JArray items)))) in
  let after := snd (@DOMContentLoaded sample_host w) in
  network w (GET "/api/entries") = Responds (Json (JArray items)) /\
  options after "db-entries"
  = Some [{| Html.option_attributes := [("value", "A"); ("b|2024-01-02" ++ quote, "")];
             Html.option_text := symbol ++ " - 2024-01-02" |}] /\
  options after "db-entries" <> Some (map option_of [(symbol, "2024-01-02")]).
Proof.
  cbv zeta. split; [reflexivity|]. split.
  - vm_compute. reflexivity.
  - vm_compute. discriminate.
Qed.

(** * Further properties of the script *)

Import Frame.

(** ** More on numbers *)
Section MoreNumbers.

Lemma below_1e21_not_NaN (x : float) : below_1e21 x = true -> isNaN x = false.
Proof. unfold below_1e21, isNaN. destruct (Prim2SF x); try reflexivity. discriminate. Qed.

Lemma truthy_negative (x : float) : (x <? 0)%float = true -> ToBoolean (JNumber x) = true.
Proof.
  rewrite FloatAxioms.ltb_spec. unfold SFltb, ToBoolean.
  change (Prim2SF 0) with (S754_zero false).
  destruct (Prim2SF x) as [sx|sx| |sx mx ex]; simpl; try discriminate; reflexivity.
Qed.

(** A negative number is not above a positive one. *)
Lemma negative_below (b x : float) :
  (0 <? b)%float = true -> (x <? 0)%float = true -> (b <=? x)%float = false.
Proof.
  rewrite !FloatAxioms.ltb_spec, FloatAxioms.leb_spec. unfold SFltb, SFleb.
  change (Prim2SF 0) with (S754_zero false).
  destruct (Prim2SF b) as [sb|sb| |sb mb eb], (Prim2SF x) as [sx|sx| |sx mx ex];
    simpl; try discriminate; try reflexivity;
    try (destruct sb; discriminate); try (destruct sx; discriminate);
    destruct sb, sx; simpl; try discriminate; reflexivity.
Qed.

End MoreNumbers.

(** ** The formatting helpers on the inputs a backend may send *)
Section MoreHelpers.
Context `{Host}.

Lemma formatMarketCap_primitive (v : JSValue) :
  isPrimitive v = true -> exists s, formatMarketCap v = Normal s.
Proof.
  intros Hv. unfold formatMarketCap. destruct (negb (ToBoolean v)); [eexists; reflexivity|].
  destruct v; try discriminate Hv; unfold ge, divide, ToNumber; simpl mbind;
    try match goal with |- context [if ?c then _ else _] => destruct c end; eexists; reflexivity.
Qed.

Lemma formatPercentage_primitive (v : JSValue) :
  isPrimitive v = true -> exists s, formatPercentage v = Normal s.
Proof.
  intros Hv. unfold formatPercentage. destruct (ToBoolean v); [|eexists; reflexivity].
  destruct v; try discriminate Hv; eexists; reflexivity.
Qed.

Lemma formatNumber_primitive (v : JSValue) :
  isPrimitive v = true -> exists s, formatNumber v = Normal s.
Proof.
  intros Hv. unfold formatNumber.
  destruct (strict_equals_string v "N/A"); [eexists; reflexivity|].
  destruct v; try discriminate Hv; eexists; reflexivity.
Qed.

Lemma formatVolume_primitive (v : JSValue) :
  isPrimitive v = true -> exists s, formatVolume v = Normal s.
Proof.
  intros Hv. unfold formatVolume. destruct (ToBoolean v) eqn:Hb; [|eexists; reflexivity].
  destruct v; try discriminate Hv; try discriminate Hb; eexists; reflexivity.
Qed.

(** Whether [formatPrice] returns or throws. *)
Lemma formatPrice_outcome (v : JSValue) :
  (formatPrice v ≫= λ _, Normal tt) = if price_shown v then Normal tt else Throw TypeError.
Proof.
  unfold formatPrice, price_shown. destruct (ToBoolean v); [|reflexivity].
  destruct v; reflexivity.
Qed.

(** X1. For every nonzero number [x] that is finite and below 10^21 in
    magnitude, [formatPrice] returns ["$"] followed by [x] formatted to 2
    decimal places. *)
Theorem formatPrice_formats (x : float) :
  (x =? 0)%float = false ->
  below_1e21 x = true ->
  exists body,
    formatPrice (JNumber x) = Normal ("$" ++ body) /\
    two_decimal_places (mathematical_value x) body.
Proof.
  intros Hx Hb. unfold formatPrice.
  rewrite (truthy_nonzero x Hx (below_1e21_not_NaN x Hb)).
  exists (toFixed x 2). split; [reflexivity|].
  apply toFixed_two_decimal_places, Hb.
Qed.

(** X2. [formatPrice] returns exactly on the falsy values and on the
    numbers; on every other value (a non-empty string such as ["N/A"],
    [true], an array, an object) it throws a TypeError: the value has no
    [toFixed]. *)
Theorem formatPrice_rejects (v : JSValue) :
  ((exists s, formatPrice v = Normal s) <-> ToBoolean v = false \/ isNumber v = true) /\
  (formatPrice v = Throw TypeError <-> ToBoolean v = true /\ isNumber v = false).
Proof.
  unfold formatPrice. destruct (ToBoolean v).
  - destruct v; simpl; (split; split; [intros [r Hs] | intros [Hs | Hs] | intros Hs | intros [_ Hs]]);
      try discriminate Hs; try (right; reflexivity); try (eexists; reflexivity);
      try (split; reflexivity); reflexivity.
  - split; split.
    + intros _. left. reflexivity.
    + intros _. eexists. reflexivity.
    + discriminate.
    + intros [Hs _]. discriminate Hs.
Qed.

(** X3. A negative number, whatever its size, takes the millions branch of
    [formatMarketCap]: when the quotient [x / 1e6] is finite and below 10^21
    in magnitude, the result is ["$"], the quotient formatted to 2 decimal
    places, ["M"]. *)
Theorem formatMarketCap_negative (x : float) :
  (x <? 0)%float = true ->
  below_1e21 (x / 1000000) = true ->
  exists body,
    formatMarketCap (JNumber x) = Normal ("$" ++ body ++ "M") /\
    two_decimal_places (mathematical_value (x / 1000000)) body.
Proof.
  intros Hneg Hq. unfold formatMarketCap.
  rewrite (truthy_negative x Hneg). simpl negb. cbv iota.
  unfold ge, divide, ToNumber. simpl mbind. rewrite (negative_below 1000000000 x eq_refl Hneg).
  exists (toFixed (x / 1000000) 2). split; [reflexivity|].
  apply toFixed_two_decimal_places, Hq.
Qed.

(** X4. On a value that is not an object, [formatMarketCap],
    [formatPercentage] and [formatVolume] return a string and do not throw;
    [formatVolume] returns a non-empty string as it is. *)
Theorem helpers_return_on_primitives (v : JSValue) :
  isPrimitive v = true ->
  (exists s, formatMarketCap v = Normal s) /\
  (exists s, formatPercentage v = Normal s) /\
  (exists s, formatVolume v = Normal s) /\
  (forall t, v = JString t -> t <> "" -> formatVolume v = Normal t).
Proof.
  intros Hv. split; [|split; [|split]].
  - apply formatMarketCap_primitive, Hv.
  - apply formatPercentage_primitive, Hv.
  - apply formatVolume_primitive, Hv.
  - intros t -> Ht. unfold formatVolume. simpl.
    destruct (String.eqb_spec t ""); [contradiction|]. reflexivity.
Qed.

End MoreHelpers.

(** X1, on a concrete price. *)
Lemma formatPrice_formats_witness :
  (189.5 =? 0)%float = false /\
  below_1e21 189.5 = true /\
  exists body,
    formatPrice (JNumber 189.5) = Normal ("$" ++ body) /\
    two_decimal_places (mathematical_value 189.5) body.
Proof.
  split; [reflexivity | split; [reflexivity|]].
  apply formatPrice_formats; reflexivity.
Defined.

(** X3, on a concrete value: minus five billion is written in millions. *)
Lemma formatMarketCap_negative_witness :
  (-5000000000 <? 0)%float = true /\
  below_1e21 (-5000000000 / 1000000) = true /\
  exists body,
    @formatMarketCap sample_host (JNumber (-5000000000)) = Normal ("$" ++ body ++ "M") /\
    two_decimal_places (mathematical_value (-5000000000 / 1000000)) body.
Proof.
  split; [reflexivity | split; [reflexivity|]].
  apply (@formatMarketCap_negative sample_host); reflexivity.
Defined.

(** X4, on the string ["N/A"]. *)
Lemma helpers_return_on_primitives_witness :
  isPrimitive (JString "N/A") = true /\
  (exists s, @formatMarketCap sample_host (JString "N/A") = Normal s) /\
  (exists s, @formatPercentage sample_host (JString "N/A") = Normal s) /\
  (exists s, @formatVolume sample_host (JString "N/A") = Normal s) /\
  (forall t, JString "N/A" = JString t -> t <> "" -> @formatVolume sample_host (JString "N/A") = Normal t).
Proof.
  split; [reflexivity|].
  apply (@helpers_return_on_primitives sample_host). reflexivity.
Defined.

(** ** What the handlers keep, and when they throw *)

Section Frames.

Lemma preserves_bind {A B C : Type} (p : World -> C) (a : Action A) (f : A -> Action B) :
  preserves p a -> (forall x, preserves p (f x)) -> preserves p (a ≫= f).
Proof.
  intros Ha Hf w. rewrite run_bind. specialize (Ha w).
  destruct (a w) as [[x|e] w1]; simpl in *.
  - rewrite Hf. exact Ha.
  - exact Ha.
Qed.

Lemma preserves_try_catch {A C : Type} (p : World -> C) (a : Action A) (h : Thrown -> Action A) :
  preserves p a -> (forall e, preserves p (h e)) -> preserves p (try_catch a h).
Proof.
  intros Ha Hh w. unfold try_catch. specialize (Ha w).
  destruct (a w) as [[x|e] w1]; simpl in *.
  - exact Ha.
  - rewrite Hh. exact Ha.
Qed.

Lemma preserves_call_async {C : Type} (p : World -> C) (a : Action unit) :
  preserves p a -> preserves p (call_async a).
Proof. intros Ha w. apply Ha. Qed.

Lemma preserves_forEach {A C : Type} (p : World -> C) (l : list A) (f : A -> Action unit) :
  (forall x, preserves p (f x)) -> preserves p (forEach l f).
Proof.
  intros Hf. induction l as [|x l IH]; simpl.
  - intros w. reflexivity.
  - apply preserves_bind; [apply Hf | intros _; exact IH].
Qed.

Lemma never_throws_bind {A B : Type} (a : Action A) (f : A -> Action B) :
  never_throws a -> (forall x, never_throws (f x)) -> never_throws (a ≫= f).
Proof.
  intros Ha Hf w. rewrite run_bind. destruct (Ha w) as [x Hx].
  destruct (a w) as [[x'|e] w1]; simpl in Hx; [|discriminate]. apply Hf.
Qed.

Lemma never_throws_try_catch {A : Type} (a : Action A) (h : Thrown -> Action A) :
  (forall e, never_throws (h e)) -> never_throws (try_catch a h).
Proof.
  intros Hh w. unfold try_catch. destruct (a w) as [[x|e] w1].
  - exists x. reflexivity.
  - apply Hh.
Qed.

Lemma never_throws_forEach {A : Type} (l : list A) (f : A -> Action unit) :
  (forall x, never_throws (f x)) -> never_throws (forEach l f).
Proof.
  intros Hf. induction l as [|x l IH]; simpl.
  - intros w. exists tt. reflexivity.
  - apply never_throws_bind; [apply Hf | intros _; exact IH].
Qed.

Lemma never_throws_unit (a : Action unit) (w : World) : never_throws a -> fst (a w) = Normal tt.
Proof. intros Ha. destruct (Ha w) as [[] Hx]. exact Hx. Qed.

(** The completion of a sequence. *)
Lemma fst_bind {A B : Type} (a : Action A) (f : A -> Action B) (w : World) :
  fst ((a ≫= f) w) = match fst (a w) with
                     | Normal x => fst (f x (snd (a w)))
                     | Throw e => Throw e
                     end.
Proof. rewrite run_bind. destruct (a w) as [[x|e] w1]; reflexivity. Qed.

(** Two worlds with the same fields are the same world. *)
Lemma world_eq (w1 w2 : World) :
  beside_texts w1 = beside_texts w2 -> texts w1 = texts w2 -> w1 = w2.
Proof.
  destruct w1, w2. unfold beside_texts. simpl. intros [= -> -> -> -> -> -> -> -> ->] ->. reflexivity.
Qed.

End Frames.

(** Frame conditions of straight-line code: binds, handlers and loops are
    taken apart, branches are split, and a primitive step is checked by
    computation. *)
Ltac frame :=
  repeat first
    [ match goal with
      | |- preserves _ (_ ≫= _) => apply preserves_bind; [|intros ?]
      | |- preserves _ (try_catch _ _) => apply preserves_try_catch; [|intros ?]
      | |- preserves _ (call_async _) => apply preserves_call_async
      | |- preserves _ (forEach _ _) => apply preserves_forEach; intros ?
      | |- preserves _ (match ?x with _ => _ end) => destruct x
      end
    | (intros ?; reflexivity) ].

Ltac returns :=
  repeat first
    [ match goal with
      | |- never_throws (_ ≫= _) => apply never_throws_bind; [|intros ?]
      | |- never_throws (try_catch _ _) => apply never_throws_try_catch; intros ?
      | |- never_throws (forEach _ _) => apply never_throws_forEach; intros ?
      | |- never_throws (match ?x with _ => _ end) => destruct x
      end
    | (intros ?; eexists; reflexivity) ].

(** ** The info panel *)

Section Panel.
Context `{Host}.

Lemma set_textContent_other (id id' : string) (v : JSValue) :
  id <> id' -> preserves (fun w => texts w !! id) (set_textContent id' v).
Proof.
  intros Hid. unfold set_textContent. apply preserves_bind; [intros w; reflexivity|].
  intros s w. simpl. apply lookup_insert_ne. congruence.
Qed.

Lemma updateStockInfo_beside_texts (info : JSValue) :
  preserves beside_texts (updateStockInfo info).
Proof. unfold updateStockInfo, set_textContent. frame. Qed.

Lemma updateStockInfo_other (info : JSValue) (id : string) :
  id ∉ info_fields -> preserves (fun w => texts w !! id) (updateStockInfo info).
Proof.
  unfold info_fields. rewrite !not_elem_of_cons. intros Hid.
  unfold updateStockInfo.
  repeat first [ (apply set_textContent_other; tauto)
               | match goal with
                 | |- preserves _ (_ ≫= _) => apply preserves_bind; [|intros ?]
                 end
               | (intros ?; reflexivity) ].
Qed.

Lemma cleared_lookup (t : gmap string string) (id : string) :
  cleared t !! id = if bool_decide (id ∈ info_fields) then Some "-" else t !! id.
Proof.
  unfold cleared. generalize info_fields. intros l. revert t.
  induction l as [|a l IH]; intros t; simpl.
  - reflexivity.
  - rewrite IH. destruct (decide (id ∈ l)) as [Hl|Hl].
    + rewrite !bool_decide_eq_true_2; [reflexivity | right; exact Hl | exact Hl].
    + rewrite (bool_decide_eq_false_2 _ Hl).
      destruct (decide (id = a)) as [->|Ha].
      * rewrite bool_decide_eq_true_2 by left. apply lookup_insert_eq.
      * rewrite bool_decide_eq_false_2 by (rewrite not_elem_of_cons; tauto).
        apply lookup_insert_ne. congruence.
Qed.

Lemma clearStockInfo_run (w : World) :
  clearStockInfo w = (Normal tt, set_texts (cleared (texts w)) w).
Proof. reflexivity. Qed.

(** Clearing forgets what the panel showed. *)
Lemma clearStockInfo_erases (w1 w2 : World) :
  beside_texts w1 = beside_texts w2 ->
  (forall id, id ∉ info_fields -> texts w1 !! id = texts w2 !! id) ->
  clearStockInfo w1 = clearStockInfo w2.
Proof.
  intros Hb Ht. rewrite !clearStockInfo_run. f_equal. apply world_eq.
  - exact Hb.
  - simpl. apply map_eq. intros id. rewrite !cleared_lookup.
    destruct (decide (id ∈ info_fields)) as [Hi|Hi].
    + rewrite bool_decide_eq_true_2 by exact Hi. reflexivity.
    + rewrite bool_decide_eq_false_2 by exact Hi. apply Ht, Hi.
Qed.

(** X5. [clearStockInfo] returns, and afterwards each of the nine fields of
    the info panel reads ["-"], every other display field reads what it
    read, and nothing else on the page has changed; clearing twice is
    clearing once. *)
Theorem clearStockInfo_clears (w : World) :
  let w' := snd (clearStockInfo w) in
  fst (clearStockInfo w) = Normal tt /\
  (forall id, texts w' !! id = if bool_decide (id ∈ info_fields) then Some "-" else texts w !! id) /\
  beside_texts w' = beside_texts w /\
  clearStockInfo w' = (Normal tt, w').
Proof.
  cbv zeta. rewrite clearStockInfo_run. simpl fst. simpl snd.
  split; [reflexivity | split; [|split; [reflexivity|]]].
  - intros id. apply cleared_lookup.
  - rewrite clearStockInfo_run. f_equal. apply world_eq; [reflexivity|].
    simpl. apply map_eq. intros id. rewrite !cleared_lookup.
    destruct (bool_decide (id ∈ info_fields)); reflexivity.
Qed.

(** X6. Whatever [updateStockInfo] was given, whether it returned or threw
    on the way, it has changed nothing but the nine fields of the info
    panel: the inputs, the markup, the chart and its instances, the console,
    the alerts and the requests are as they were, and so is every other
    display field. *)
Theorem updateStockInfo_touches_panel_only (info : JSValue) (w : World) :
  let w' := snd (updateStockInfo info w) in
  beside_texts w' = beside_texts w /\
  (forall id, id ∉ info_fields -> texts w' !! id = texts w !! id).
Proof.
  cbv zeta. split.
  - apply updateStockInfo_beside_texts.
  - intros id Hid. apply (updateStockInfo_other info id Hid).
Qed.

(** X7. Clearing after [updateStockInfo] leaves the page that clearing
    alone leaves: a panel that was updated, or updated in part before an
    exception, shows no trace of it once cleared. *)
Theorem clearStockInfo_after_update (info : JSValue) (w : World) :
  clearStockInfo (snd (updateStockInfo info w)) = clearStockInfo w.
Proof.
  apply clearStockInfo_erases.
  - apply updateStockInfo_beside_texts.
  - intros id Hid. apply (updateStockInfo_other info id Hid).
Qed.

End Panel.

(** ** When [updateStockInfo] throws *)

Section Throws.
Context `{Host}.

Lemma assign_value (id : string) (c : Completion JSValue) (v : JSValue) (w : World) :
  c = Normal v -> isPrimitive v = true ->
  fst ((lift c ≫= set_textContent id) w) = Normal tt.
Proof. intros -> Hv. destruct v; try discriminate Hv; reflexivity. Qed.

Lemma assign_string (id : string) (c : Completion string) (w : World) :
  fst ((lift c ≫= (λ s, set_textContent id (JString s))) w) = (c ≫= λ _, Normal tt).
Proof. destruct c; reflexivity. Qed.

Lemma property_flat (props : list (string * JSValue)) (name : string) :
  flat props = true -> isPrimitive (property (JObject props) name) = true.
Proof.
  unfold property, Get, flat. induction props as [|[k v] props IH]; simpl; [reflexivity|].
  intros Hf. apply andb_true_iff in Hf. destruct Hf as [Hv Hf].
  destruct (String.eqb k name); [exact Hv | apply IH, Hf].
Qed.

Lemma throws_after {A B : Type} (a : Action A) (f : A -> Action B) :
  (forall x w, exists e, fst (f x w) = Throw e) ->
  forall w, exists e, fst ((a ≫= f) w) = Throw e.
Proof.
  intros Hf w. rewrite fst_bind. destruct (fst (a w)) as [x|e]; [apply Hf | exists e; reflexivity].
Qed.

Lemma throws_first {A B : Type} (a : Action A) (f : A -> Action B) :
  (forall w, exists e, fst (a w) = Throw e) ->
  forall w, exists e, fst ((a ≫= f) w) = Throw e.
Proof.
  intros Ha w. rewrite fst_bind. destruct (Ha w) as [e ->]. exists e. reflexivity.
Qed.

Lemma preserves_thrown {A B C : Type} (p : World -> C) (a : Action A) (f : A -> Action B) :
  (forall w, exists e, a w = (Throw e, w)) -> preserves p (a ≫= f).
Proof. intros Ha w. rewrite run_bind. destruct (Ha w) as [e ->]. reflexivity. Qed.

Lemma formatPrice_not_shown (v : JSValue) :
  price_shown v = false -> formatPrice v = Throw TypeError.
Proof.
  intros Hv. pose proof (formatPrice_outcome v) as Ho. rewrite Hv in Ho.
  destruct (formatPrice v) as [s|e]; [discriminate Ho|].
  injection Ho as ->. reflexivity.
Qed.

(** X8. On a record whose properties are all primitive values (numbers,
    strings, booleans, [null]), [updateStockInfo] throws only over the two
    52-week prices: it returns when each of them is falsy or a number, and
    throws a TypeError otherwise. *)
Theorem updateStockInfo_throws_over_prices (props : list (string * JSValue)) (w : World) :
  flat props = true ->
  fst (updateStockInfo (JObject props) w) =
    if price_shown (property (JObject props) "fifty_two_week_high")
       && price_shown (property (JObject props) "fifty_two_week_low")
    then Normal tt else Throw TypeError.
Proof.
  intros Hf. unfold updateStockInfo.
  assert (Hp : forall name, isPrimitive (property (JObject props) name) = true)
    by (intros name; apply property_flat, Hf).
  assert (Hg : forall name, Get (JObject props) name = Normal (property (JObject props) name))
    by reflexivity.
  rewrite fst_bind, (assign_value _ _ _ _ (Hg "name") (Hp "name")).
  rewrite fst_bind, (assign_value _ _ _ _ (Hg "sector") (Hp "sector")).
  rewrite fst_bind, (assign_value _ _ _ _ (Hg "industry") (Hp "industry")).
  rewrite fst_bind, assign_string, Hg.
  destruct (formatMarketCap_primitive _ (Hp "market_cap")) as [s1 E1].
  cbn [mbind Completion_bind]. rewrite E1. cbv iota beta.
  rewrite fst_bind, assign_string, Hg.
  destruct (formatNumber_primitive _ (Hp "pe_ratio")) as [s2 E2].
  cbn [mbind Completion_bind]. rewrite E2. cbv iota beta.
  rewrite fst_bind, assign_string, Hg.
  destruct (formatPercentage_primitive _ (Hp "dividend_yield")) as [s3 E3].
  cbn [mbind Completion_bind]. rewrite E3. cbv iota beta.
  rewrite fst_bind, assign_string, Hg.
  change (Normal (property (JObject props) "fifty_two_week_high") ≫= formatPrice)
    with (formatPrice (property (JObject props) "fifty_two_week_high")).
  rewrite formatPrice_outcome.
  destruct (price_shown (property (JObject props) "fifty_two_week_high")); [|reflexivity].
  cbv iota beta.
  rewrite fst_bind, assign_string, Hg.
  change (Normal (property (JObject props) "fifty_two_week_low") ≫= formatPrice)
    with (formatPrice (property (JObject props) "fifty_two_week_low")).
  rewrite formatPrice_outcome.
  destruct (price_shown (property (JObject props) "fifty_two_week_low")); [|reflexivity].
  cbv iota beta.
  rewrite assign_string, Hg.
  destruct (formatVolume_primitive _ (Hp "avg_volume")) as [s4 E4].
  cbn [mbind Completion_bind]. rewrite E4. reflexivity.
Qed.

(** X9. When the 52-week high can be read and is neither falsy nor a
    number, [updateStockInfo] does not return, and the statements after the
    failing one have not run: the 52-week high, the 52-week low and the
    average volume read what they read before the call. *)
Theorem updateStockInfo_stops_at_price (info v : JSValue) (w : World) :
  Get info "fifty_two_week_high" = Normal v ->
  price_shown v = false ->
  let w' := snd (updateStockInfo info w) in
  (exists e, fst (updateStockInfo info w) = Throw e) /\
  texts w' !! "52w-high" = texts w !! "52w-high" /\
  texts w' !! "52w-low" = texts w !! "52w-low" /\
  texts w' !! "avg-volume" = texts w !! "avg-volume".
Proof.
  intros Hg Hv. cbv zeta.
  assert (Hthrow : forall w0,
    (lift (Get info "fifty_two_week_high" ≫= formatPrice)
       ≫= (λ s, set_textContent "52w-high" (JString s))) w0 = (Throw TypeError, w0)).
  { intros w0. rewrite Hg.
    change (Normal v ≫= formatPrice) with (formatPrice v).
    rewrite (formatPrice_not_shown v Hv). reflexivity. }
  assert (Hkeep : forall id, id ∈ ["52w-high"; "52w-low"; "avg-volume"] ->
            preserves (fun w => texts w !! id) (updateStockInfo info)).
  { intros id Hid. unfold updateStockInfo.
    do 6 (apply preserves_bind;
          [apply preserves_bind; [intros ?; reflexivity|];
           intros ?; apply set_textContent_other;
           rewrite !elem_of_cons in Hid; rewrite elem_of_nil in Hid;
           destruct Hid as [-> | [-> | [-> | []]]]; discriminate
          |intros _]).
    apply preserves_thrown. intros w0. exists TypeError. apply Hthrow. }
  split; [|split; [|split]].
  - revert w. unfold updateStockInfo.
    do 6 (apply throws_after; intros _).
    apply throws_first. intros w0. exists TypeError. rewrite Hthrow. reflexivity.
  - apply (Hkeep "52w-high"). set_solver.
  - apply (Hkeep "52w-low"). set_solver.
  - apply (Hkeep "avg-volume"). set_solver.
Qed.

End Throws.

(** X8, on a record whose 52-week high is the string ["N/A"]. *)
Lemma updateStockInfo_throws_over_prices_witness :
  let props := [("name", JString "Apple Inc."); ("fifty_two_week_high", JString "N/A")] in
  let w := sample_page "" "" "" (backend (Fails 0 "offline") (Fails 0 "offline") (Fails 0 "offline")) in
  flat props = true /\
  fst (@updateStockInfo sample_host (JObject props) w) = Throw TypeError.
Proof.
  cbv zeta. split; [reflexivity|].
  exact (@updateStockInfo_throws_over_prices sample_host
           [("name", JString "Apple Inc."); ("fifty_two_week_high", JString "N/A")]
           (sample_page "" "" "" (backend (Fails 0 "offline") (Fails 0 "offline") (Fails 0 "offline")))
           eq_refl).
Defined.

(** X9, on the same record. *)
Lemma updateStockInfo_stops_at_price_witness :
  let info := JObject [("name", JString "Apple Inc."); ("fifty_two_week_high", JString "N/A")] in
  let w := sample_page "" "" "" (backend (Fails 0 "offline") (Fails 0 "offline") (Fails 0 "offline")) in
  let w' := snd (@updateStockInfo sample_host info w) in
  (Get info "fifty_two_week_high" = Normal (JString "N/A") /\ price_shown (JString "N/A") = false) /\
  (exists e, fst (@updateStockInfo sample_host info w) = Throw e) /\
  texts w' !! "52w-high" = texts w !! "52w-high" /\
  texts w' !! "52w-low" = texts w !! "52w-low" /\
  texts w' !! "avg-volume" = texts w !! "avg-volume".
Proof.
  cbv zeta. split; [split; reflexivity|].
  apply (@updateStockInfo_stops_at_price sample_host _ (JString "N/A")); reflexivity.
Defined.

(** ** The chart *)

Section Charts.
Context `{Host}.

Lemma renderChart_beside_chart (data symbol : JSValue) :
  preserves beside_chart (renderChart data symbol).
Proof. unfold renderChart, createChart, setData, setMarkers. frame. Qed.

Lemma carry_out_state (id : nat) (c : Call) : preserves chart_state (carry_out id c).
Proof. intros w. unfold chart_state. simpl. rewrite length_alter. reflexivity. Qed.

Lemma add_series_state (k : SeriesKind) (id : nat) (options : JSValue) :
  preserves chart_state (add_series k id options).
Proof. intros w. unfold chart_state. simpl. rewrite length_alter. reflexivity. Qed.

Lemma single_chart_state (w w' : World) :
  chart_state w' = chart_state w -> single_chart w -> single_chart w'.
Proof. unfold chart_state, single_chart. intros [= -> -> ->]. exact id. Qed.

Lemma createChart_single (w : World) :
  single_chart w ->
  exists w1, createChart "chart-container" w = (Normal (length (charts w)), w1) /\ single_chart w1.
Proof.
  intros Hw. rewrite createChart_run. cbv zeta. eexists. split; [reflexivity|].
  unfold single_chart in *. destruct (chart w) as [id|]; simpl.
  - rewrite !lookup_insert_eq. simpl. rewrite length_app. simpl. split; [reflexivity | lia].
  - rewrite Hw, lookup_insert_eq. simpl. rewrite length_app. simpl. split; [reflexivity | lia].
Qed.

Lemma renderChart_single (data symbol : JSValue) (w : World) :
  single_chart w -> single_chart (snd (renderChart data symbol w)).
Proof.
  intros Hw. destruct (createChart_single w Hw) as (w1 & Hrun & Hw1).
  unfold renderChart. cbv zeta. rewrite run_bind, Hrun.
  refine (single_chart_state w1 _ _ Hw1).
  generalize w1. generalize (length (charts w)). intros id.
  change (preserves chart_state
    (candlestickSeries ← addCandlestickSeries id
        (JObject [
          ("upColor", JString "#26a69a");
          ("downColor", JString "#ef5350");
          ("borderVisible", JBoolean false);
          ("wickUpColor", JString "#26a69a");
          ("wickDownColor", JString "#ef5350")]);
      lift (Get data "candlestick") ≫= setData candlestickSeries;;
      volumeSeries ← addHistogramSeries id
        (JObject [
          ("color", JString "#26a69a");
          ("priceFormat", JObject [("type", JString "volume")]);
          ("priceScaleId", JString "volume");
          ("scaleMargins", JObject [("top", JNumber 0.8); ("bottom", JNumber 0)])]);
      lift (Get data "volume") ≫= setData volumeSeries;;
      time ← lift (Get data "purchase_timestamp");
      setMarkers candlestickSeries
        [JObject [
          ("time", time);
          ("position", JString "belowBar");
          ("color", JString "#ffeb3b");
          ("shape", JString "arrowUp");
          ("text", JString "BUY")]];;
      fitContent id)).
  unfold addCandlestickSeries, addHistogramSeries, fitContent.
  repeat match goal with
    | |- preserves _ (add_series _ _ _) => apply add_series_state
    | |- preserves _ (carry_out _ _) => apply carry_out_state
    | |- preserves _ (setData _ _) => unfold setData
    | |- preserves _ (setMarkers _ _) => unfold setMarkers
    | |- preserves _ (_ ≫= _) => apply preserves_bind; [|intros ?]
    | |- preserves _ _ => intros ?; reflexivity
    end.
Qed.

(** Whether [renderChart] returns: the three properties are read and
    handed to the library one after the other. *)
Lemma renderChart_completion (data symbol : JSValue) (w : World) :
  fst (renderChart data symbol w) =
    (candlestick ← Get data "candlestick"; SetDataOutcome Candlestick candlestick;;
     volume ← Get data "volume"; SetDataOutcome Histogram volume;;
     time ← Get data "purchase_timestamp"; SetMarkersOutcome [buy_marker time]).
Proof.
  unfold renderChart. cbv zeta. rewrite run_bind, createChart_run. cbv zeta beta iota.
  unfold addCandlestickSeries, addHistogramSeries, fitContent, buy_marker.
  rewrite run_bind. erewrite add_series_last by reflexivity. cbv beta iota.
  destruct (Get data "candlestick") as [c|e]; [|reflexivity].
  rewrite !run_bind. unfold lift at 1. cbv beta iota. cbn [mbind Completion_bind].
  destruct (SetDataOutcome Candlestick c) as [[]|e] eqn:Ec;
    [|erewrite setData_refused by exact Ec; reflexivity].
  erewrite setData_last by (first [exact Ec | reflexivity]). cbv beta iota.
  rewrite run_bind. erewrite add_series_last by reflexivity. cbv beta iota.
  destruct (Get data "volume") as [v|e]; [|reflexivity].
  rewrite !run_bind. unfold lift at 1. cbv beta iota. cbn [mbind Completion_bind].
  destruct (SetDataOutcome Histogram v) as [[]|e] eqn:Ev;
    [|erewrite setData_refused by exact Ev; reflexivity].
  erewrite setData_last by (first [exact Ev | reflexivity]). cbv beta iota.
  destruct (Get data "purchase_timestamp") as [t|e]; [|reflexivity].
  rewrite !run_bind. unfold lift at 1. cbv beta iota. cbn [mbind Completion_bind].
  rewrite run_bind. unfold setMarkers. rewrite run_bind. unfold lift at 1.
  destruct (SetMarkersOutcome _) as [[]|e]; reflexivity.
Qed.

Lemma renderChart_nullish (data symbol : JSValue) (w : World) :
  isNullish data = true ->
  fst (renderChart data symbol w) = Throw TypeError /\
  chart (snd (renderChart data symbol w)) = Some (length (charts w)) /\
  charts (snd (renderChart data symbol w)) = (charts w ++ [blank_chart])%list.
Proof.
  intros Hd. unfold renderChart. cbv zeta. rewrite run_bind, createChart_run. cbv zeta beta iota.
  unfold addCandlestickSeries. rewrite run_bind. erewrite add_series_last by reflexivity.
  cbv beta iota. rewrite !run_bind.
  destruct data; try discriminate Hd; (split; [reflexivity | split; reflexivity]).
Qed.

(** X10. Whether [renderChart] returns or throws is decided by the chart
    data and the charting library, and by nothing on the page: the function
    reads the candlestick data and hands it to the library, then the volume
    data, then the purchase timestamp inside the one marker, and the first
    of these steps to throw ends the call. On chart data that is [null] or
    [undefined] that is the first reading, with a TypeError. The symbol the
    function is given has no part in what it does. *)
Theorem renderChart_outcome (data symbol : JSValue) (w : World) :
  fst (renderChart data symbol w) =
    (candlestick ← Get data "candlestick"; SetDataOutcome Candlestick candlestick;;
     volume ← Get data "volume"; SetDataOutcome Histogram volume;;
     time ← Get data "purchase_timestamp"; SetMarkersOutcome [buy_marker time]) /\
  (isNullish data = true -> fst (renderChart data symbol w) = Throw TypeError) /\
  (forall other : JSValue, renderChart data other w = renderChart data symbol w).
Proof.
  split; [apply renderChart_completion | split; [|reflexivity]].
  intros Hd. apply (renderChart_nullish data symbol w Hd).
Qed.

(** X11. On chart data that is [null] or [undefined], [renderChart] throws
    after it has replaced the chart: the module variable holds a new
    instance, which is blank (the candlestick series added, no data, no
    marker, no volume series, the time range not fitted), earlier instances
    are as they were, and inputs, display fields, console, alerts and
    requests are untouched. *)
Theorem renderChart_without_data (data symbol : JSValue) (w : World) :
  isNullish data = true ->
  let w' := snd (renderChart data symbol w) in
  fst (renderChart data symbol w) = Throw TypeError /\
  chart w' = Some (length (charts w)) /\
  charts w' = (charts w ++ [blank_chart])%list /\
  beside_chart w' = beside_chart w.
Proof.
  intros Hd. cbv zeta. split; [|split; [|split]].
  - apply (renderChart_nullish data symbol w Hd).
  - apply (renderChart_nullish data symbol w Hd).
  - apply (renderChart_nullish data symbol w Hd).
  - apply renderChart_beside_chart.
Qed.

(** X12. [renderChart] keeps the container at one chart: if the container
    holds no chart while the module variable is [null], and otherwise holds
    exactly the instance the variable refers to, then the same is true after
    the call, whatever the chart data and whether the call returned or
    threw. *)
Theorem renderChart_single_chart (data symbol : JSValue) (w : World) :
  single_chart w -> single_chart (snd (renderChart data symbol w)).
Proof. apply renderChart_single. Qed.

End Charts.

(** X11, on a fresh page: the blank chart is the only instance. *)
Lemma renderChart_without_data_witness :
  let w := sample_page "AAPL" "2024-01-02" ""
             (backend (Fails 0 "offline") (Fails 0 "offline") (Fails 0 "offline")) in
  let w' := snd (@renderChart sample_host JNull (JString "AAPL") w) in
  isNullish JNull = true /\
  fst (@renderChart sample_host JNull (JString "AAPL") w) = Throw TypeError /\
  chart w' = Some (length (charts w)) /\
  charts w' = (charts w ++ [blank_chart])%list /\
  beside_chart w' = beside_chart w.
Proof.
  cbv zeta. split; [reflexivity|].
  apply (@renderChart_without_data sample_host). reflexivity.
Defined.

(** X12, on a fresh page. *)
Lemma renderChart_single_chart_witness :
  let w := sample_page "AAPL" "2024-01-02" ""
             (backend (Fails 0 "offline") (Fails 0 "offline") (Fails 0 "offline")) in
  single_chart w /\
  single_chart (snd (@renderChart sample_host sample_chart_data (JString "AAPL") w)).
Proof.
  cbv zeta. split; [reflexivity|].
  apply (@renderChart_single_chart sample_host). reflexivity.
Defined.

(** ** The handlers, whatever the backend answers *)

Section Outcomes.
Context `{Host}.

Lemma showChart_never_throws : never_throws showChart.
Proof. unfold showChart. returns. Qed.

Lemma set_value_element_never_throws (id : string) (parts : list string) (i : nat) :
  never_throws (set_value id (element parts i)).
Proof. unfold set_value, element. destruct (parts !! i); returns. Qed.

Lemma showDbChart_never_throws : never_throws showDbChart.
Proof.
  unfold showDbChart.
  repeat first [ apply set_value_element_never_throws
               | match goal with
                 | |- never_throws (_ ≫= _) => apply never_throws_bind; [|intros ?]
                 end
               | (intros ?; eexists; reflexivity) ].
Qed.

Lemma loadDbEntries_never_throws : never_throws loadDbEntries.
Proof. unfold loadDbEntries. returns. Qed.

Lemma fetchStockInfo_never_throws (symbol : string) : never_throws (fetchStockInfo symbol).
Proof. unfold fetchStockInfo. returns. Qed.

(** X13. No handler lets an exception escape: [showChart], [showDbChart],
    [loadDbEntries] and [fetchStockInfo] return on every page, whatever the
    inputs hold and whatever the backend answers. *)
Theorem handlers_return (w : World) :
  fst (showChart w) = Normal tt /\
  fst (showDbChart w) = Normal tt /\
  fst (loadDbEntries w) = Normal tt /\
  (forall symbol : string, fst (fetchStockInfo symbol w) = Normal tt).
Proof.
  split; [|split; [|split]].
  - apply never_throws_unit, showChart_never_throws.
  - apply never_throws_unit, showDbChart_never_throws.
  - apply never_throws_unit, loadDbEntries_never_throws.
  - intros symbol. apply never_throws_unit, fetchStockInfo_never_throws.
Qed.

(** The page [showChart] leaves when an input is empty. *)
Lemma showChart_gate (w : World) :
  value_of w "symbol" = "" \/ value_of w "purchase-date" = "" ->
  showChart w = (Normal tt, set_alerts (alerts w ++ ["Please enter both symbol and date"]) w).
Proof.
  intros Hempty. unfold showChart. rewrite !run_bind. unfold get_value, gets. cbv beta iota.
  rewrite run_bind. cbv beta iota.
  destruct Hempty as [-> | ->]; simpl.
  - reflexivity.
  - rewrite orb_true_r. reflexivity.
Qed.

Lemma cleared_after_update (info : JSValue) (w : World) :
  cleared (texts (snd (updateStockInfo info w))) = cleared (texts w).
Proof.
  apply map_eq. intros id. rewrite !cleared_lookup.
  destruct (decide (id ∈ info_fields)) as [Hi|Hi].
  - rewrite bool_decide_eq_true_2 by exact Hi. reflexivity.
  - rewrite bool_decide_eq_false_2 by exact Hi. apply (updateStockInfo_other info id Hi).
Qed.

(** Handling a failure after [updateStockInfo] threw leaves the page that
    handling it before the update leaves. *)
Lemma reported_after_update (error : Thrown) (info : JSValue) (w : World) :
  reported error (snd (updateStockInfo info w)) = reported error w.
Proof.
  pose proof (updateStockInfo_beside_texts info w) as Hb.
  pose proof (cleared_after_update info w) as Hc.
  apply world_eq.
  - unfold beside_texts in *. simpl. injection Hb as -> -> -> -> -> -> -> -> ->. reflexivity.
  - exact Hc.
Qed.

(** Past the validation the two requests are issued, and no other. *)
Lemma showChart_requests (w : World) :
  value_of w "symbol" <> "" -> value_of w "purchase-date" <> "" ->
  requests (snd (showChart w))
  = (requests w ++ [chart_request (value_of w "symbol") (value_of w "purchase-date");
                    info_request (value_of w "symbol")])%list.
Proof.
  intros Hs Hd. rewrite (showChart_run w Hs Hd).
  set (issued := set_requests _ w).
  destruct (_ ≫= _) as [[d i]|error]; [|reflexivity].
  pose proof (renderChart_beside_chart d (JString (value_of w "symbol")) issued) as Hr.
  destruct (renderChart d _ issued) as [[[]|error] rendered]; simpl in Hr;
    unfold beside_chart in Hr; simpl in Hr; injection Hr as _ _ _ _ Hq _; [|exact Hq].
  pose proof (updateStockInfo_beside_texts i rendered) as Hu.
  destruct (updateStockInfo i rendered) as [[[]|error] updated]; simpl in Hu;
    unfold beside_texts in Hu; injection Hu as _ _ _ _ _ _ _ Hu _; simpl; rewrite Hu; exact Hq.
Qed.

(** X14. Past the validation, and whatever the backend answers, [showChart]
    issues the two requests once and no other, leaves the inputs as they
    are, and either reports nothing, or reports a failure in full: one entry
    on the console, one alert, and all nine fields of the info panel
    reading ["-"]. *)
Theorem showChart_reports_in_full (w : World) :
  let symbol := value_of w "symbol" in
  let date := value_of w "purchase-date" in
  let w' := snd (showChart w) in
  symbol <> "" -> date <> "" ->
  requests w' = (requests w ++ [chart_request symbol date; info_request symbol])%list /\
  values w' = values w /\
  ((alerts w' = alerts w /\ console w' = console w) \/
   (exists error,
      alerts w' = (alerts w ++ ["Error loading data"])%list /\
      console w' = (console w ++ [("Error loading data:", error)])%list /\
      Forall (fun id => texts w' !! id = Some "-") info_fields)).
Proof.
  cbv zeta. intros Hs Hd. rewrite (showChart_run w Hs Hd).
  set (issued := set_requests _ w).
  destruct (_ ≫= _) as [[d i]|error].
  - pose proof (renderChart_beside_chart d (JString (value_of w "symbol")) issued) as Hr.
    destruct (renderChart d _ issued) as [[[]|error] rendered]; simpl in Hr;
      unfold beside_chart in Hr; simpl in Hr; injection Hr as Hv Ht Hc Ha Hq Hn.
    + pose proof (updateStockInfo_beside_texts i rendered) as Hu.
      destruct (updateStockInfo i rendered) as [[[]|error] updated]; simpl in Hu;
        unfold beside_texts in Hu; injection Hu as Hu1 Hu2 Hu3 Hu4 Hu5 Hu6 Hu7 Hu8 Hu9; simpl.
      * rewrite Hu8, Hq, Hu2, Hv, Hu7, Ha, Hu6, Hc. split; [reflexivity | split; [reflexivity|]].
        left. split; reflexivity.
      * rewrite Hu8, Hq, Hu2, Hv, Hu7, Ha, Hu6, Hc. split; [reflexivity | split; [reflexivity|]].
        right. exists error. split; [reflexivity | split; [reflexivity|]].
        apply (reported_fields error updated).
    + simpl. rewrite Hq, Hv, Ha, Hc. split; [reflexivity | split; [reflexivity|]].
      right. exists error. split; [reflexivity | split; [reflexivity|]].
      apply (reported_fields error rendered).
  - simpl. split; [reflexivity | split; [reflexivity|]].
    right. exists error. split; [reflexivity | split; [reflexivity|]].
    apply (reported_fields error issued).
Qed.

(** X15. When both requests succeed, the parsed chart data is chart data
    (a record holding candlestick data and volume data the charting library
    takes, and a purchase timestamp), and [updateStockInfo] throws on the
    info, the chart has been drawn and the failure is reported all the same:
    the page is the one [renderChart] left, with the error logged, the alert
    shown and the info panel cleared; nothing of the partial update
    remains. *)
Theorem showChart_update_fails (w : World) (props : list (string * JSValue))
    (candlestick volume time i : JSValue) (error : Thrown) :
  let symbol := value_of w "symbol" in
  let date := value_of w "purchase-date" in
  let issued :=
    set_requests (requests w ++ [chart_request symbol date; info_request symbol]) w in
  let rendered := snd (renderChart (JObject props) (JString symbol) issued) in
  symbol <> "" -> date <> "" ->
  chart_data props candlestick volume time ->
  network w (chart_request symbol date) = Responds (Json (JObject props)) ->
  network w (info_request symbol) = Responds (Json i) ->
  fst (updateStockInfo i rendered) = Throw error ->
  showChart w = (Normal tt, reported error rendered) /\
  charts (snd (showChart w)) = (charts w ++ [expected_chart candlestick volume time])%list /\
  alerts (snd (showChart w)) = (alerts w ++ ["Error loading data"])%list.
Proof.
  cbv zeta. intros Hs Hd Hdata Hc Hi Hu.
  set (issued := set_requests (requests w ++ [chart_request (value_of w "symbol") (value_of w "purchase-date");
                                             info_request (value_of w "symbol")]) w) in *.
  pose proof (renderChart_run props candlestick volume time (JString (value_of w "symbol")) issued Hdata)
    as Hrun. cbv zeta in Hrun.
  assert (E : showChart w = (Normal tt, reported error
            (snd (renderChart (JObject props) (JString (value_of w "symbol")) issued)))).
  { rewrite (showChart_run w Hs Hd), Hc, Hi. cbn [await_all json mbind Completion_bind fst snd].
    fold issued. rewrite Hrun in Hu |- *. cbn [fst snd] in Hu |- *.
    pose proof (reported_after_update error i
      (set_chart (Some (length (charts issued)))
         (set_mounted
            (<["chart-container" :=
                (default [] (mounted match chart issued with
                                     | Some _ => snd (set_innerHTML "chart-container" "" issued)
                                     | None => issued
                                     end !! "chart-container") ++ [length (charts issued)])%list]>
               (mounted match chart issued with
                        | Some _ => snd (set_innerHTML "chart-container" "" issued)
                        | None => issued
                        end))
            (set_charts (charts issued ++ [expected_chart candlestick volume time])
               match chart issued with
               | Some _ => snd (set_innerHTML "chart-container" "" issued)
               | None => issued
               end)))) as Hp.
    destruct (updateStockInfo i _) as [[[]|error'] partly]; simpl in Hu; [discriminate Hu|].
    injection Hu as ->. simpl in Hp. rewrite Hp. reflexivity. }
  rewrite E, Hrun. split; [reflexivity|]. subst issued. simpl.
  destruct (chart w); split; reflexivity.
Qed.

(** X16. [fetchStockInfo] issues one request, for [/api/stock-info/] and
    the symbol. When the request fails or its body is not JSON, the error is
    logged and the info panel cleared, with no alert. When the body parses,
    [updateStockInfo] is called with it; if that throws, the page is again
    the one with the error logged and the panel cleared, as if nothing had
    been written. *)
Theorem fetchStockInfo_reports (symbol : string) (w : World) :
  let request := info_request symbol in
  let issued := set_requests (requests w ++ [request]) w in
  let failed error :=
    set_texts (cleared (texts w))
      (set_console (console w ++ [("Error fetching stock info:", error)]) issued) in
  (forall (t : nat) (reason : string),
      network w request = Fails t reason ->
      fetchStockInfo symbol w = (Normal tt, failed (Rejection reason))) /\
  (forall reason : string,
      network w request = Responds (NotJson reason) ->
      fetchStockInfo symbol w = (Normal tt, failed (Rejection reason))) /\
  (forall info : JSValue,
      network w request = Responds (Json info) ->
      fetchStockInfo symbol w =
        match updateStockInfo info issued with
        | (Normal _, updated) => (Normal tt, updated)
        | (Throw error, _) => (Normal tt, failed error)
        end).
Proof.
  cbv zeta. unfold fetchStockInfo, try_catch, info_request. split; [|split].
  - intros t reason Hnet. rewrite !run_bind. unfold fetch. rewrite Hnet. reflexivity.
  - intros reason Hnet. rewrite !run_bind. unfold fetch. rewrite Hnet. reflexivity.
  - intros info Hnet. rewrite !run_bind. unfold fetch. rewrite Hnet. cbv beta iota.
    unfold lift. simpl await. cbv beta iota. rewrite !run_bind. simpl json. cbv beta iota.
    set (issued := set_requests _ w).
    pose proof (updateStockInfo_beside_texts info issued) as Hb.
    pose proof (cleared_after_update info issued) as Hc.
    destruct (updateStockInfo info issued) as [[[]|error] partly]; [reflexivity|].
    simpl in Hb, Hc. rewrite run_bind. unfold console_error, modify. cbv beta iota.
    rewrite clearStockInfo_run. f_equal. apply world_eq.
    + unfold beside_texts in *. simpl. injection Hb as -> -> -> -> -> -> -> -> ->. reflexivity.
    + exact Hc.
Qed.

(** X17. When the selected value holds no ["|"], the destructuring leaves
    [date] undefined: [showDbChart] writes the whole selection into the
    symbol input and assigns [undefined] to the value of the date input,
    which an input that keeps what it is assigned holds as the string
    ["undefined"], and calls [showChart]. On the empty selection that shows
    the validation alert; on any other the two requests are issued, the
    chart-data one with the purchase date ["undefined"]. *)
Theorem showDbChart_without_separator (w : World) (selected : string) :
  occurs "|" selected = false ->
  value_of w "db-entries" = selected ->
  let filled :=
    set_values (<["purchase-date" := "undefined"]> (<["symbol" := selected]> (values w))) w in
  showDbChart w = (Normal tt, snd (showChart filled)) /\
  (selected = "" ->
   snd (showChart filled)
   = set_alerts (alerts w ++ ["Please enter both symbol and date"]) filled) /\
  (selected <> "" ->
   requests (snd (showChart filled))
   = (requests w ++ [chart_request selected "undefined"; info_request selected])%list).
Proof.
  intros Hs Hsel. cbv zeta.
  set (filled := set_values _ w).
  assert (Hsym : value_of filled "symbol" = selected).
  { unfold value_of, filled. simpl. rewrite lookup_insert_ne by discriminate.
    rewrite lookup_insert_eq. reflexivity. }
  assert (Hdate : value_of filled "purchase-date" = "undefined").
  { unfold value_of, filled. simpl. rewrite lookup_insert_eq. reflexivity. }
  split; [|split].
  - unfold showDbChart. rewrite run_bind. unfold get_value, gets. rewrite Hsel. cbv beta iota.
    rewrite (split_without "|" selected Hs). reflexivity.
  - intros ->. rewrite (showChart_gate filled); [reflexivity | left; exact Hsym].
  - intros Hne.
    pose proof (showChart_requests filled) as Hr.
    rewrite Hsym, Hdate in Hr. apply Hr; [exact Hne | discriminate].
Qed.

End Outcomes.

(** ** Loading the entries *)

Section Entries.
Context `{Host}.

Lemma map_completion_throws {A B : Type} (f : A -> Completion B) (l : list A) :
  Exists (fun a => exists e, f a = Throw e) l -> exists e, map_completion f l = Throw e.
Proof.
  induction 1 as [a l [e Ha] | a l _ [e IH]]; simpl.
  - rewrite Ha. exists e. reflexivity.
  - destruct (f a) as [b|e']; simpl.
    + rewrite IH. exists e. reflexivity.
    + exists e'. reflexivity.
Qed.

(** X18. The selection control is filled with all the entries or not at
    all: when one item of the list the backend sends is [null] or
    [undefined], no option is written, not even for the items before it;
    the error is logged and the control is left as it was. *)
Theorem loadDbEntries_all_or_nothing (w : World) (items : list JSValue) :
  let request := GET "/api/entries" in
  let issued := set_requests (requests w ++ [request]) w in
  Exists (fun v => isNullish v = true) items ->
  network w request = Responds (Json (JArray items)) ->
  exists error,
    loadDbEntries w =
      (Normal tt, set_console (console w ++ [("Error loading database entries:", error)]) issued).
Proof.
  cbv zeta. intros Hitems Hnet.
  destruct (map_completion_throws option_markup items) as [error Herr].
  { apply (Exists_impl _ _ _ Hitems). intros v Hv. exists TypeError.
    destruct v; try discriminate Hv; reflexivity. }
  exists error. unfold loadDbEntries, try_catch.
  rewrite !run_bind. unfold fetch. rewrite Hnet. cbv beta iota.
  unfold lift. simpl await. cbv beta iota. rewrite !run_bind. simpl json. cbv beta iota.
  unfold entries_markup. rewrite Herr. reflexivity.
Qed.

(** X19. Whatever the backend answers, [loadDbEntries] issues its one
    request and touches nothing but the selection control and the console:
    the two inputs and every value but the control's own, the display
    fields, the alerts, the chart and its container are as they were; and
    either the content of the control is replaced, its value becoming the
    one the browser reports for the new content, and nothing is logged, or
    one error is logged and the control is as it was, content and value. *)
Theorem loadDbEntries_touches (w : World) :
  let w' := snd (loadDbEntries w) in
  requests w' = (requests w ++ [GET "/api/entries"])%list /\
  (forall id, id <> "db-entries" -> values w' !! id = values w !! id) /\
  (texts w', alerts w', chart w', charts w') = (texts w, alerts w, chart w, charts w) /\
  mounted w' !! "chart-container" = mounted w !! "chart-container" /\
  ((console w' = console w /\
    exists html, markup w' = <["db-entries" := html]> (markup w) /\
                 values w' = <["db-entries" := ControlValue html]> (values w)) \/
   (markup w' = markup w /\ values w' = values w /\
    exists error, console w' = (console w ++ [("Error loading database entries:", error)])%list)).
Proof.
  cbv zeta. unfold loadDbEntries, try_catch.
  rewrite !run_bind. unfold fetch. cbv beta iota.
  destruct (network w (GET "/api/entries")) as [[v|reason]|t reason];
    unfold lift; simpl await; cbv beta iota; rewrite ?run_bind; simpl json; cbv beta iota.
  - rewrite ?run_bind. destruct (entries_markup v) as [html|error]; simpl.
    + split; [reflexivity|]. split; [intros id Hid; apply lookup_insert_ne; congruence|].
      split; [reflexivity|]. split; [apply lookup_insert_ne; discriminate|].
      left. split; [reflexivity | exists html; split; reflexivity].
    + split; [reflexivity|]. split; [intros id Hid; reflexivity|].
      split; [reflexivity|]. split; [reflexivity|].
      right. split; [reflexivity | split; [reflexivity | exists error; reflexivity]].
  - split; [reflexivity|]. split; [intros id Hid; reflexivity|].
    split; [reflexivity|]. split; [reflexivity|].
    right. split; [reflexivity | split; [reflexivity | eexists; reflexivity]].
  - split; [reflexivity|]. split; [intros id Hid; reflexivity|].
    split; [reflexivity|]. split; [reflexivity|].
    right. split; [reflexivity | split; [reflexivity | eexists; reflexivity]].
Qed.

End Entries.

(** ** One chart in the container *)

Section OneChart.
Context `{Host}.

Lemma keeps_bind {A B : Type} (I : World -> Prop) (a : Action A) (f : A -> Action B) :
  keeps I a -> (forall x, keeps I (f x)) -> keeps I (a ≫= f).
Proof.
  intros Ha Hf w Hw. rewrite run_bind. specialize (Ha w Hw).
  destruct (a w) as [[x|e] w1]; simpl in *; [apply Hf, Ha | exact Ha].
Qed.

Lemma keeps_try_catch {A : Type} (I : World -> Prop) (a : Action A) (h : Thrown -> Action A) :
  keeps I a -> (forall e, keeps I (h e)) -> keeps I (try_catch a h).
Proof.
  intros Ha Hh w Hw. unfold try_catch. specialize (Ha w Hw).
  destruct (a w) as [[x|e] w1]; simpl in *; [exact Ha | apply Hh, Ha].
Qed.

Lemma keeps_call_async (I : World -> Prop) (a : Action unit) :
  keeps I a -> keeps I (call_async a).
Proof. intros Ha w Hw. apply Ha, Hw. Qed.

Lemma keeps_single_chart {A : Type} (a : Action A) :
  preserves chart_state a -> keeps single_chart a.
Proof. intros Ha w Hw. exact (single_chart_state w _ (Ha w) Hw). Qed.

Lemma set_innerHTML_state (id html : string) :
  id <> "chart-container" -> preserves chart_state (set_innerHTML id html).
Proof.
  intros Hid w. unfold chart_state, set_innerHTML, modify. cbv zeta. simpl snd.
  destruct (String.eqb id selection_control); simpl;
    rewrite lookup_insert_ne by exact Hid; reflexivity.
Qed.

Lemma updateStockInfo_state (info : JSValue) : preserves chart_state (updateStockInfo info).
Proof. unfold updateStockInfo, set_textContent. frame. Qed.

Lemma clearStockInfo_state : preserves chart_state clearStockInfo.
Proof. intros w. reflexivity. Qed.

Lemma showChart_keeps_single_chart : keeps single_chart showChart.
Proof.
  unfold showChart.
  repeat match goal with
    | |- keeps _ (renderChart _ _) => intros ? ?; apply renderChart_single; assumption
    | |- keeps _ (updateStockInfo _) => apply keeps_single_chart, updateStockInfo_state
    | |- keeps _ clearStockInfo => apply keeps_single_chart, clearStockInfo_state
    | |- keeps _ (_ ≫= _) => apply keeps_bind; [|intros ?]
    | |- keeps _ (try_catch _ _) => apply keeps_try_catch; [|intros ?]
    | |- keeps _ (if ?c then _ else _) => destruct c
    | |- keeps _ _ => apply keeps_single_chart; intros ?; reflexivity
    end.
Qed.

(** X20. Every handler keeps the container at one chart: if, before
    [showChart], [showDbChart], [loadDbEntries] or [fetchStockInfo] runs, the
    container holds no chart while the module variable is [null] and
    otherwise exactly the instance the variable refers to, the same is true
    afterwards, whatever the backend answered. *)
Theorem handlers_keep_single_chart (w : World) :
  single_chart w ->
  single_chart (snd (showChart w)) /\
  single_chart (snd (showDbChart w)) /\
  single_chart (snd (loadDbEntries w)) /\
  (forall symbol : string, single_chart (snd (fetchStockInfo symbol w))).
Proof.
  intros Hw. split; [|split; [|split]].
  - apply showChart_keeps_single_chart, Hw.
  - revert w Hw. change (keeps single_chart showDbChart). unfold showDbChart.
    apply keeps_bind; [apply keeps_single_chart; intros ?; reflexivity | intros selected].
    cbv zeta.
    apply keeps_bind; [apply keeps_single_chart; unfold set_value; frame | intros _].
    apply keeps_bind; [apply keeps_single_chart; unfold set_value; frame | intros _].
    apply keeps_call_async, showChart_keeps_single_chart.
  - revert w Hw. change (keeps single_chart loadDbEntries). unfold loadDbEntries.
    apply keeps_single_chart.
    repeat match goal with
      | |- preserves _ (set_innerHTML _ _) => apply set_innerHTML_state; discriminate
      | |- preserves _ (_ ≫= _) => apply preserves_bind; [|intros ?]
      | |- preserves _ (try_catch _ _) => apply preserves_try_catch; [|intros ?]
      | |- preserves _ _ => intros ?; reflexivity
      end.
  - intros symbol. revert w Hw. change (keeps single_chart (fetchStockInfo symbol)).
    unfold fetchStockInfo. apply keeps_single_chart.
    repeat match goal with
      | |- preserves _ (updateStockInfo _) => apply updateStockInfo_state
      | |- preserves _ clearStockInfo => apply clearStockInfo_state
      | |- preserves _ (_ ≫= _) => apply preserves_bind; [|intros ?]
      | |- preserves _ (try_catch _ _) => apply preserves_try_catch; [|intros ?]
      | |- preserves _ _ => intros ?; reflexivity
      end.
Qed.

End OneChart.

(** ** The handlers on sample pages, continued *)

(** X14, on a sample page whose backend is down. *)
Lemma showChart_reports_in_full_witness :
  let w := sample_page "AAPL" "2024-01-02" ""
             (backend (Fails 0 "offline") (Fails 1 "offline") (Fails 0 "offline")) in
  let w' := snd (@showChart sample_host w) in
  (value_of w "symbol" <> "" /\ value_of w "purchase-date" <> "") /\
  requests w' = (requests w ++ [chart_request "AAPL" "2024-01-02"; info_request "AAPL"])%list /\
  values w' = values w /\
  ((alerts w' = alerts w /\ console w' = console w) \/
   (exists error,
      alerts w' = (alerts w ++ ["Error loading data"])%list /\
      console w' = (console w ++ [("Error loading data:", error)])%list /\
      Forall (fun id => texts w' !! id = Some "-") info_fields)).
Proof.
  cbv zeta. split; [split; discriminate|].
  apply (@showChart_reports_in_full sample_host
           (sample_page "AAPL" "2024-01-02" ""
              (backend (Fails 0 "offline") (Fails 1 "offline") (Fails 0 "offline"))));
    discriminate.
Defined.

(** X15, on a sample page: the backend sends chart data and an info record
    whose 52-week high is the string ["N/A"]. *)
Lemma showChart_update_fails_witness :
  let info := JObject [("name", JString "Apple Inc."); ("fifty_two_week_high", JString "N/A")] in
  let props := [("candlestick", JArray []); ("volume", JArray []);
                ("purchase_timestamp", JNumber 1704153600)] in
  let w := sample_page "AAPL" "2024-01-02" ""
             (backend (Responds (Json (JObject props))) (Responds (Json info)) (Fails 0 "offline")) in
  let issued :=
    set_requests (requests w ++ [chart_request "AAPL" "2024-01-02"; info_request "AAPL"]) w in
  let rendered := snd (@renderChart sample_host (JObject props) (JString "AAPL") issued) in
  (value_of w "symbol" <> "" /\ value_of w "purchase-date" <> "" /\
   @chart_data sample_host props (JArray []) (JArray []) (JNumber 1704153600) /\
   network w (chart_request "AAPL" "2024-01-02") = Responds (Json (JObject props)) /\
   network w (info_request "AAPL") = Responds (Json info) /\
   fst (@updateStockInfo sample_host info rendered) = Throw TypeError) /\
  @showChart sample_host w = (Normal tt, reported TypeError rendered) /\
  charts (snd (@showChart sample_host w))
  = (charts w ++ [expected_chart (JArray []) (JArray []) (JNumber 1704153600)])%list /\
  alerts (snd (@showChart sample_host w)) = (alerts w ++ ["Error loading data"])%list.
Proof.
  cbv zeta.
  split; [split; [discriminate | split; [discriminate | split;
            [exact sample_chart_data_taken | repeat split; reflexivity]]]|].
  apply (@showChart_update_fails sample_host
           (sample_page "AAPL" "2024-01-02" ""
              (backend (Responds (Json (JObject [("candlestick", JArray []); ("volume", JArray []);
                                                 ("purchase_timestamp", JNumber 1704153600)])))
                       (Responds (Json (JObject [("name", JString "Apple Inc.");
                                                 ("fifty_two_week_high", JString "N/A")])))
                       (Fails 0 "offline")))
           [("candlestick", JArray []); ("volume", JArray []);
            ("purchase_timestamp", JNumber 1704153600)]
           (JArray []) (JArray []) (JNumber 1704153600)
           (JObject [("name", JString "Apple Inc."); ("fifty_two_week_high", JString "N/A")])
           TypeError);
    first [discriminate | exact sample_chart_data_taken | reflexivity].
Defined.

(** X16, on a sample page whose backend is down. *)
Lemma fetchStockInfo_reports_witness :
  let w := sample_page "" "" ""
             (backend (Fails 0 "offline") (Fails 0 "offline") (Fails 0 "offline")) in
  network w (info_request "AAPL") = Fails 0 "offline" /\
  @fetchStockInfo sample_host "AAPL" w =
    (Normal tt,
     set_texts (cleared (texts w))
       (set_console (console w ++ [("Error fetching stock info:", Rejection "offline")])
          (set_requests (requests w ++ [info_request "AAPL"]) w))).
Proof.
  cbv zeta. split; [reflexivity|].
  apply (proj1 (@fetchStockInfo_reports sample_host "AAPL" _) 0%nat "offline"). reflexivity.
Defined.

(** X17, on a sample page whose selection is [AAPL], without a date. *)
Lemma showDbChart_without_separator_witness :
  let w := sample_page "" "" "AAPL"
             (backend (Fails 0 "offline") (Fails 0 "offline") (Fails 0 "offline")) in
  let filled :=
    set_values (<["purchase-date" := "undefined"]> (<["symbol" := "AAPL"]> (values w))) w in
  (occurs "|" "AAPL" = false /\ value_of w "db-entries" = "AAPL") /\
  @showDbChart sample_host w = (Normal tt, snd (@showChart sample_host filled)) /\
  ("AAPL" = "" ->
   snd (@showChart sample_host filled)
   = set_alerts (alerts w ++ ["Please enter both symbol and date"]) filled) /\
  ("AAPL" <> "" ->
   requests (snd (@showChart sample_host filled))
   = (requests w ++ [chart_request "AAPL" "undefined"; info_request "AAPL"])%list).
Proof.
  cbv zeta. split; [split; reflexivity|].
  apply (@showDbChart_without_separator sample_host); reflexivity.
Defined.

(** X18, on a sample page: the second of two items is [null]. *)
Lemma loadDbEntries_all_or_nothing_witness :
  let items := [entry_record ("AAPL", "2024-01-02"); JNull] in
  let w := sample_page "" "" ""
             (backend (Fails 0 "offline") (Fails 0 "offline") (Responds (Json (JArray items)))) in
  (Exists (fun v => isNullish v = true) items /\
   network w (GET "/api/entries") = Responds (Json (JArray items))) /\
  exists error,
    @loadDbEntries sample_host w =
      (Normal tt,
       set_console (console w ++ [("Error loading database entries:", error)])
         (set_requests (requests w ++ [GET "/api/entries"]) w)).
Proof.
  cbv zeta.
  assert (Hitems : Exists (fun v => isNullish v = true) [entry_record ("AAPL", "2024-01-02"); JNull])
    by (right; left; reflexivity).
  split; [split; [exact Hitems | reflexivity]|].
  apply (@loadDbEntries_all_or_nothing sample_host _ [entry_record ("AAPL", "2024-01-02"); JNull]);
    [exact Hitems | reflexivity].
Defined.

(** X20, on a fresh page. *)
Lemma handlers_keep_single_chart_witness :
  let w := sample_page "AAPL" "2024-01-02" ""
             (backend (Responds (Json sample_chart_data)) (Responds (Json sample_info))
                      (Fails 0 "offline")) in
  single_chart w /\
  single_chart (snd (@showChart sample_host w)) /\
  single_chart (snd (@showDbChart sample_host w)) /\
  single_chart (snd (@loadDbEntries sample_host w)) /\
  (forall symbol : string, single_chart (snd (@fetchStockInfo sample_host symbol w))).
Proof.
  cbv zeta. split; [reflexivity|].
  apply (@handlers_keep_single_chart sample_host). reflexivity.
Defined.

(** ** What the info panel shows *)

Section Shows.
Context `{Host}.

Lemma assign_raw_run (id : string) (c : Completion JSValue) (w : World) :
  (lift c ≫= set_textContent id) w =
    match c ≫= textContent_of with
    | Normal s => (Normal tt, set_texts (<[id := s]> (texts w)) w)
    | Throw e => (Throw e, w)
    end.
Proof.
  destruct c as [v|e]; [|reflexivity]. rewrite run_bind. unfold lift, set_textContent.
  rewrite run_bind. unfold lift.
  change (Normal v ≫= textContent_of) with (textContent_of v). unfold textContent_of.
  destruct (match v with JNull | JUndefined => Normal "" | _ => ToString v end); reflexivity.
Qed.

Lemma assign_string_run (id : string) (c : Completion string) (w : World) :
  (lift c ≫= (λ s, set_textContent id (JString s))) w =
    match c with
    | Normal s => (Normal tt, set_texts (<[id := s]> (texts w)) w)
    | Throw e => (Throw e, w)
    end.
Proof. destruct c; reflexivity. Qed.

(** X21. When [updateStockInfo] returns, each of the nine fields shows its
    own property of the info, through its own formatter: the name, the
    sector and the industry as text, the market capitalisation through
    [formatMarketCap], the P/E ratio through [formatNumber], the dividend
    yield through [formatPercentage], the two 52-week prices through
    [formatPrice] and the average volume through [formatVolume]; no other
    display field is written. *)
Theorem updateStockInfo_shows (info : JSValue) (w : World) :
  fst (updateStockInfo info w) = Normal tt ->
  exists name sector industry cap pe yield high low volume : string,
    (Get info "name" ≫= textContent_of) = Normal name /\
    (Get info "sector" ≫= textContent_of) = Normal sector /\
    (Get info "industry" ≫= textContent_of) = Normal industry /\
    (Get info "market_cap" ≫= formatMarketCap) = Normal cap /\
    (Get info "pe_ratio" ≫= formatNumber) = Normal pe /\
    (Get info "dividend_yield" ≫= formatPercentage) = Normal yield /\
    (Get info "fifty_two_week_high" ≫= formatPrice) = Normal high /\
    (Get info "fifty_two_week_low" ≫= formatPrice) = Normal low /\
    (Get info "avg_volume" ≫= formatVolume) = Normal volume /\
    texts (snd (updateStockInfo info w)) =
      <["avg-volume" := volume]> (<["52w-low" := low]> (<["52w-high" := high]>
      (<["dividend-yield" := yield]> (<["pe-ratio" := pe]> (<["market-cap" := cap]>
      (<["industry" := industry]> (<["sector" := sector]> (<["company-name" := name]>
      (texts w))))))))).
Proof.
  unfold updateStockInfo.
  rewrite run_bind, assign_raw_run.
  destruct (Get info "name" ≫= textContent_of) as [name|e]; [cbv iota beta | discriminate].
  rewrite run_bind, assign_raw_run.
  destruct (Get info "sector" ≫= textContent_of) as [sector|e]; [cbv iota beta | discriminate].
  rewrite run_bind, assign_raw_run.
  destruct (Get info "industry" ≫= textContent_of) as [industry|e]; [cbv iota beta | discriminate].
  rewrite run_bind, assign_string_run.
  destruct (Get info "market_cap" ≫= formatMarketCap) as [cap|e]; [cbv iota beta | discriminate].
  rewrite run_bind, assign_string_run.
  destruct (Get info "pe_ratio" ≫= formatNumber) as [pe|e]; [cbv iota beta | discriminate].
  rewrite run_bind, assign_string_run.
  destruct (Get info "dividend_yield" ≫= formatPercentage) as [yield|e]; [cbv iota beta | discriminate].
  rewrite run_bind, assign_string_run.
  destruct (Get info "fifty_two_week_high" ≫= formatPrice) as [high|e]; [cbv iota beta | discriminate].
  rewrite run_bind, assign_string_run.
  destruct (Get info "fifty_two_week_low" ≫= formatPrice) as [low|e]; [cbv iota beta | discriminate].
  rewrite assign_string_run.
  destruct (Get info "avg_volume" ≫= formatVolume) as [volume|e]; [cbv iota beta | discriminate].
  intros _. exists name, sector, industry, cap, pe, yield, high, low, volume.
  repeat split; reflexivity.
Qed.

(** X22. When both requests succeed, the parsed chart data is chart data
    (a record holding candlestick data and volume data the charting library
    takes, and a purchase timestamp), and [updateStockInfo] returns on the
    info, [showChart] leaves the page [updateStockInfo] left after
    [renderChart]: the chart drawn from the chart data as the newest
    instance, the info panel updated, no alert shown and nothing logged. *)
Theorem showChart_succeeds (w : World) (props : list (string * JSValue))
    (candlestick volume time i : JSValue) :
  let symbol := value_of w "symbol" in
  let date := value_of w "purchase-date" in
  let issued :=
    set_requests (requests w ++ [chart_request symbol date; info_request symbol]) w in
  let rendered := snd (renderChart (JObject props) (JString symbol) issued) in
  symbol <> "" -> date <> "" ->
  chart_data props candlestick volume time ->
  network w (chart_request symbol date) = Responds (Json (JObject props)) ->
  network w (info_request symbol) = Responds (Json i) ->
  fst (updateStockInfo i rendered) = Normal tt ->
  showChart w = (Normal tt, snd (updateStockInfo i rendered)) /\
  charts (snd (showChart w)) = (charts w ++ [expected_chart candlestick volume time])%list /\
  chart (snd (showChart w)) = Some (length (charts w)) /\
  alerts (snd (showChart w)) = alerts w /\
  console (snd (showChart w)) = console w.
Proof.
  cbv zeta. intros Hs Hd Hdata Hc Hi Hu.
  set (issued := set_requests (requests w ++ [chart_request (value_of w "symbol") (value_of w "purchase-date");
                                             info_request (value_of w "symbol")]) w) in *.
  pose proof (renderChart_run props candlestick volume time (JString (value_of w "symbol")) issued Hdata)
    as Hrun. cbv zeta in Hrun.
  assert (E : showChart w = (Normal tt, snd (updateStockInfo i
            (snd (renderChart (JObject props) (JString (value_of w "symbol")) issued))))).
  { rewrite (showChart_run w Hs Hd), Hc, Hi. cbn [await_all json mbind Completion_bind fst snd].
    fold issued. rewrite Hrun in Hu |- *. cbn [fst snd] in Hu |- *.
    destruct (updateStockInfo i _) as [[[]|error'] updated]; simpl in Hu; [reflexivity|].
    discriminate Hu. }
  rewrite E. split; [reflexivity|]. cbn [snd].
  pose proof (updateStockInfo_beside_texts i
    (snd (renderChart (JObject props) (JString (value_of w "symbol")) issued))) as Hbt.
  unfold beside_texts in Hbt. injection Hbt as -> _ _ _ -> -> -> _ _.
  rewrite Hrun. subst issued. simpl. destruct (chart w); repeat split; reflexivity.
Qed.

End Shows.

(** X21, on the sample info. *)
Lemma updateStockInfo_shows_witness :
  let w := sample_page "" "" "" (backend (Fails 0 "offline") (Fails 0 "offline") (Fails 0 "offline")) in
  fst (@updateStockInfo sample_host sample_info w) = Normal tt /\
  exists name sector industry cap pe yield high low volume : string,
    (Get sample_info "name" ≫= @textContent_of sample_host) = Normal name /\
    (Get sample_info "sector" ≫= @textContent_of sample_host) = Normal sector /\
    (Get sample_info "industry" ≫= @textContent_of sample_host) = Normal industry /\
    (Get sample_info "market_cap" ≫= @formatMarketCap sample_host) = Normal cap /\
    (Get sample_info "pe_ratio" ≫= @formatNumber sample_host) = Normal pe /\
    (Get sample_info "dividend_yield" ≫= @formatPercentage sample_host) = Normal yield /\
    (Get sample_info "fifty_two_week_high" ≫= formatPrice) = Normal high /\
    (Get sample_info "fifty_two_week_low" ≫= formatPrice) = Normal low /\
    (Get sample_info "avg_volume" ≫= @formatVolume sample_host) = Normal volume /\
    texts (snd (@updateStockInfo sample_host sample_info w)) =
      <["avg-volume" := volume]> (<["52w-low" := low]> (<["52w-high" := high]>
      (<["dividend-yield" := yield]> (<["pe-ratio" := pe]> (<["market-cap" := cap]>
      (<["industry" := industry]> (<["sector" := sector]> (<["company-name" := name]>
      (texts w))))))))).
Proof.
  cbv zeta. split; [reflexivity|].
  apply (@updateStockInfo_shows sample_host). reflexivity.
Defined.

(** X22, on a sample page whose backend answers both requests. *)
Lemma showChart_succeeds_witness :
  let props := [("candlestick", JArray []); ("volume", JArray []);
                ("purchase_timestamp", JNumber 1704153600)] in
  let w := sample_page "AAPL" "2024-01-02" ""
             (backend (Responds (Json (JObject props))) (Responds (Json sample_info))
                      (Fails 0 "offline")) in
  let issued :=
    set_requests (requests w ++ [chart_request "AAPL" "2024-01-02"; info_request "AAPL"]) w in
  let rendered := snd (@renderChart sample_host (JObject props) (JString "AAPL") issued) in
  (value_of w "symbol" <> "" /\ value_of w "purchase-date" <> "" /\
   @chart_data sample_host props (JArray []) (JArray []) (JNumber 1704153600) /\
   network w (chart_request "AAPL" "2024-01-02") = Responds (Json (JObject props)) /\
   network w (info_request "AAPL") = Responds (Json sample_info) /\
   fst (@updateStockInfo sample_host sample_info rendered) = Normal tt) /\
  @showChart sample_host w = (Normal tt, snd (@updateStockInfo sample_host sample_info rendered)) /\
  charts (snd (@showChart sample_host w))
  = (charts w ++ [expected_chart (JArray []) (JArray []) (JNumber 1704153600)])%list /\
  chart (snd (@showChart sample_host w)) = Some (length (charts w)) /\
  alerts (snd (@showChart sample_host w)) = alerts w /\
  console (snd (@showChart sample_host w)) = console w.
Proof.
  cbv zeta.
  split; [split; [discriminate | split; [discriminate | split;
            [exact sample_chart_data_taken | repeat split; reflexivity]]]|].
  apply (@showChart_succeeds sample_host
           (sample_page "AAPL" "2024-01-02" ""
              (backend (Responds (Json (JObject [("candlestick", JArray []); ("volume", JArray []);
                                                 ("purchase_timestamp", JNumber 1704153600)])))
                       (Responds (Json sample_info)) (Fails 0 "offline")))
           [("candlestick", JArray []); ("volume", JArray []);
            ("purchase_timestamp", JNumber 1704153600)]
           (JArray []) (JArray []) (JNumber 1704153600)
           sample_info);
    first [discriminate | exact sample_chart_data_taken | reflexivity].
Defined.

(** ** Loading the entries again *)

Section Again.
Context `{Host}.

(** X23. Loading the entries a second time, the backend answering as it did
    the first time, replaces the options and does not append to them: the
    markup of the page after the second run is the markup after the
    first. *)
Theorem loadDbEntries_again (w : World) :
  let once := snd (loadDbEntries w) in
  let twice := snd (loadDbEntries once) in
  markup twice = markup once /\
  mounted twice = mounted once.
Proof.
  cbv zeta.
  assert (Hrun : forall w0,
    loadDbEntries w0 =
      match (b ← await (network w0 (GET "/api/entries")); v ← json b; entries_markup v) with
      | Normal html =>
          (Normal tt,
           set_values (<["db-entries" := ControlValue html]> (values w0))
             (set_mounted (<["db-entries" := []]> (mounted w0))
                (set_markup (<["db-entries" := html]> (markup w0))
                   (set_requests (requests w0 ++ [GET "/api/entries"]) w0))))
      | Throw error =>
          (Normal tt,
           set_console (console w0 ++ [("Error loading database entries:", error)])
             (set_requests (requests w0 ++ [GET "/api/entries"]) w0))
      end).
  { intros w0. unfold loadDbEntries, try_catch. rewrite !run_bind. unfold fetch. cbv beta iota.
    destruct (network w0 (GET "/api/entries")) as [[v|reason]|t reason]; try reflexivity.
    unfold lift. simpl await. cbv beta iota. rewrite ?run_bind. simpl json. cbv beta iota.
    rewrite ?run_bind. cbn [mbind Completion_bind await json]. destruct (entries_markup v); reflexivity. }
  rewrite (Hrun w).
  destruct (_ ≫= _) as [html|error] eqn:Hout.
  - rewrite Hrun. simpl. rewrite Hout. simpl. rewrite !insert_insert_eq. split; reflexivity.
  - rewrite Hrun. simpl. rewrite Hout. split; reflexivity.
Qed.

End Again.
